(** * Order and payment state machines of the modular-monolith e-commerce service

    A shallow embedding of the Go packages [order/domain], [order/application],
    [payment/domain] and [payment/application], with the theorems that relate
    them to the written specification.

    Conventions of the embedding:
    - [float64] is Rocq's primitive binary64 [float]; Go's [int] is a [Z]
      ranging over the 64-bit integers.
    - A Go [map[string]string] is an [option (gmap string string)]: [None] is
      the nil map (reads succeed, a write panics), [Some m] an allocated one.
    - A Go [error] is a value of [error]; [nil] is [None] in [option error].
    - The outside world (storage, gateway, wall clock, UUID source) is a state
      of an arbitrary type [W]; collaborators are functions on [W].  Every
      call through a repository or gateway interface is appended to a trace.
    - A runtime panic is the [Panicked] outcome. *)

From Stdlib Require Import ZArith String List Floats Bool Lia.
From stdpp Require Import gmap strings.
Import ListNotations.

Set Warnings "-inexact-float".
Local Open Scope string_scope.
Local Open Scope list_scope.

(** ** Go runtime notions shared by all packages *)

Module Go.

Definition Time : Type := Z.

(** Package-level error variables.  Each is created once by [errors.New]
    and is compared by identity. *)
Inductive sentinel : Type :=
| OrderDomain_ErrInvalidOrderAmount
| OrderDomain_ErrInvalidOrderItems
| OrderDomain_ErrInvalidOrderStatus
| OrderDomain_ErrOrderNotFound
| OrderDomain_ErrOrderStatusTransition
| OrderApp_ErrInvalidCustomerID
| OrderApp_ErrOrderNotFound
| PaymentDomain_ErrInvalidPaymentAmount
| PaymentDomain_ErrInvalidOrderID
| PaymentDomain_ErrInvalidPaymentMethod
| PaymentDomain_ErrPaymentNotFound
| PaymentApp_ErrPaymentAlreadyExists
| PaymentApp_ErrInvalidPaymentID.

Definition sentinel_message (s : sentinel) : string :=
  match s with
  | OrderDomain_ErrInvalidOrderAmount => "invalid order amount"
  | OrderDomain_ErrInvalidOrderItems => "order must have at least one item"
  | OrderDomain_ErrInvalidOrderStatus => "invalid order status"
  | OrderDomain_ErrOrderNotFound => "order not found"
  | OrderDomain_ErrOrderStatusTransition => "invalid order status transition"
  | OrderApp_ErrInvalidCustomerID => "invalid customer ID"
  | OrderApp_ErrOrderNotFound => "order not found"
  | PaymentDomain_ErrInvalidPaymentAmount => "invalid payment amount"
  | PaymentDomain_ErrInvalidOrderID => "invalid order ID"
  | PaymentDomain_ErrInvalidPaymentMethod => "invalid payment method"
  | PaymentDomain_ErrPaymentNotFound => "payment not found"
  | PaymentApp_ErrPaymentAlreadyExists => "payment already exists for this order"
  | PaymentApp_ErrInvalidPaymentID => "invalid payment ID"
  end.

Definition sentinel_eqb (a b : sentinel) : bool :=
  match a, b with
  | OrderDomain_ErrInvalidOrderAmount, OrderDomain_ErrInvalidOrderAmount
  | OrderDomain_ErrInvalidOrderItems, OrderDomain_ErrInvalidOrderItems
  | OrderDomain_ErrInvalidOrderStatus, OrderDomain_ErrInvalidOrderStatus
  | OrderDomain_ErrOrderNotFound, OrderDomain_ErrOrderNotFound
  | OrderDomain_ErrOrderStatusTransition, OrderDomain_ErrOrderStatusTransition
  | OrderApp_ErrInvalidCustomerID, OrderApp_ErrInvalidCustomerID
  | OrderApp_ErrOrderNotFound, OrderApp_ErrOrderNotFound
  | PaymentDomain_ErrInvalidPaymentAmount, PaymentDomain_ErrInvalidPaymentAmount
  | PaymentDomain_ErrInvalidOrderID, PaymentDomain_ErrInvalidOrderID
  | PaymentDomain_ErrInvalidPaymentMethod, PaymentDomain_ErrInvalidPaymentMethod
  | PaymentDomain_ErrPaymentNotFound, PaymentDomain_ErrPaymentNotFound
  | PaymentApp_ErrPaymentAlreadyExists, PaymentApp_ErrPaymentAlreadyExists
  | PaymentApp_ErrInvalidPaymentID, PaymentApp_ErrInvalidPaymentID => true
  | _, _ => false
  end.

(** Error values.
    - [Sentinel s]: one of the package-level variables;
    - [errors_New msg]: the result of calling [errors.New] inside a function
      body, a fresh value equal to no sentinel;
    - [fmt_Errorf prefix inner]: [fmt.Errorf("<prefix>: %w", inner)];
    - [Foreign msg]: an error made by a collaborator (driver, gateway). *)
Inductive error : Type :=
| Sentinel (s : sentinel)
| errors_New (msg : string)
| fmt_Errorf (prefix : string) (inner : error)
| Foreign (msg : string).

(** [err.Error()] *)
Fixpoint Error (e : error) : string :=
  match e with
  | Sentinel s => sentinel_message s
  | errors_New msg => msg
  | fmt_Errorf prefix inner => String.append prefix (String.append ": " (Error inner))
  | Foreign msg => msg
  end.

(** [errors.Is(err, target)] for a sentinel target: identity, then the
    [%w] chain. *)
Fixpoint errors_Is (e : error) (target : sentinel) : bool :=
  match e with
  | Sentinel s => sentinel_eqb s target
  | fmt_Errorf _ inner => errors_Is inner target
  | errors_New _ | Foreign _ => false
  end.

(** [float64(n)] for an [int] *)
Definition float64_of_int (n : Z) : float :=
  SF2Prim (binary_normalize prec emax n 0 false).

(** How a call ends. *)
Inductive outcome (A : Type) : Type :=
| Returned (a : A)
| Panicked (msg : string).
Arguments Returned {A} a.
Arguments Panicked {A} msg.

Definition nil_map_panic : string := "assignment to entry in nil map".
Definition nil_deref_panic : string :=
  "invalid memory address or nil pointer dereference".

Section Effects.
Context {W C : Type}.

(** World state together with the trace of interface calls made so far. *)
Definition St : Type := W * list C.

Definition M (A : Type) : Type := St -> outcome A * St.

Definition ret {A} (a : A) : M A := fun s => (Returned a, s).

Definition bind {A B} (m : M A) (k : A -> M B) : M B :=
  fun s =>
    match m s with
    | (Returned a, s') => k a s'
    | (Panicked msg, s') => (Panicked msg, s')
    end.

Definition panic {A} (msg : string) : M A := fun s => (Panicked msg, s).

(** An untraced effect: the clock, the UUID source. *)
Definition effect {A} (f : W -> A * W) : M A :=
  fun s => let (a, w') := f (fst s) in (Returned a, (w', snd s)).

(** A traced call through a collaborator interface. *)
Definition invoke {A} (c : C) (f : W -> A * W) : M A :=
  fun s => let (a, w') := f (fst s) in (Returned a, (w', (snd s ++ [c])%list)).

(** A pointer-receiver method: it may mutate the receiver [R], and the
    mutation done before a panic stays in the object. *)
Definition Method (R A : Type) : Type := R -> St -> outcome A * R * St.

Definition callMethod {R A} (m : Method R A) (r : R) : M (A * R) :=
  fun s =>
    match m r s with
    | (Returned a, r', s') => (Returned (a, r'), s')
    | (Panicked msg, _, s') => (Panicked msg, s')
    end.
End Effects.

Arguments St : clear implicits.
Arguments M : clear implicits.
Arguments Method : clear implicits.

(** [time.Now()] and [uuid.New().String()] *)
Record Runtime (W : Type) : Type := {
  time_Now : W -> Time * W;
  uuid_New : W -> string * W
}.
Arguments time_Now {W} _ _.
Arguments uuid_New {W} _ _.

End Go.

Import Go.

Declare Scope go_scope.
Delimit Scope go_scope with go.
Notation "x <- m ;; k" := (bind m (fun x => k))
  (at level 100, m at next level, right associativity) : go_scope.

(** ** package order/domain *)

Module OrderDomain.

Definition OrderStatus : Type := string.

Definition StatusPending : OrderStatus := "pending".
Definition StatusPaid : OrderStatus := "paid".
Definition StatusShipped : OrderStatus := "shipped".
Definition StatusDelivered : OrderStatus := "delivered".
Definition StatusCanceled : OrderStatus := "canceled".

Definition ErrInvalidOrderAmount : error := Sentinel OrderDomain_ErrInvalidOrderAmount.
Definition ErrInvalidOrderItems : error := Sentinel OrderDomain_ErrInvalidOrderItems.
Definition ErrInvalidOrderStatus : error := Sentinel OrderDomain_ErrInvalidOrderStatus.
Definition ErrOrderNotFound : error := Sentinel OrderDomain_ErrOrderNotFound.
Definition ErrOrderStatusTransition : error := Sentinel OrderDomain_ErrOrderStatusTransition.

Record OrderItem : Type := mkOrderItem {
  item_id : string;
  item_productID : string;
  item_name : string;
  item_price : float;
  item_quantity : Z
}.

(** [items] is a [[]*OrderItem]; its pointers are the ones [NewOrderItem]
    returns, which are never nil. *)
Record Order : Type := mkOrder {
  order_id : string;
  order_customerID : string;
  order_items : list OrderItem;
  order_totalAmount : float;
  order_status : OrderStatus;
  order_createdAt : Time;
  order_updatedAt : Time
}.

Definition Subtotal (i : OrderItem) : float :=
  (item_price i * float64_of_int (item_quantity i))%float.

(** The accumulation loop of [NewOrder]. *)
Definition sumSubtotals (items : list OrderItem) : float :=
  fold_left (fun totalAmount item => (totalAmount + Subtotal item)%float) items 0%float.

Definition isValidStatusTransition (from to : OrderStatus) : bool :=
  if String.eqb from StatusPending then
    String.eqb to StatusPaid || String.eqb to StatusCanceled
  else if String.eqb from StatusPaid then
    String.eqb to StatusShipped || String.eqb to StatusCanceled
  else if String.eqb from StatusShipped then
    String.eqb to StatusDelivered || String.eqb to StatusCanceled
  else if String.eqb from StatusDelivered || String.eqb from StatusCanceled then
    false
  else
    false.

Section WithWorld.
Context {W C : Type} (rt : Runtime W).

Definition NewOrderItem (productID name : string) (price : float) (quantity : Z)
  : M W C OrderItem :=
  (id <- effect (uuid_New rt) ;;
   ret (mkOrderItem id productID name price quantity))%go.

Definition NewOrder (customerID : string) (items : list OrderItem)
  : M W C (option Order * option error) :=
  (if Nat.eqb (length items) 0 then
     ret (None, Some ErrInvalidOrderItems)
   else
     let totalAmount := sumSubtotals items in
     if (totalAmount <=? 0)%float then
       ret (None, Some ErrInvalidOrderAmount)
     else
       now <- effect (time_Now rt) ;;
       id <- effect (uuid_New rt) ;;
       ret (Some (mkOrder id customerID items totalAmount StatusPending now now),
            None))%go.

Definition UpdateStatus (status : OrderStatus) : Method W C Order (option error) :=
  fun o s =>
    if negb (isValidStatusTransition (order_status o) status) then
      (Returned (Some ErrOrderStatusTransition), o, s)
    else
      let o1 := mkOrder (order_id o) (order_customerID o) (order_items o)
                  (order_totalAmount o) status (order_createdAt o)
                  (order_updatedAt o) in
      let (now, w') := time_Now rt (fst s) in
      let o2 := mkOrder (order_id o1) (order_customerID o1) (order_items o1)
                  (order_totalAmount o1) (order_status o1) (order_createdAt o1)
                  now in
      (Returned None, o2, (w', snd s)).
End WithWorld.

End OrderDomain.

(** ** package order/application *)

Module OrderApp.
Import OrderDomain.

Definition ErrInvalidCustomerID : error := Sentinel OrderApp_ErrInvalidCustomerID.
Definition ErrOrderNotFound : error := Sentinel OrderApp_ErrOrderNotFound.

Record OrderItemRequest : Type := mkOrderItemRequest {
  ProductID : string;
  Name : string;
  Price : float;
  Quantity : Z
}.

(** Calls through the [OrderRepository] interface.  A [*Order] argument
    that the caller has not dereferenced may be nil. *)
Inductive call : Type :=
| CallSave (order : option Order)
| CallFindByID (id : string)
| CallFindByCustomerID (customerID : string)
| CallUpdate (order : Order)
| CallDelete (id : string).

Record OrderRepository (W : Type) : Type := {
  Save : option Order -> W -> option error * W;
  FindByID : string -> W -> (option Order * option error) * W;
  FindByCustomerID : string -> W -> (list Order * option error) * W;
  Update : Order -> W -> option error * W;
  Delete : string -> W -> option error * W
}.
Arguments Save {W} _ _ _.
Arguments FindByID {W} _ _ _.
Arguments FindByCustomerID {W} _ _ _.
Arguments Update {W} _ _ _.
Arguments Delete {W} _ _ _.

Record OrderUseCase (W : Type) : Type := {
  runtime : Runtime W;
  repo : OrderRepository W
}.
Arguments runtime {W} _.
Arguments repo {W} _.

Section UseCase.
Context {W : Type} (uc : OrderUseCase W).

(** The conversion loop of [CreateOrder]; [items] is the slice built so
    far. *)
Fixpoint convertItems (itemRequests : list OrderItemRequest) (items : list OrderItem)
  : M W call (list OrderItem) :=
  match itemRequests with
  | [] => ret items
  | req :: rest =>
      (item <- NewOrderItem (runtime uc) (ProductID req) (Name req) (Price req)
                 (Quantity req) ;;
       convertItems rest (items ++ [item])%list)%go
  end.

Definition CreateOrder (customerID : string) (itemRequests : list OrderItemRequest)
  : M W call (option Order * option error) :=
  (if String.eqb customerID "" then
     ret (None, Some ErrInvalidCustomerID)
   else if Nat.eqb (length itemRequests) 0 then
     ret (None, Some ErrInvalidOrderItems)
   else
     items <- convertItems itemRequests [] ;;
     r <- NewOrder (runtime uc) customerID items ;;
     match snd r with
     | Some err => ret (None, Some err)
     | None =>
         saveErr <- invoke (CallSave (fst r)) (Save (repo uc) (fst r)) ;;
         match saveErr with
         | Some err => ret (None, Some err)
         | None => ret (fst r, None)
         end
     end)%go.

Definition GetOrder (id : string) : M W call (option Order * option error) :=
  invoke (CallFindByID id) (FindByID (repo uc) id).

Definition GetCustomerOrders (customerID : string)
  : M W call (list Order * option error) :=
  if String.eqb customerID "" then
    ret ([], Some ErrInvalidCustomerID)
  else
    invoke (CallFindByCustomerID customerID) (FindByCustomerID (repo uc) customerID).

Definition UpdateOrderStatus (id : string) (status : OrderStatus)
  : M W call (option Order * option error) :=
  (r <- invoke (CallFindByID id) (FindByID (repo uc) id) ;;
   match snd r with
   | Some err => ret (None, Some err)
   | None =>
       match fst r with
       | None => panic nil_deref_panic
       | Some order =>
           u <- callMethod (UpdateStatus (runtime uc) status) order ;;
           match fst u with
           | Some err => ret (None, Some err)
           | None =>
               updErr <- invoke (CallUpdate (snd u)) (Update (repo uc) (snd u)) ;;
               match updErr with
               | Some err => ret (None, Some err)
               | None => ret (Some (snd u), None)
               end
           end
       end
   end)%go.

Definition CancelOrder (id : string) : M W call (option Order * option error) :=
  UpdateOrderStatus id StatusCanceled.
End UseCase.

End OrderApp.

(** ** package payment/domain *)

Module PaymentDomain.

Definition PaymentStatus : Type := string.

Definition PaymentStatusPending : PaymentStatus := "pending".
Definition PaymentStatusApproved : PaymentStatus := "approved".
Definition PaymentStatusRejected : PaymentStatus := "rejected".
Definition PaymentStatusRefunded : PaymentStatus := "refunded".

Definition PaymentMethod : Type := string.

Definition PaymentMethodCreditCard : PaymentMethod := "credit_card".
Definition PaymentMethodBankTransfer : PaymentMethod := "bank_transfer".
Definition PaymentMethodVirtualAccount : PaymentMethod := "virtual_account".

Definition ErrInvalidPaymentAmount : error := Sentinel PaymentDomain_ErrInvalidPaymentAmount.
Definition ErrInvalidOrderID : error := Sentinel PaymentDomain_ErrInvalidOrderID.
Definition ErrInvalidPaymentMethod : error := Sentinel PaymentDomain_ErrInvalidPaymentMethod.
Definition ErrPaymentNotFound : error := Sentinel PaymentDomain_ErrPaymentNotFound.

Record Payment : Type := mkPayment {
  payment_id : string;
  payment_orderID : string;
  payment_amount : float;
  payment_method : PaymentMethod;
  payment_status : PaymentStatus;
  payment_transactionID : string;
  payment_paymentData : option (gmap string string);
  payment_createdAt : Time;
  payment_updatedAt : Time
}.

(** Field assignments [p.status = v], [p.transactionID = v], ... *)
Definition set_status (v : PaymentStatus) (p : Payment) : Payment :=
  mkPayment (payment_id p) (payment_orderID p) (payment_amount p) (payment_method p)
    v (payment_transactionID p) (payment_paymentData p) (payment_createdAt p)
    (payment_updatedAt p).

Definition set_transactionID (v : string) (p : Payment) : Payment :=
  mkPayment (payment_id p) (payment_orderID p) (payment_amount p) (payment_method p)
    (payment_status p) v (payment_paymentData p) (payment_createdAt p)
    (payment_updatedAt p).

Definition set_paymentData (v : option (gmap string string)) (p : Payment) : Payment :=
  mkPayment (payment_id p) (payment_orderID p) (payment_amount p) (payment_method p)
    (payment_status p) (payment_transactionID p) v (payment_createdAt p)
    (payment_updatedAt p).

Definition set_updatedAt (v : Time) (p : Payment) : Payment :=
  mkPayment (payment_id p) (payment_orderID p) (payment_amount p) (payment_method p)
    (payment_status p) (payment_transactionID p) (payment_paymentData p)
    (payment_createdAt p) v.

Definition refund_refused : error := errors_New "only approved payments can be refunded".

Section WithWorld.
Context {W C : Type} (rt : Runtime W).

Definition NewPayment (orderID : string) (amount : float) (method : PaymentMethod)
    (paymentData : option (gmap string string))
  : M W C (option Payment * option error) :=
  (if String.eqb orderID "" then
     ret (None, Some ErrInvalidOrderID)
   else if (amount <=? 0)%float then
     ret (None, Some ErrInvalidPaymentAmount)
   else if String.eqb method "" then
     ret (None, Some ErrInvalidPaymentMethod)
   else
     now <- effect (time_Now rt) ;;
     id <- effect (uuid_New rt) ;;
     ret (Some (mkPayment id orderID amount method PaymentStatusPending ""
                  paymentData now now),
          None))%go.

(** [p.updatedAt = time.Now()], the last statement of every mutator. *)
Definition touch (p : Payment) (s : St W C) : Payment * St W C :=
  let (now, w') := time_Now rt (fst s) in (set_updatedAt now p, (w', snd s)).

Definition SetTransactionID (transactionID : string) : Method W C Payment unit :=
  fun p s =>
    let p := set_transactionID transactionID p in
    let (p, s) := touch p s in
    (Returned tt, p, s).

Definition Approve (transactionID : string) : Method W C Payment unit :=
  fun p s =>
    let p := set_status PaymentStatusApproved p in
    let p := set_transactionID transactionID p in
    let (p, s) := touch p s in
    (Returned tt, p, s).

Definition Reject (reason : string) : Method W C Payment unit :=
  fun p s =>
    let p := set_status PaymentStatusRejected p in
    match payment_paymentData p with
    | None => (Panicked nil_map_panic, p, s)
    | Some m =>
        let p := set_paymentData (Some (<["reject_reason" := reason]> m)) p in
        let (p, s) := touch p s in
        (Returned tt, p, s)
    end.

Definition Refund (reason : string) : Method W C Payment (option error) :=
  fun p s =>
    if negb (String.eqb (payment_status p) PaymentStatusApproved) then
      (Returned (Some refund_refused), p, s)
    else
      let p := set_status PaymentStatusRefunded p in
      match payment_paymentData p with
      | None => (Panicked nil_map_panic, p, s)
      | Some m =>
          let p := set_paymentData (Some (<["refund_reason" := reason]> m)) p in
          let (p, s) := touch p s in
          (Returned None, p, s)
      end.
End WithWorld.

End PaymentDomain.

(** ** package payment/application *)

Module PaymentApp.
Import PaymentDomain.

Definition ErrPaymentAlreadyExists : error := Sentinel PaymentApp_ErrPaymentAlreadyExists.
Definition ErrInvalidPaymentID : error := Sentinel PaymentApp_ErrInvalidPaymentID.

Module PaymentRepository.
Record t (W : Type) : Type := {
  Save : option Payment -> W -> option error * W;
  FindByID : string -> W -> (option Payment * option error) * W;
  FindByOrderID : string -> W -> (option Payment * option error) * W;
  Update : Payment -> W -> option error * W
}.
Arguments Save {W} _ _ _.
Arguments FindByID {W} _ _ _.
Arguments FindByOrderID {W} _ _ _.
Arguments Update {W} _ _ _.
End PaymentRepository.

Module PaymentGateway.
Record t (W : Type) : Type := {
  ProcessPayment : Payment -> W -> (string * option error) * W;
  RefundPayment : option Payment -> string -> W -> option error * W
}.
Arguments ProcessPayment {W} _ _ _.
Arguments RefundPayment {W} _ _ _ _.
End PaymentGateway.

(** Calls through the two collaborator interfaces.  A [*Payment] argument
    that the caller has not dereferenced may be nil. *)
Inductive call : Type :=
| RepoSave (payment : option Payment)
| RepoFindByID (id : string)
| RepoFindByOrderID (orderID : string)
| RepoUpdate (payment : Payment)
| GatewayProcessPayment (payment : Payment)
| GatewayRefundPayment (payment : option Payment) (reason : string).

Record PaymentUseCase (W : Type) : Type := {
  runtime : Runtime W;
  repo : PaymentRepository.t W;
  gateway : PaymentGateway.t W
}.
Arguments runtime {W} _.
Arguments repo {W} _.
Arguments gateway {W} _.

Section UseCase.
Context {W : Type} (uc : PaymentUseCase W).

Definition CreatePayment (orderID : string) (amount : float) (method : PaymentMethod)
    (paymentData : option (gmap string string))
  : M W call (option Payment * option error) :=
  (r <- invoke (RepoFindByOrderID orderID)
          (PaymentRepository.FindByOrderID (repo uc) orderID) ;;
   let existingPayment := fst r in
   (* err != nil && !errors.Is(err, domain.ErrPaymentNotFound) *)
   match match snd r with
         | Some err =>
             if negb (errors_Is err PaymentDomain_ErrPaymentNotFound)
             then Some err else None
         | None => None
         end
   with
   | Some err => ret (None, Some (fmt_Errorf "failed to check existing payment" err))
   | None =>
       match existingPayment with
       | Some _ => ret (None, Some ErrPaymentAlreadyExists)
       | None =>
           n <- NewPayment (runtime uc) orderID amount method paymentData ;;
           match snd n with
           | Some err => ret (None, Some err)
           | None =>
               saveErr <- invoke (RepoSave (fst n))
                            (PaymentRepository.Save (repo uc) (fst n)) ;;
               match saveErr with
               | Some err => ret (None, Some (fmt_Errorf "failed to save payment" err))
               | None => ret (fst n, None)
               end
           end
       end
   end)%go.

Definition ProcessPayment (paymentID : string)
  : M W call (option Payment * option error) :=
  (if String.eqb paymentID "" then
     ret (None, Some ErrInvalidPaymentID)
   else
     r <- invoke (RepoFindByID paymentID)
            (PaymentRepository.FindByID (repo uc) paymentID) ;;
     match snd r with
     | Some err => ret (None, Some err)
     | None =>
         match fst r with
         | None => panic nil_deref_panic
         | Some payment =>
             if negb (String.eqb (payment_status payment) PaymentStatusPending) then
               ret (Some payment, None)
             else
               g <- invoke (GatewayProcessPayment payment)
                      (PaymentGateway.ProcessPayment (gateway uc) payment) ;;
               let transactionID := fst g in
               match snd g with
               | Some err =>
                   u <- callMethod (Reject (runtime uc) (Error err)) payment ;;
                   let payment := snd u in
                   updateErr <- invoke (RepoUpdate payment)
                                  (PaymentRepository.Update (repo uc) payment) ;;
                   match updateErr with
                   | Some updateErr =>
                       ret (None,
                            Some (fmt_Errorf
                                    "failed to update payment status after rejection"
                                    updateErr))
                   | None =>
                       ret (Some payment,
                            Some (fmt_Errorf "payment processing failed" err))
                   end
               | None =>
                   u <- callMethod (Approve (runtime uc) transactionID) payment ;;
                   let payment := snd u in
                   updateErr <- invoke (RepoUpdate payment)
                                  (PaymentRepository.Update (repo uc) payment) ;;
                   match updateErr with
                   | Some err =>
                       ret (None,
                            Some (fmt_Errorf
                                    "failed to update payment status after approval"
                                    err))
                   | None => ret (Some payment, None)
                   end
               end
         end
     end)%go.

Definition GetPayment (id : string) : M W call (option Payment * option error) :=
  if String.eqb id "" then
    ret (None, Some ErrInvalidPaymentID)
  else
    invoke (RepoFindByID id) (PaymentRepository.FindByID (repo uc) id).

Definition GetPaymentByOrderID (orderID : string)
  : M W call (option Payment * option error) :=
  if String.eqb orderID "" then
    ret (None, Some ErrInvalidOrderID)
  else
    invoke (RepoFindByOrderID orderID)
      (PaymentRepository.FindByOrderID (repo uc) orderID).

Definition RefundPayment (id reason : string)
  : M W call (option Payment * option error) :=
  (if String.eqb id "" then
     ret (None, Some ErrInvalidPaymentID)
   else
     r <- invoke (RepoFindByID id) (PaymentRepository.FindByID (repo uc) id) ;;
     match snd r with
     | Some err => ret (None, Some err)
     | None =>
         (* [payment] is passed on without being dereferenced *)
         let payment := fst r in
         gwErr <- invoke (GatewayRefundPayment payment reason)
                    (PaymentGateway.RefundPayment (gateway uc) payment reason) ;;
         match gwErr with
         | Some err => ret (None, Some (fmt_Errorf "refund processing failed" err))
         | None =>
             match payment with
             | None => panic nil_deref_panic
             | Some payment =>
                 u <- callMethod (Refund (runtime uc) reason) payment ;;
                 let payment := snd u in
                 match fst u with
                 | Some err => ret (None, Some err)
                 | None =>
                     updateErr <- invoke (RepoUpdate payment)
                                    (PaymentRepository.Update (repo uc) payment) ;;
                     match updateErr with
                     | Some err =>
                         ret (None,
                              Some (fmt_Errorf
                                      "failed to update payment status after refund"
                                      err))
                     | None => ret (Some payment, None)
                     end
                 end
             end
         end
     end)%go.
End UseCase.

End PaymentApp.

(** ** Vocabulary of the statements *)

Module Spec.
Import OrderDomain.

(** The legal (from, to) pairs of the order status, as the specification
    lists them. *)
Definition transition_table : list (OrderStatus * OrderStatus) :=
  [ (StatusPending, StatusPaid); (StatusPending, StatusCanceled);
    (StatusPaid, StatusShipped); (StatusPaid, StatusCanceled);
    (StatusShipped, StatusDelivered); (StatusShipped, StatusCanceled) ].

(** The total as the specification words it: the sum, over the items in
    their order, of unit price times quantity, in float64. *)
Definition priceTimesQuantity (i : OrderItem) : float :=
  (item_price i * float64_of_int (item_quantity i))%float.

Definition sumOfPriceTimesQuantity (items : list OrderItem) : float :=
  fold_left PrimFloat.add (map priceTimesQuantity items) 0%float.

(** The order after a successful [UpdateStatus]: the status replaced, the
    updated-timestamp set to the clock reading, everything else kept. *)
Definition transitioned (o : Order) (to : OrderStatus) (now : Time) : Order :=
  mkOrder (order_id o) (order_customerID o) (order_items o) (order_totalAmount o)
    to (order_createdAt o) now.

Section WithWorld.
Context {W C : Type} (rt : Runtime W).

(** The order [NewOrder] builds once both guards have passed: the clock
    is read first, then the identifier is drawn. *)
Definition freshOrder (customerID : string) (items : list OrderItem) (s : St W C)
  : Order :=
  let now := fst (time_Now rt (fst s)) in
  let id := fst (uuid_New rt (snd (time_Now rt (fst s)))) in
  mkOrder id customerID items (sumSubtotals items) StatusPending now now.

Definition afterNewOrder (s : St W C) : St W C :=
  (snd (uuid_New rt (snd (time_Now rt (fst s)))), snd s).
End WithWorld.

Import PaymentDomain.

(** The payment after [Approve], [Reject] and [Refund] have run to their
    end at clock reading [now]; [m] is the allocated auxiliary map. *)
Definition approved (p : Payment) (transactionID : string) (now : Time) : Payment :=
  mkPayment (payment_id p) (payment_orderID p) (payment_amount p) (payment_method p)
    PaymentStatusApproved transactionID (payment_paymentData p) (payment_createdAt p) now.

Definition rejected (p : Payment) (m : gmap string string) (reason : string)
    (now : Time) : Payment :=
  mkPayment (payment_id p) (payment_orderID p) (payment_amount p) (payment_method p)
    PaymentStatusRejected (payment_transactionID p)
    (Some (<["reject_reason" := reason]> m)) (payment_createdAt p) now.

Definition refunded (p : Payment) (m : gmap string string) (reason : string)
    (now : Time) : Payment :=
  mkPayment (payment_id p) (payment_orderID p) (payment_amount p) (payment_method p)
    PaymentStatusRefunded (payment_transactionID p)
    (Some (<["refund_reason" := reason]> m)) (payment_createdAt p) now.

(** A repository keeps what it accepted: a lookup by identifier right after
    an accepted [Update] returns the entity that was written. *)
Definition keeps_updates {W : Type} (r : PaymentApp.PaymentRepository.t W) : Prop :=
  forall (q : Payment) (w w' : W),
    PaymentApp.PaymentRepository.Update r q w = (None, w') ->
    exists w'',
      PaymentApp.PaymentRepository.FindByID r (payment_id q) w' = ((Some q, None), w'').

(** The lookup by order reference found nothing: no entity, and either no
    error or the not-found error. *)
Definition reports_absent (r : option Payment * option error) : bool :=
  match r with
  | (None, None) => true
  | (None, Some err) => errors_Is err PaymentDomain_ErrPaymentNotFound
  | (Some _, _) => false
  end.

(** The reading of "fails with InvalidPaymentAmount before any persistence
    call is made": that error is returned and the trace of collaborator
    calls has not grown. *)
Definition rejected_before_any_persistence_call {W : Type}
    (uc : PaymentApp.PaymentUseCase W) (orderID : string) (amount : float)
    (method : PaymentMethod) (paymentData : option (gmap string string))
    (s : St W PaymentApp.call) : Prop :=
  exists w',
    PaymentApp.CreatePayment uc orderID amount method paymentData s =
      (Returned (None, Some ErrInvalidPaymentAmount), (w', snd s)).
End Spec.

(** ** Concrete collaborators

    An in-memory store behind both repository interfaces, the
    [DummyPaymentGateway] of [cmd/service/main.go], and two failing
    collaborators.  They give the concrete worlds on which the theorems below
    are instantiated; the theorems themselves hold for every implementation
    of the interfaces. *)

Module InMemory.
Import OrderDomain PaymentDomain.

Record World : Type := mkWorld {
  clock : Time;
  uuids : list string;
  orders : list Order;
  payments : list Payment
}.

Definition realTime : Runtime World := {|
  time_Now := fun w =>
    (clock w, mkWorld (clock w + 1)%Z (uuids w) (orders w) (payments w));
  uuid_New := fun w =>
    match uuids w with
    | [] => ("", w)
    | u :: rest => (u, mkWorld (clock w) rest (orders w) (payments w))
    end
|}.

Definition set_orders (l : list Order) (w : World) : World :=
  mkWorld (clock w) (uuids w) l (payments w).

Definition set_payments (l : list Payment) (w : World) : World :=
  mkWorld (clock w) (uuids w) (orders w) l.

Definition orderRepo : OrderApp.OrderRepository World := {|
  OrderApp.Save := fun order w =>
    match order with
    | None => (Some (Foreign "nil order"), w)
    | Some o => (None, set_orders (orders w ++ [o]) w)
    end;
  OrderApp.FindByID := fun id w =>
    match find (fun o => String.eqb (order_id o) id) (orders w) with
    | Some o => ((Some o, None), w)
    | None => ((None, Some OrderDomain.ErrOrderNotFound), w)
    end;
  OrderApp.FindByCustomerID := fun customerID w =>
    ((filter (fun o => String.eqb (order_customerID o) customerID) (orders w), None), w);
  OrderApp.Update := fun order w =>
    if existsb (fun o => String.eqb (order_id o) (order_id order)) (orders w)
    then
      (None,
       set_orders
         (map (fun o => if String.eqb (order_id o) (order_id order) then order else o)
            (orders w)) w)
    else (Some OrderDomain.ErrOrderNotFound, w);
  OrderApp.Delete := fun id w =>
    (None, set_orders (filter (fun o => negb (String.eqb (order_id o) id)) (orders w)) w)
|}.

Definition orderUseCase : OrderApp.OrderUseCase World :=
  {| OrderApp.runtime := realTime; OrderApp.repo := orderRepo |}.

Import PaymentApp.

Definition paymentRepo : PaymentRepository.t World := {|
  PaymentRepository.Save := fun payment w =>
    match payment with
    | None => (Some (Foreign "nil payment"), w)
    | Some p => (None, set_payments (payments w ++ [p]) w)
    end;
  PaymentRepository.FindByID := fun id w =>
    match find (fun p => String.eqb (payment_id p) id) (payments w) with
    | Some p => ((Some p, None), w)
    | None => ((None, Some ErrPaymentNotFound), w)
    end;
  PaymentRepository.FindByOrderID := fun orderID w =>
    match find (fun p => String.eqb (payment_orderID p) orderID) (payments w) with
    | Some p => ((Some p, None), w)
    | None => ((None, Some ErrPaymentNotFound), w)
    end;
  PaymentRepository.Update := fun payment w =>
    if existsb (fun p => String.eqb (payment_id p) (payment_id payment)) (payments w)
    then
      (None,
       set_payments
         (map (fun p => if String.eqb (payment_id p) (payment_id payment)
                        then payment else p)
            (payments w)) w)
    else (Some ErrPaymentNotFound, w)
|}.

(** A store that can be read but refuses every write. *)
Definition readOnlyPaymentRepo : PaymentRepository.t World := {|
  PaymentRepository.Save := fun _ w => (Some (Foreign "storage unavailable"), w);
  PaymentRepository.FindByID := PaymentRepository.FindByID paymentRepo;
  PaymentRepository.FindByOrderID := PaymentRepository.FindByOrderID paymentRepo;
  PaymentRepository.Update := fun _ w => (Some (Foreign "storage unavailable"), w)
|}.

(** [DummyPaymentGateway]: approves everything. *)
Definition DummyPaymentGateway : PaymentGateway.t World := {|
  PaymentGateway.ProcessPayment := fun payment w =>
    ((String.append "txn_" (payment_id payment), None), w);
  PaymentGateway.RefundPayment := fun _ _ w => (None, w)
|}.

(** A gateway that declines everything. *)
Definition decliningGateway : PaymentGateway.t World := {|
  PaymentGateway.ProcessPayment := fun _ w => (("", Some (Foreign "card declined")), w);
  PaymentGateway.RefundPayment := fun _ _ w => (Some (Foreign "refund declined"), w)
|}.

Definition paymentUseCase (r : PaymentRepository.t World) (g : PaymentGateway.t World)
  : PaymentUseCase World :=
  {| PaymentApp.runtime := realTime; PaymentApp.repo := r; PaymentApp.gateway := g |}.

Definition emptyWorld : World :=
  mkWorld 1000%Z ["uuid-1"; "uuid-2"; "uuid-3"; "uuid-4"] [] [].

Definition start {C : Type} (w : World) : St World C := (w, []).

(** A payment as [NewPayment] makes it. *)
Definition samplePayment (status : PaymentStatus)
    (paymentData : option (gmap string string)) : Payment :=
  mkPayment "pay-1" "order-1" 1100000%float PaymentMethodCreditCard status ""
    paymentData 900%Z 900%Z.

Definition worldWith (p : Payment) : World := set_payments [p] emptyWorld.

Definition pendingPayment : Payment := samplePayment PaymentStatusPending (Some ∅).

(** A pending payment created without auxiliary data: the map is nil. *)
Definition pendingPaymentNoData : Payment := samplePayment PaymentStatusPending None.

Definition approvedPaymentNoData : Payment :=
  mkPayment "pay-1" "order-1" 1100000%float PaymentMethodCreditCard
    PaymentStatusApproved "txn_pay-1" None 900%Z 1000%Z.

Definition refundedPayment : Payment :=
  mkPayment "pay-1" "order-1" 1100000%float PaymentMethodCreditCard
    PaymentStatusRefunded "txn_pay-1"
    (Some (<["refund_reason" := "customer request"]> ∅)) 900%Z 1000%Z.

Definition dummyUseCase : PaymentUseCase World :=
  paymentUseCase paymentRepo DummyPaymentGateway.

Definition decliningUseCase : PaymentUseCase World :=
  paymentUseCase paymentRepo decliningGateway.

Definition readOnlyUseCase : PaymentUseCase World :=
  paymentUseCase readOnlyPaymentRepo decliningGateway.

Definition worldWithOrder (o : Order) : World := set_orders [o] emptyWorld.

Definition sampleOrder (status : OrderStatus) : Order :=
  mkOrder "order-1" "customer-1"
    [mkOrderItem "item-1" "product-1" "keyboard" 1000000%float 1%Z;
     mkOrderItem "item-2" "product-2" "mouse" 50000%float 2%Z]
    1100000%float status 900%Z 900%Z.

(** Two items whose subtotals overflow to +Inf and -Inf. *)
Definition overflowingItems : list OrderItem :=
  [mkOrderItem "item-1" "product-1" "bulk lot" 1e308%float 10%Z;
   mkOrderItem "item-2" "product-2" "bulk credit" (-1e308)%float 10%Z].

(** The same two items as a request to [CreateOrder]. *)
Definition overflowingRequests : list OrderApp.OrderItemRequest :=
  [OrderApp.mkOrderItemRequest "product-1" "bulk lot" 1e308%float 10%Z;
   OrderApp.mkOrderItemRequest "product-2" "bulk credit" (-1e308)%float 10%Z].

(** The order [CreateOrder] makes of [overflowingRequests] in [emptyWorld]. *)
Definition nanOrder : Order :=
  mkOrder "uuid-3" "customer-1"
    [mkOrderItem "uuid-1" "product-1" "bulk lot" 1e308%float 10%Z;
     mkOrderItem "uuid-2" "product-2" "bulk credit" (-1e308)%float 10%Z]
    nan StatusPending 1000%Z 1000%Z.

(** The payment [CreatePayment] makes in [emptyWorld] when the request
    carries no auxiliary data. *)
Definition createdNoData : Payment :=
  mkPayment "uuid-1" "order-1" 1100000%float PaymentMethodCreditCard
    PaymentStatusPending "" None 1000%Z 1000%Z.

(** Items with a negative price, a zero quantity, a zero price and a
    negative quantity, whose subtotals add up to 147. *)
Definition mixedItems : list OrderItem :=
  [mkOrderItem "item-1" "product-1" "keyboard" 100%float 2%Z;
   mkOrderItem "item-2" "product-2" "coupon" (-50)%float 1%Z;
   mkOrderItem "item-3" "product-3" "sample" 7%float 0%Z;
   mkOrderItem "item-4" "product-4" "gift" 0%float 5%Z;
   mkOrderItem "item-5" "product-5" "return" 3%float (-1)%Z].
End InMemory.

(** ** package member/domain *)

Module MemberDomain.

(** The package-level error variables of the member packages. *)
Inductive sentinel : Type :=
| Domain_ErrInvalidEmail
| Domain_ErrInvalidName
| Domain_ErrInvalidPassword
| Domain_ErrMemberNotFound
| App_ErrMemberAlreadyExists
| Infrastructure_ErrMemberNotFound.

Definition sentinel_eqb (a b : sentinel) : bool :=
  match a, b with
  | Domain_ErrInvalidEmail, Domain_ErrInvalidEmail
  | Domain_ErrInvalidName, Domain_ErrInvalidName
  | Domain_ErrInvalidPassword, Domain_ErrInvalidPassword
  | Domain_ErrMemberNotFound, Domain_ErrMemberNotFound
  | App_ErrMemberAlreadyExists, App_ErrMemberAlreadyExists
  | Infrastructure_ErrMemberNotFound, Infrastructure_ErrMemberNotFound => true
  | _, _ => false
  end.

(** Error values of the member packages: a package-level variable, an error
    a collaborator wrapped with [%w], or an error a collaborator made. *)
Inductive error : Type :=
| Sentinel (s : sentinel)
| Wrapped (prefix : string) (inner : error)
| Foreign (msg : string).

(** [errors.Is(err, target)] for a sentinel target. *)
Fixpoint errors_Is (e : error) (target : sentinel) : bool :=
  match e with
  | Sentinel s => sentinel_eqb s target
  | Wrapped _ inner => errors_Is inner target
  | Foreign _ => false
  end.

Definition ErrInvalidEmail : error := Sentinel Domain_ErrInvalidEmail.
Definition ErrInvalidName : error := Sentinel Domain_ErrInvalidName.
Definition ErrInvalidPassword : error := Sentinel Domain_ErrInvalidPassword.

(** Modelled from the spec: [domain.ErrMemberNotFound] is used by
    [CreateMember], but its declaration is not in the files at hand (the
    one that is declared belongs to the infrastructure package).  The
    specification makes not-found an error kind of its own, distinct from
    storage errors; so it is a package-level variable like the others. *)
Definition ErrMemberNotFound : error := Sentinel Domain_ErrMemberNotFound.

Record Member : Type := mkMember {
  member_id : string;
  member_email : string;
  member_name : string;
  member_password : string;
  member_createdAt : Time;
  member_updatedAt : Time
}.

(** [m.password == password] *)
Definition VerifyPassword (m : Member) (password : string) : bool :=
  String.eqb (member_password m) password.

Section WithWorld.
Context {W C : Type} (rt : Runtime W).

(** [len(password)] counts bytes, as [String.length] does. *)
Definition NewMember (email name password : string)
  : M W C (option Member * option error) :=
  (if String.eqb email "" then
     ret (None, Some ErrInvalidEmail)
   else if String.eqb name "" then
     ret (None, Some ErrInvalidName)
   else if Nat.ltb (String.length password) 8 then
     ret (None, Some ErrInvalidPassword)
   else
     now <- effect (time_Now rt) ;;
     id <- effect (uuid_New rt) ;;
     ret (Some (mkMember id email name password now now), None))%go.

Definition UpdateName (name : string) : Method W C Member (option error) :=
  fun m s =>
    if String.eqb name "" then
      (Returned (Some ErrInvalidName), m, s)
    else
      let m := mkMember (member_id m) (member_email m) name (member_password m)
                 (member_createdAt m) (member_updatedAt m) in
      let (now, w') := time_Now rt (fst s) in
      let m := mkMember (member_id m) (member_email m) (member_name m)
                 (member_password m) (member_createdAt m) now in
      (Returned None, m, (w', snd s)).
End WithWorld.

End MemberDomain.

(** ** package member/application *)

Module MemberApp.
Import MemberDomain.

Definition ErrMemberAlreadyExists : error := Sentinel App_ErrMemberAlreadyExists.

(** Calls through the [MemberRepository] interface. *)
Inductive call : Type :=
| CallSave (member : option Member)
| CallFindByID (id : string)
| CallFindByEmail (email : string)
| CallUpdate (member : Member)
| CallDelete (id : string).

Record MemberRepository (W : Type) : Type := {
  Save : option Member -> W -> option error * W;
  FindByID : string -> W -> (option Member * option error) * W;
  FindByEmail : string -> W -> (option Member * option error) * W;
  Update : Member -> W -> option error * W;
  Delete : string -> W -> option error * W
}.
Arguments Save {W} _ _ _.
Arguments FindByID {W} _ _ _.
Arguments FindByEmail {W} _ _ _.
Arguments Update {W} _ _ _.
Arguments Delete {W} _ _ _.

Record MemberUseCase (W : Type) : Type := {
  runtime : Runtime W;
  repo : MemberRepository W
}.
Arguments runtime {W} _.
Arguments repo {W} _.

Section UseCase.
Context {W : Type} (uc : MemberUseCase W).

Definition CreateMember (email name password : string)
  : M W call (option Member * option error) :=
  (r <- invoke (CallFindByEmail email) (FindByEmail (repo uc) email) ;;
   let existingMember := fst r in
   (* err != nil && !errors.Is(err, domain.ErrMemberNotFound) *)
   match match snd r with
         | Some err =>
             if negb (errors_Is err Domain_ErrMemberNotFound) then Some err else None
         | None => None
         end
   with
   | Some err => ret (None, Some err)
   | None =>
       match existingMember with
       | Some _ => ret (None, Some ErrMemberAlreadyExists)
       | None =>
           n <- NewMember (runtime uc) email name password ;;
           match snd n with
           | Some err => ret (None, Some err)
           | None =>
               saveErr <- invoke (CallSave (fst n)) (Save (repo uc) (fst n)) ;;
               match saveErr with
               | Some err => ret (None, Some err)
               | None => ret (fst n, None)
               end
           end
       end
   end)%go.

Definition GetMember (id : string) : M W call (option Member * option error) :=
  invoke (CallFindByID id) (FindByID (repo uc) id).

Definition UpdateMember (id name : string) : M W call (option Member * option error) :=
  (r <- invoke (CallFindByID id) (FindByID (repo uc) id) ;;
   match snd r with
   | Some err => ret (None, Some err)
   | None =>
       match fst r with
       | None =>
           (* [UpdateName] on a nil receiver: the check of the name comes
              before the first field access *)
           if String.eqb name "" then ret (None, Some ErrInvalidName)
           else panic nil_deref_panic
       | Some member =>
           u <- callMethod (UpdateName (runtime uc) name) member ;;
           match fst u with
           | Some err => ret (None, Some err)
           | None =>
               updErr <- invoke (CallUpdate (snd u)) (Update (repo uc) (snd u)) ;;
               match updErr with
               | Some err => ret (None, Some err)
               | None => ret (Some (snd u), None)
               end
           end
       end
   end)%go.

Definition DeleteMember (id : string) : M W call (option error) :=
  invoke (CallDelete id) (Delete (repo uc) id).
End UseCase.

(** The lookup by e-mail found nobody: no member, and either no error or
    the not-found error. *)
Definition reports_nobody (r : option Member * option error) : bool :=
  match r with
  | (None, None) => true
  | (None, Some err) => errors_Is err Domain_ErrMemberNotFound
  | (Some _, _) => false
  end.

(** A repository keeps what it saved: a lookup by e-mail right after an
    accepted [Save] finds a member. *)
Definition keeps_members {W : Type} (r : MemberRepository W) : Prop :=
  forall (m : Member) (w w' : W),
    Save r (Some m) w = (None, w') ->
    exists q w'', FindByEmail r (member_email m) w' = ((Some q, None), w'').

(** [m.UpdateName(name)] for each name in turn, on the same member. *)
Fixpoint UpdateNameAll {W C : Type} (rt : Runtime W) (names : list string) (m : Member)
    (s : St W C) : Member * St W C :=
  match names with
  | [] => (m, s)
  | name :: rest =>
      match UpdateName rt name m s with
      | (_, m', s') => UpdateNameAll rt rest m' s'
      end
  end.

(** An in-memory member store, for concrete runs. *)
Record Store : Type := mkStore {
  clock : Time;
  uuids : list string;
  members : list Member
}.

Definition storeTime : Runtime Store := {|
  time_Now := fun w => (clock w, mkStore (clock w + 1)%Z (uuids w) (members w));
  uuid_New := fun w =>
    match uuids w with
    | [] => ("", w)
    | u :: rest => (u, mkStore (clock w) rest (members w))
    end
|}.

Definition storeRepo : MemberRepository Store := {|
  Save := fun member w =>
    match member with
    | None => (Some (Foreign "nil member"), w)
    | Some m => (None, mkStore (clock w) (uuids w) (members w ++ [m]))
    end;
  FindByID := fun id w =>
    match find (fun m => String.eqb (member_id m) id) (members w) with
    | Some m => ((Some m, None), w)
    | None => ((None, Some ErrMemberNotFound), w)
    end;
  FindByEmail := fun email w =>
    match find (fun m => String.eqb (member_email m) email) (members w) with
    | Some m => ((Some m, None), w)
    | None => ((None, Some ErrMemberNotFound), w)
    end;
  Update := fun member w =>
    (None,
     mkStore (clock w) (uuids w)
       (map (fun m => if String.eqb (member_id m) (member_id member) then member else m)
          (members w)));
  Delete := fun id w =>
    (None,
     mkStore (clock w) (uuids w)
       (List.filter (fun m => negb (String.eqb (member_id m) id)) (members w)))
|}.

Definition storeUseCase : MemberUseCase Store :=
  {| runtime := storeTime; repo := storeRepo |}.

Definition emptyStore : Store := mkStore 1000%Z ["uuid-1"; "uuid-2"; "uuid-3"] [].

Definition sampleMember : Member :=
  mkMember "uuid-1" "test@example.com" "tester" "password123" 1000%Z 1000%Z.

Definition storeWith (m : Member) : Store :=
  mkStore 1001%Z ["uuid-2"; "uuid-3"] [m].
End MemberApp.

(** ** package shared/db: the configuration read from the environment *)

Module SharedDB.

(** The process environment: the variables that are set, with their values. *)
Definition Env : Type := gmap string string.

Record Config : Type := mkConfig {
  Host : string;
  Port : string;
  User : string;
  Password : string;
  DBName : string;
  SSLMode : string
}.

(** [os.LookupEnv(key)] decides: a variable that is set wins, whatever its
    value. *)
Definition getEnv (env : Env) (key defaultValue : string) : string :=
  match env !! key with
  | Some value => value
  | None => defaultValue
  end.

(** The [Config] that [NewDatabaseFromEnv] hands to [NewDatabase]. *)
Definition configFromEnv (env : Env) : Config :=
  mkConfig (getEnv env "DB_HOST" "localhost")
           (getEnv env "DB_PORT" "5432")
           (getEnv env "DB_USER" "postgres")
           (getEnv env "DB_PASSWORD" "postgres")
           (getEnv env "DB_NAME" "myapp")
           (getEnv env "DB_SSLMODE" "disable").

(** The connection string [NewDatabase] formats from a [Config]:
    ["host=%s port=%s user=%s password=%s dbname=%s sslmode=%s"]. *)
Definition connString (config : Config) : string :=
  String.concat ""
    ["host="; Host config; " port="; Port config; " user="; User config;
     " password="; Password config; " dbname="; DBName config;
     " sslmode="; SSLMode config].

Definition variables : list string :=
  ["DB_HOST"; "DB_PORT"; "DB_USER"; "DB_PASSWORD"; "DB_NAME"; "DB_SSLMODE"].
End SharedDB.

(** ** Sequences of calls, and what a trace contains *)

Module Runs.
Import OrderDomain.

(** How many more transitions an order in a given status can make. *)
Definition stepsLeft (status : OrderStatus) : nat :=
  if String.eqb status StatusPending then 3
  else if String.eqb status StatusPaid then 2
  else if String.eqb status StatusShipped then 1
  else 0.

Definition accepted (errs : list (option error)) : nat :=
  length (List.filter (fun e => match e with None => true | Some _ => false end) errs).

(** The accumulated total of a request, before the items have identifiers. *)
Definition requestTotal (itemRequests : list OrderApp.OrderItemRequest) : float :=
  fold_left
    (fun totalAmount req =>
       (totalAmount + OrderApp.Price req * float64_of_int (OrderApp.Quantity req))%float)
    itemRequests 0%float.

(** What an item and a request have in common. *)
Definition itemContent (i : OrderItem) : string * string * float * Z :=
  (item_productID i, item_name i, item_price i, item_quantity i).

Definition requestContent (r : OrderApp.OrderItemRequest) : string * string * float * Z :=
  (OrderApp.ProductID r, OrderApp.Name r, OrderApp.Price r, OrderApp.Quantity r).

Section WithWorld.
Context {W C : Type} (rt : Runtime W).

(** [o.UpdateStatus(status)] for each requested status in turn, on the same
    order; the errors are collected in order. *)
Fixpoint UpdateStatusAll (requests : list OrderStatus) (o : Order) (s : St W C)
  : list (option error) * Order * St W C :=
  match requests with
  | [] => ([], o, s)
  | status :: rest =>
      match UpdateStatus rt status o s with
      | (Returned err, o', s') =>
          let '(errs, o'', s'') := UpdateStatusAll rest o' s' in
          (err :: errs, o'', s'')
      | (Panicked _, o', s') => ([], o', s')
      end
  end.
End WithWorld.

Import PaymentDomain PaymentApp.

Definition gatewayCalls (tr : list call) : list call :=
  List.filter (fun c => match c with
                   | GatewayProcessPayment _ | GatewayRefundPayment _ _ => true
                   | _ => false
                   end) tr.

(** The payments handed to [Update] and to [Save]. *)
Definition updated (tr : list call) : list Payment :=
  flat_map (fun c => match c with RepoUpdate p => [p] | _ => [] end) tr.

Definition saved (tr : list call) : list (option Payment) :=
  flat_map (fun c => match c with RepoSave p => [p] | _ => [] end) tr.

(** What identifies a payment and never changes after its creation. *)
Definition paymentIdentity (p : Payment) : string * string * float * PaymentMethod * Time :=
  (payment_id p, payment_orderID p, payment_amount p, payment_method p,
   payment_createdAt p).

(** A repository keeps what it saved: a lookup by order reference right
    after an accepted [Save] finds a payment. *)
Definition keeps_saves {W : Type} (r : PaymentRepository.t W) : Prop :=
  forall (p : Payment) (w w' : W),
    PaymentRepository.Save r (Some p) w = (None, w') ->
    exists q w'',
      PaymentRepository.FindByOrderID r (payment_orderID p) w' = ((Some q, None), w'').
End Runs.

(** ** Requests used as concrete inputs *)

Module Scenario.
Import OrderApp.

(** The order of the specification's scenario: total 1100000. *)
Definition scenarioRequests : list OrderItemRequest :=
  [mkOrderItemRequest "product-1" "keyboard" 1000000%float 1%Z;
   mkOrderItemRequest "product-2" "mouse" 50000%float 2%Z].

(** A request whose total is -5. *)
Definition refundOnlyRequests : list OrderItemRequest :=
  [mkOrderItemRequest "product-9" "credit note" (-5)%float 1%Z].

Import PaymentDomain PaymentApp.

(** A store that cannot be reached: every call fails. *)
Definition unreachablePaymentRepo : PaymentRepository.t InMemory.World := {|
  PaymentRepository.Save := fun _ w => (Some (Foreign "connection refused"), w);
  PaymentRepository.FindByID := fun _ w => ((None, Some (Foreign "connection refused")), w);
  PaymentRepository.FindByOrderID := fun _ w =>
    ((None, Some (Foreign "connection refused")), w);
  PaymentRepository.Update := fun _ w => (Some (Foreign "connection refused"), w)
|}.

Definition unreachableUseCase : PaymentUseCase InMemory.World :=
  InMemory.paymentUseCase unreachablePaymentRepo InMemory.DummyPaymentGateway.

(** [pendingPayment] once [ProcessPayment] has approved it with the dummy
    gateway, and the state that call leaves. *)
Definition approvedPayment : Payment :=
  Spec.approved InMemory.pendingPayment "txn_pay-1" 1000%Z.

Definition afterApproval : St InMemory.World call :=
  (InMemory.mkWorld 1001%Z ["uuid-1"; "uuid-2"; "uuid-3"; "uuid-4"] [] [approvedPayment],
   [RepoFindByID "pay-1"; GatewayProcessPayment InMemory.pendingPayment;
    RepoUpdate approvedPayment]).

(** [approvedPayment] once [RefundPayment] has refunded it, and the state
    that call leaves. *)
Definition refundedPayment : Payment :=
  Spec.refunded approvedPayment ∅ "customer request" 1001%Z.

Definition afterRefund : St InMemory.World call :=
  (InMemory.mkWorld 1002%Z ["uuid-1"; "uuid-2"; "uuid-3"; "uuid-4"] [] [refundedPayment],
   [RepoFindByID "pay-1"; GatewayProcessPayment InMemory.pendingPayment;
    RepoUpdate approvedPayment; RepoFindByID "pay-1";
    GatewayRefundPayment (Some approvedPayment) "customer request";
    RepoUpdate refundedPayment]).

(** A payment whose auxiliary data already uses the keys of the reasons. *)
Definition annotatedPayment : Payment :=
  mkPayment "pay-7" "order-7" 250%float PaymentMethodBankTransfer PaymentStatusApproved
    "txn_pay-7"
    (Some (<["reject_reason" := "set by the caller"]>
             (<["refund_reason" := "set by the caller"]>
                (<["bank" := "first national"]> ∅))))
    900%Z 950%Z.
End Scenario.

(** * Theorems: the order entity *)

Section OrderEntity.
Import OrderDomain.
Context {W C : Type} (rt : Runtime W).

Lemma isValidStatusTransition_table (from to : OrderStatus) :
  isValidStatusTransition from to = true <-> In (from, to) Spec.transition_table.
Proof.
  unfold isValidStatusTransition, Spec.transition_table,
    StatusPending, StatusPaid, StatusShipped, StatusDelivered, StatusCanceled.
  split.
  - repeat match goal with
           | |- context [String.eqb ?a ?b] => destruct (String.eqb_spec a b); subst
           end; cbn; intros; try discriminate; tauto.
  - cbn. intros H.
    repeat match type of H with
           | _ \/ _ => destruct H as [H | H]
           end; try contradiction; inversion H; reflexivity.
Qed.

Lemma UpdateStatus_eq (o : Order) (to : OrderStatus) (s : St W C) :
  UpdateStatus rt to o s =
    if isValidStatusTransition (order_status o) to then
      (Returned None,
       Spec.transitioned o to (fst (time_Now rt (fst s))),
       (snd (time_Now rt (fst s)), snd s))
    else (Returned (Some ErrOrderStatusTransition), o, s).
Proof.
  unfold UpdateStatus.
  destruct (isValidStatusTransition (order_status o) to); cbn [negb]; [|reflexivity].
  destruct (time_Now rt (fst s)) as [now w']. reflexivity.
Qed.

(** C1: [UpdateStatus] succeeds exactly on the pairs of the transition
    table.  On a pair of the table it returns nil, sets the status and sets
    the updated-timestamp to the current time; on every other pair it
    returns [ErrOrderStatusTransition] and leaves the order (status and
    updated-timestamp included) and the world untouched. *)
Theorem UpdateStatus_transition_table (o : Order) (to : OrderStatus) (s : St W C) :
  (In (order_status o, to) Spec.transition_table /\
   UpdateStatus rt to o s =
     (Returned None,
      Spec.transitioned o to (fst (time_Now rt (fst s))),
      (snd (time_Now rt (fst s)), snd s)))
  \/
  (~ In (order_status o, to) Spec.transition_table /\
   UpdateStatus rt to o s = (Returned (Some ErrOrderStatusTransition), o, s)).
Proof.
  rewrite UpdateStatus_eq.
  destruct (isValidStatusTransition (order_status o) to) eqn:Hv.
  - left. split; [now apply isValidStatusTransition_table | reflexivity].
  - right. split; [|reflexivity].
    intros Hin. apply isValidStatusTransition_table in Hin. congruence.
Qed.
End OrderEntity.

(** * Theorems: the order factory *)

Section FloatFacts.
Local Open Scope float_scope.

Lemma leb_zero_false_of_pos (x : float) : (0 <? x) = true -> (x <=? 0) = false.
Proof.
  rewrite ltb_spec, leb_spec. unfold SFltb, SFleb.
  destruct (Prim2SF x) as [ [|] | [|] | | [|] m e]; vm_compute; congruence.
Qed.
End FloatFacts.

Section OrderFactory.
Import OrderDomain Spec.
Context {W C : Type} (rt : Runtime W).

Lemma NewOrder_cases (customerID : string) (items : list OrderItem) (s : St W C) :
  NewOrder rt customerID items s =
    match items with
    | [] => (Returned (None, Some ErrInvalidOrderItems), s)
    | _ :: _ =>
        if (sumSubtotals items <=? 0)%float
        then (Returned (None, Some ErrInvalidOrderAmount), s)
        else (Returned (Some (freshOrder rt customerID items s), None), afterNewOrder rt s)
    end.
Proof.
  unfold NewOrder, freshOrder, afterNewOrder.
  destruct items as [|i items]; [reflexivity|].
  cbn [length Nat.eqb].
  destruct (sumSubtotals (i :: items) <=? 0)%float; [reflexivity|].
  unfold bind, effect, ret.
  destruct (time_Now rt (fst s)) as [now w1]. cbn [fst snd].
  destruct (uuid_New rt w1) as [id w2]. reflexivity.
Qed.

Lemma NewOrderItem_eq (productID name : string) (price : float) (quantity : Z)
    (s : St W C) :
  NewOrderItem rt productID name price quantity s =
    (Returned (mkOrderItem (fst (uuid_New rt (fst s))) productID name price quantity),
     (snd (uuid_New rt (fst s)), snd s)).
Proof.
  unfold NewOrderItem, bind, effect, ret.
  destruct (uuid_New rt (fst s)) as [id w']. reflexivity.
Qed.

Lemma sumSubtotals_is_the_sum (items : list OrderItem) :
  sumSubtotals items = sumOfPriceTimesQuantity items.
Proof.
  unfold sumSubtotals, sumOfPriceTimesQuantity. generalize 0%float.
  induction items as [|i items IH]; intros a; [reflexivity|].
  cbn [fold_left map]. apply IH.
Qed.

(** C10: order items are not validated one by one.  [NewOrderItem] stores
    whatever price and quantity it is given; [NewOrder] accepts every
    non-empty item list whose sum of price times quantity is strictly
    positive, whatever the sign of the individual prices and quantities, and
    the order it returns carries that sum as its total; and the only two
    ways it fails are the empty list ([ErrInvalidOrderItems]) and a sum <= 0
    ([ErrInvalidOrderAmount]). *)
Theorem NewOrder_validates_only_the_aggregate :
  (forall productID name price quantity (s : St W C),
      NewOrderItem rt productID name price quantity s =
        (Returned (mkOrderItem (fst (uuid_New rt (fst s))) productID name price quantity),
         (snd (uuid_New rt (fst s)), snd s)))
  /\
  (forall customerID items (s : St W C),
      items <> [] ->
      (0 <? sumOfPriceTimesQuantity items)%float = true ->
      NewOrder rt customerID items s =
        (Returned
           (Some (mkOrder (fst (uuid_New rt (snd (time_Now rt (fst s)))))
                    customerID items (sumOfPriceTimesQuantity items) StatusPending
                    (fst (time_Now rt (fst s))) (fst (time_Now rt (fst s)))),
            None),
         (snd (uuid_New rt (snd (time_Now rt (fst s)))), snd s)))
  /\
  (forall customerID items (s : St W C),
      (items = [] /\
       NewOrder rt customerID items s = (Returned (None, Some ErrInvalidOrderItems), s))
      \/
      (items <> [] /\ (sumOfPriceTimesQuantity items <=? 0)%float = true /\
       NewOrder rt customerID items s = (Returned (None, Some ErrInvalidOrderAmount), s))
      \/
      (items <> [] /\ (sumOfPriceTimesQuantity items <=? 0)%float = false /\
       NewOrder rt customerID items s =
         (Returned
            (Some (mkOrder (fst (uuid_New rt (snd (time_Now rt (fst s)))))
                     customerID items (sumOfPriceTimesQuantity items) StatusPending
                     (fst (time_Now rt (fst s))) (fst (time_Now rt (fst s)))),
             None),
          (snd (uuid_New rt (snd (time_Now rt (fst s)))), snd s)))).
Proof.
  split; [exact NewOrderItem_eq|]. split.
  - intros customerID items s Hne Hpos.
    rewrite NewOrder_cases. destruct items as [|i items]; [congruence|].
    rewrite sumSubtotals_is_the_sum, (leb_zero_false_of_pos _ Hpos).
    unfold freshOrder, afterNewOrder. now rewrite sumSubtotals_is_the_sum.
  - intros customerID items s. rewrite NewOrder_cases.
    destruct items as [|i items]; [left; split; reflexivity|].
    right. rewrite sumSubtotals_is_the_sum.
    destruct (sumOfPriceTimesQuantity (i :: items) <=? 0)%float eqn:Hle.
    + left. repeat split; congruence.
    + right. split; [congruence|]. split; [reflexivity|].
      unfold freshOrder, afterNewOrder. now rewrite sumSubtotals_is_the_sum.
Qed.
End OrderFactory.

Lemma NewOrder_validates_only_the_aggregate_witness :
  InMemory.mixedItems <> [] /\
  Spec.sumOfPriceTimesQuantity InMemory.mixedItems = 147%float /\
  (0 <? Spec.sumOfPriceTimesQuantity InMemory.mixedItems)%float = true /\
  OrderDomain.NewOrder InMemory.realTime "customer-1" InMemory.mixedItems
      (InMemory.start (C := OrderApp.call) InMemory.emptyWorld) =
    (Returned
       (Some (OrderDomain.mkOrder "uuid-1" "customer-1" InMemory.mixedItems 147%float
                OrderDomain.StatusPending 1000%Z 1000%Z), None),
     (InMemory.mkWorld 1001%Z ["uuid-2"; "uuid-3"; "uuid-4"] [] [], [])).
Proof.
  split; [discriminate|]. split; [reflexivity|]. split; [reflexivity|].
  exact (proj1 (proj2 (NewOrder_validates_only_the_aggregate InMemory.realTime))
           "customer-1" InMemory.mixedItems
           (InMemory.start (C := OrderApp.call) InMemory.emptyWorld)
           ltac:(discriminate) eq_refl).
Defined.

(** The accumulated total of [mixedItems] and the order made from them. *)
Example mixedItems_order :
  OrderDomain.NewOrder InMemory.realTime "customer-1" InMemory.mixedItems
      (InMemory.start (C := OrderApp.call) InMemory.emptyWorld) =
    (Returned
       (Some (OrderDomain.mkOrder "uuid-1" "customer-1" InMemory.mixedItems 147%float
                OrderDomain.StatusPending 1000%Z 1000%Z), None),
     (InMemory.mkWorld 1001%Z ["uuid-2"; "uuid-3"; "uuid-4"] [] [], [])).
Proof. reflexivity. Qed.

(** C6, at the failing input: two items whose subtotals overflow to +Inf and
    -Inf accumulate to NaN; NaN is not <= 0, so [NewOrder] returns an order
    whose total is not greater than 0, and [CreateOrder] saves it. *)
Theorem NewOrder_accepts_nan_total :
  OrderDomain.sumSubtotals InMemory.overflowingItems = nan /\
  (0 <? OrderDomain.sumSubtotals InMemory.overflowingItems)%float = false /\
  OrderDomain.NewOrder InMemory.realTime "customer-1" InMemory.overflowingItems
      (InMemory.start (C := OrderApp.call) InMemory.emptyWorld) =
    (Returned
       (Some (OrderDomain.mkOrder "uuid-1" "customer-1" InMemory.overflowingItems nan
                OrderDomain.StatusPending 1000%Z 1000%Z), None),
     (InMemory.mkWorld 1001%Z ["uuid-2"; "uuid-3"; "uuid-4"] [] [], [])) /\
  OrderApp.CreateOrder InMemory.orderUseCase "customer-1" InMemory.overflowingRequests
      (InMemory.start InMemory.emptyWorld) =
    (Returned (Some InMemory.nanOrder, None),
     (InMemory.mkWorld 1001%Z ["uuid-4"] [InMemory.nanOrder] [],
      [OrderApp.CallSave (Some InMemory.nanOrder)])).
Proof. repeat split; reflexivity. Qed.

(** * Theorems: the payment entity *)

Section PaymentEntity.
Import PaymentDomain Spec.
Context {W C : Type} (rt : Runtime W).

Lemma Approve_eq (transactionID : string) (p : Payment) (s : St W C) :
  Approve rt transactionID p s =
    (Returned tt, approved p transactionID (fst (time_Now rt (fst s))),
     (snd (time_Now rt (fst s)), snd s)).
Proof.
  unfold Approve, touch, approved.
  destruct (time_Now rt (fst s)) as [now w']. reflexivity.
Qed.

Lemma Reject_allocated (reason : string) (p : Payment) (m : gmap string string)
    (s : St W C) :
  payment_paymentData p = Some m ->
  Reject rt reason p s =
    (Returned tt, rejected p m reason (fst (time_Now rt (fst s))),
     (snd (time_Now rt (fst s)), snd s)).
Proof.
  intros Hm. unfold Reject, touch, rejected. cbn. rewrite Hm.
  destruct (time_Now rt (fst s)) as [now w']. reflexivity.
Qed.

Lemma Reject_nil_map (reason : string) (p : Payment) (s : St W C) :
  payment_paymentData p = None ->
  Reject rt reason p s = (Panicked nil_map_panic, set_status PaymentStatusRejected p, s).
Proof. intros Hm. unfold Reject. cbn. now rewrite Hm. Qed.

Lemma Refund_refused (reason : string) (p : Payment) (s : St W C) :
  payment_status p <> PaymentStatusApproved ->
  Refund rt reason p s = (Returned (Some refund_refused), p, s).
Proof.
  intros Hst. unfold Refund.
  apply String.eqb_neq in Hst. now rewrite Hst.
Qed.

Lemma Refund_allocated (reason : string) (p : Payment) (m : gmap string string)
    (s : St W C) :
  payment_status p = PaymentStatusApproved ->
  payment_paymentData p = Some m ->
  Refund rt reason p s =
    (Returned None, refunded p m reason (fst (time_Now rt (fst s))),
     (snd (time_Now rt (fst s)), snd s)).
Proof.
  intros Hst Hm. unfold Refund, touch, refunded.
  rewrite Hst, String.eqb_refl. cbn. rewrite Hm.
  destruct (time_Now rt (fst s)) as [now w']. reflexivity.
Qed.

Lemma Refund_nil_map (reason : string) (p : Payment) (s : St W C) :
  payment_status p = PaymentStatusApproved ->
  payment_paymentData p = None ->
  Refund rt reason p s = (Panicked nil_map_panic, set_status PaymentStatusRefunded p, s).
Proof.
  intros Hst Hm. unfold Refund. rewrite Hst, String.eqb_refl. cbn. now rewrite Hm.
Qed.
End PaymentEntity.

(** * Theorems: the payment use cases *)

Section PaymentUseCases.
Import PaymentDomain PaymentApp Spec.
Context {W : Type} (uc : PaymentUseCase W).

Lemma invoke_eq {A : Type} (c : call) (f : W -> A * W) (s : St W call) :
  invoke c f s = (Returned (fst (f (fst s))), (snd (f (fst s)), snd s ++ [c])).
Proof. unfold invoke. now destruct (f (fst s)). Qed.

(** A payment that is found and is not pending comes back as it is: one
    lookup, no gateway call, no write. *)
Lemma ProcessPayment_not_pending (paymentID : string) (p : Payment) (w1 : W)
    (s : St W call) :
  paymentID <> "" ->
  PaymentRepository.FindByID (repo uc) paymentID (fst s) = ((Some p, None), w1) ->
  payment_status p <> PaymentStatusPending ->
  ProcessPayment uc paymentID s =
    (Returned (Some p, None), (w1, snd s ++ [RepoFindByID paymentID])).
Proof.
  intros Hid Hfind Hst. unfold ProcessPayment.
  apply String.eqb_neq in Hid. rewrite Hid.
  unfold bind at 1. rewrite invoke_eq, Hfind. cbn [fst snd].
  apply String.eqb_neq in Hst. now rewrite Hst.
Qed.

(** A pending payment the gateway accepts. *)
Lemma ProcessPayment_gateway_accepts (paymentID : string) (p : Payment)
    (transactionID : string) (w1 w2 : W) (s : St W call) :
  paymentID <> "" ->
  PaymentRepository.FindByID (repo uc) paymentID (fst s) = ((Some p, None), w1) ->
  payment_status p = PaymentStatusPending ->
  PaymentGateway.ProcessPayment (gateway uc) p w1 = ((transactionID, None), w2) ->
  let p' := approved p transactionID (fst (time_Now (runtime uc) w2)) in
  let upd := PaymentRepository.Update (repo uc) p' (snd (time_Now (runtime uc) w2)) in
  ProcessPayment uc paymentID s =
    (Returned
       match fst upd with
       | None => (Some p', None)
       | Some err =>
           (None, Some (fmt_Errorf "failed to update payment status after approval" err))
       end,
     (snd upd,
      snd s ++ [RepoFindByID paymentID; GatewayProcessPayment p; RepoUpdate p'])).
Proof.
  intros Hid Hfind Hst Hgw p' upd. unfold ProcessPayment.
  apply String.eqb_neq in Hid. rewrite Hid.
  unfold bind at 1. rewrite invoke_eq, Hfind. cbn [fst snd].
  rewrite Hst, String.eqb_refl. cbn [negb].
  unfold bind at 1. rewrite invoke_eq. cbn [fst snd]. rewrite Hgw. cbn [fst snd].
  unfold bind at 1, callMethod. rewrite Approve_eq. cbn [fst snd].
  unfold bind. rewrite invoke_eq. cbn [fst snd]. fold p'. fold upd.
  rewrite <- !app_assoc. cbn [app].
  destruct (fst upd); reflexivity.
Qed.

(** A pending payment the gateway declines, its auxiliary map allocated. *)
Lemma ProcessPayment_gateway_declines (paymentID : string) (p : Payment)
    (m : gmap string string) (transactionID : string) (err : error) (w1 w2 : W)
    (s : St W call) :
  paymentID <> "" ->
  PaymentRepository.FindByID (repo uc) paymentID (fst s) = ((Some p, None), w1) ->
  payment_status p = PaymentStatusPending ->
  payment_paymentData p = Some m ->
  PaymentGateway.ProcessPayment (gateway uc) p w1 = ((transactionID, Some err), w2) ->
  let p' := rejected p m (Error err) (fst (time_Now (runtime uc) w2)) in
  let upd := PaymentRepository.Update (repo uc) p' (snd (time_Now (runtime uc) w2)) in
  ProcessPayment uc paymentID s =
    (Returned
       match fst upd with
       | None => (Some p', Some (fmt_Errorf "payment processing failed" err))
       | Some updateErr =>
           (None,
            Some (fmt_Errorf "failed to update payment status after rejection" updateErr))
       end,
     (snd upd,
      snd s ++ [RepoFindByID paymentID; GatewayProcessPayment p; RepoUpdate p'])).
Proof.
  intros Hid Hfind Hst Hm Hgw p' upd. unfold ProcessPayment.
  apply String.eqb_neq in Hid. rewrite Hid.
  unfold bind at 1. rewrite invoke_eq, Hfind. cbn [fst snd].
  rewrite Hst, String.eqb_refl. cbn [negb].
  unfold bind at 1. rewrite invoke_eq. cbn [fst snd]. rewrite Hgw. cbn [fst snd].
  unfold bind at 1, callMethod. rewrite (Reject_allocated _ _ _ m _ Hm). cbn [fst snd].
  unfold bind. rewrite invoke_eq. cbn [fst snd]. fold p'. fold upd.
  rewrite <- !app_assoc. cbn [app].
  destruct (fst upd); reflexivity.
Qed.

(** A pending payment the gateway declines, its auxiliary map nil: the
    write of the reason panics, after the gateway call and before any
    persistence write. *)
Lemma ProcessPayment_gateway_declines_nil_map (paymentID : string) (p : Payment)
    (transactionID : string) (err : error) (w1 w2 : W) (s : St W call) :
  paymentID <> "" ->
  PaymentRepository.FindByID (repo uc) paymentID (fst s) = ((Some p, None), w1) ->
  payment_status p = PaymentStatusPending ->
  payment_paymentData p = None ->
  PaymentGateway.ProcessPayment (gateway uc) p w1 = ((transactionID, Some err), w2) ->
  ProcessPayment uc paymentID s =
    (Panicked nil_map_panic,
     (w2, snd s ++ [RepoFindByID paymentID; GatewayProcessPayment p])).
Proof.
  intros Hid Hfind Hst Hm Hgw. unfold ProcessPayment.
  apply String.eqb_neq in Hid. rewrite Hid.
  unfold bind at 1. rewrite invoke_eq, Hfind. cbn [fst snd].
  rewrite Hst, String.eqb_refl. cbn [negb].
  unfold bind at 1. rewrite invoke_eq. cbn [fst snd]. rewrite Hgw. cbn [fst snd].
  unfold bind at 1, callMethod. rewrite (Reject_nil_map _ _ _ _ Hm).
  rewrite <- !app_assoc. reflexivity.
Qed.

(** C3, as the code has it: [ProcessPayment] is idempotent on what has been
    persisted.  A payment that is found and is not pending is returned as it
    is, with no error, after the lookup alone: no gateway call and no write.
    For a pending payment in a repository that returns what it accepted:
    when the gateway accepts and the store accepts the write, the first call
    returns the approved payment and the second call returns that same
    payment with no error after the lookup alone; when the gateway declines,
    the auxiliary map being allocated, and the store accepts the write, the
    first call returns the rejected payment with the wrapped gateway error
    and the second call returns that same payment with no error after the
    lookup alone.  When the store refuses the write, the first call returns
    the error of the update and no payment. *)
Theorem ProcessPayment_idempotent_once_persisted :
  (forall (paymentID : string) (p : Payment) (w1 : W) (s : St W call),
      paymentID <> "" ->
      PaymentRepository.FindByID (repo uc) paymentID (fst s) = ((Some p, None), w1) ->
      payment_status p <> PaymentStatusPending ->
      ProcessPayment uc paymentID s =
        (Returned (Some p, None), (w1, snd s ++ [RepoFindByID paymentID])))
  /\
  (forall (paymentID : string) (p : Payment) (transactionID : string) (w1 w2 w4 : W)
          (s : St W call),
      keeps_updates (repo uc) ->
      paymentID <> "" ->
      PaymentRepository.FindByID (repo uc) paymentID (fst s) = ((Some p, None), w1) ->
      payment_id p = paymentID ->
      payment_status p = PaymentStatusPending ->
      PaymentGateway.ProcessPayment (gateway uc) p w1 = ((transactionID, None), w2) ->
      PaymentRepository.Update (repo uc)
          (approved p transactionID (fst (time_Now (runtime uc) w2)))
          (snd (time_Now (runtime uc) w2)) = (None, w4) ->
      let p1 := approved p transactionID (fst (time_Now (runtime uc) w2)) in
      let s1 := (w4, snd s ++ [RepoFindByID paymentID; GatewayProcessPayment p;
                               RepoUpdate p1]) in
      payment_status p1 = PaymentStatusApproved /\
      ProcessPayment uc paymentID s = (Returned (Some p1, None), s1) /\
      exists w' : W,
        ProcessPayment uc paymentID s1 =
          (Returned (Some p1, None), (w', snd s1 ++ [RepoFindByID paymentID])))
  /\
  (forall (paymentID : string) (p : Payment) (m : gmap string string)
          (transactionID : string) (err : error) (w1 w2 w4 : W) (s : St W call),
      keeps_updates (repo uc) ->
      paymentID <> "" ->
      PaymentRepository.FindByID (repo uc) paymentID (fst s) = ((Some p, None), w1) ->
      payment_id p = paymentID ->
      payment_status p = PaymentStatusPending ->
      payment_paymentData p = Some m ->
      PaymentGateway.ProcessPayment (gateway uc) p w1 = ((transactionID, Some err), w2) ->
      PaymentRepository.Update (repo uc)
          (rejected p m (Error err) (fst (time_Now (runtime uc) w2)))
          (snd (time_Now (runtime uc) w2)) = (None, w4) ->
      let p1 := rejected p m (Error err) (fst (time_Now (runtime uc) w2)) in
      let s1 := (w4, snd s ++ [RepoFindByID paymentID; GatewayProcessPayment p;
                               RepoUpdate p1]) in
      payment_status p1 = PaymentStatusRejected /\
      ProcessPayment uc paymentID s =
        (Returned (Some p1, Some (fmt_Errorf "payment processing failed" err)), s1) /\
      exists w' : W,
        ProcessPayment uc paymentID s1 =
          (Returned (Some p1, None), (w', snd s1 ++ [RepoFindByID paymentID])))
  /\
  (forall (paymentID : string) (p : Payment) (transactionID : string)
          (updateErr : error) (w1 w2 w4 : W) (s : St W call),
      paymentID <> "" ->
      PaymentRepository.FindByID (repo uc) paymentID (fst s) = ((Some p, None), w1) ->
      payment_status p = PaymentStatusPending ->
      PaymentGateway.ProcessPayment (gateway uc) p w1 = ((transactionID, None), w2) ->
      PaymentRepository.Update (repo uc)
          (approved p transactionID (fst (time_Now (runtime uc) w2)))
          (snd (time_Now (runtime uc) w2)) = (Some updateErr, w4) ->
      ProcessPayment uc paymentID s =
        (Returned
           (None,
            Some (fmt_Errorf "failed to update payment status after approval" updateErr)),
         (w4,
          snd s ++ [RepoFindByID paymentID; GatewayProcessPayment p;
                    RepoUpdate (approved p transactionID
                                  (fst (time_Now (runtime uc) w2)))])))
  /\
  (forall (paymentID : string) (p : Payment) (m : gmap string string)
          (transactionID : string) (err updateErr : error) (w1 w2 w4 : W)
          (s : St W call),
      paymentID <> "" ->
      PaymentRepository.FindByID (repo uc) paymentID (fst s) = ((Some p, None), w1) ->
      payment_status p = PaymentStatusPending ->
      payment_paymentData p = Some m ->
      PaymentGateway.ProcessPayment (gateway uc) p w1 = ((transactionID, Some err), w2) ->
      PaymentRepository.Update (repo uc)
          (rejected p m (Error err) (fst (time_Now (runtime uc) w2)))
          (snd (time_Now (runtime uc) w2)) = (Some updateErr, w4) ->
      ProcessPayment uc paymentID s =
        (Returned
           (None,
            Some (fmt_Errorf "failed to update payment status after rejection"
                    updateErr)),
         (w4,
          snd s ++ [RepoFindByID paymentID; GatewayProcessPayment p;
                    RepoUpdate (rejected p m (Error err)
                                  (fst (time_Now (runtime uc) w2)))]))).
Proof.
  split; [exact ProcessPayment_not_pending|].
  split; [|split; [|split]].
  - intros paymentID p txn w1 w2 w4 s Hkeep Hid Hfind Hpid Hst Hgw Hupd p1 s1.
    split; [reflexivity|].
    assert (Hrun : ProcessPayment uc paymentID s = (Returned (Some p1, None), s1)).
    { rewrite (ProcessPayment_gateway_accepts paymentID p txn w1 w2 s
                 Hid Hfind Hst Hgw).
      cbn zeta. rewrite Hupd. reflexivity. }
    split; [exact Hrun|].
    destruct (Hkeep p1 _ _ Hupd) as [w'' Hfind'].
    exists w''. apply ProcessPayment_not_pending; [exact Hid | | discriminate].
    cbn [fst]. now rewrite <- Hpid.
  - intros paymentID p m txn err w1 w2 w4 s Hkeep Hid Hfind Hpid Hst Hm Hgw Hupd p1 s1.
    split; [reflexivity|].
    assert (Hrun : ProcessPayment uc paymentID s =
                     (Returned (Some p1, Some (fmt_Errorf "payment processing failed" err)),
                      s1)).
    { rewrite (ProcessPayment_gateway_declines paymentID p m txn err w1 w2 s
                 Hid Hfind Hst Hm Hgw).
      cbn zeta. rewrite Hupd. reflexivity. }
    split; [exact Hrun|].
    destruct (Hkeep p1 _ _ Hupd) as [w'' Hfind'].
    exists w''. apply ProcessPayment_not_pending; [exact Hid | | discriminate].
    cbn [fst]. now rewrite <- Hpid.
  - intros paymentID p txn updateErr w1 w2 w4 s Hid Hfind Hst Hgw Hupd.
    rewrite (ProcessPayment_gateway_accepts paymentID p txn w1 w2 s Hid Hfind Hst Hgw).
    now rewrite Hupd.
  - intros paymentID p m txn err updateErr w1 w2 w4 s Hid Hfind Hst Hm Hgw Hupd.
    rewrite (ProcessPayment_gateway_declines paymentID p m txn err w1 w2 s
               Hid Hfind Hst Hm Hgw).
    now rewrite Hupd.
Qed.
End PaymentUseCases.

(** * The in-memory store honours the persistence contract *)

Section InMemoryStore.
Import PaymentDomain PaymentApp InMemory.

Lemma find_after_replace (q : Payment) (l : list Payment) :
  existsb (fun p => String.eqb (payment_id p) (payment_id q)) l = true ->
  find (fun p => String.eqb (payment_id p) (payment_id q))
    (map (fun p => if String.eqb (payment_id p) (payment_id q) then q else p) l)
  = Some q.
Proof.
  induction l as [|a l IH]; cbn [existsb map find]; [discriminate|].
  destruct (String.eqb (payment_id a) (payment_id q)) eqn:Ha.
  - intros _. now rewrite String.eqb_refl.
  - cbn [orb]. intros Hex. rewrite Ha. now apply IH.
Qed.

Lemma paymentRepo_keeps_updates : Spec.keeps_updates paymentRepo.
Proof.
  intros q w w' Hupd. cbn in Hupd.
  destruct (existsb _ (payments w)) eqn:Hex; [|discriminate].
  injection Hupd as <-. eexists. cbn.
  now rewrite (find_after_replace q (payments w) Hex).
Qed.
End InMemoryStore.

Lemma ProcessPayment_idempotent_once_persisted_witness :
  (PaymentApp.ProcessPayment InMemory.dummyUseCase "pay-1"
       (InMemory.start (InMemory.worldWith InMemory.pendingPayment)) =
     (Returned (Some (Spec.approved InMemory.pendingPayment "txn_pay-1" 1000%Z), None),
      (InMemory.mkWorld 1001%Z ["uuid-1"; "uuid-2"; "uuid-3"; "uuid-4"] []
         [Spec.approved InMemory.pendingPayment "txn_pay-1" 1000%Z],
       [PaymentApp.RepoFindByID "pay-1";
        PaymentApp.GatewayProcessPayment InMemory.pendingPayment;
        PaymentApp.RepoUpdate (Spec.approved InMemory.pendingPayment "txn_pay-1" 1000%Z)]))
   /\
   exists w',
     PaymentApp.ProcessPayment InMemory.dummyUseCase "pay-1"
         (InMemory.mkWorld 1001%Z ["uuid-1"; "uuid-2"; "uuid-3"; "uuid-4"] []
            [Spec.approved InMemory.pendingPayment "txn_pay-1" 1000%Z],
          [PaymentApp.RepoFindByID "pay-1";
           PaymentApp.GatewayProcessPayment InMemory.pendingPayment;
           PaymentApp.RepoUpdate
             (Spec.approved InMemory.pendingPayment "txn_pay-1" 1000%Z)])
     = (Returned (Some (Spec.approved InMemory.pendingPayment "txn_pay-1" 1000%Z), None),
        (w',
         [PaymentApp.RepoFindByID "pay-1";
          PaymentApp.GatewayProcessPayment InMemory.pendingPayment;
          PaymentApp.RepoUpdate (Spec.approved InMemory.pendingPayment "txn_pay-1" 1000%Z);
          PaymentApp.RepoFindByID "pay-1"])))
  /\
  (PaymentApp.ProcessPayment InMemory.decliningUseCase "pay-1"
       (InMemory.start (InMemory.worldWith InMemory.pendingPayment)) =
     (Returned
        (Some (Spec.rejected InMemory.pendingPayment ∅ "card declined" 1000%Z),
         Some (fmt_Errorf "payment processing failed" (Foreign "card declined"))),
      (InMemory.mkWorld 1001%Z ["uuid-1"; "uuid-2"; "uuid-3"; "uuid-4"] []
         [Spec.rejected InMemory.pendingPayment ∅ "card declined" 1000%Z],
       [PaymentApp.RepoFindByID "pay-1";
        PaymentApp.GatewayProcessPayment InMemory.pendingPayment;
        PaymentApp.RepoUpdate
          (Spec.rejected InMemory.pendingPayment ∅ "card declined" 1000%Z)]))
   /\
   exists w',
     PaymentApp.ProcessPayment InMemory.decliningUseCase "pay-1"
         (InMemory.mkWorld 1001%Z ["uuid-1"; "uuid-2"; "uuid-3"; "uuid-4"] []
            [Spec.rejected InMemory.pendingPayment ∅ "card declined" 1000%Z],
          [PaymentApp.RepoFindByID "pay-1";
           PaymentApp.GatewayProcessPayment InMemory.pendingPayment;
           PaymentApp.RepoUpdate
             (Spec.rejected InMemory.pendingPayment ∅ "card declined" 1000%Z)])
     = (Returned
          (Some (Spec.rejected InMemory.pendingPayment ∅ "card declined" 1000%Z), None),
        (w',
         [PaymentApp.RepoFindByID "pay-1";
          PaymentApp.GatewayProcessPayment InMemory.pendingPayment;
          PaymentApp.RepoUpdate
            (Spec.rejected InMemory.pendingPayment ∅ "card declined" 1000%Z);
          PaymentApp.RepoFindByID "pay-1"]))).
Proof.
  split.
  - exact (proj2 (proj1 (proj2 (ProcessPayment_idempotent_once_persisted
                                  InMemory.dummyUseCase))
                    "pay-1" InMemory.pendingPayment "txn_pay-1"
                    (InMemory.worldWith InMemory.pendingPayment)
                    (InMemory.worldWith InMemory.pendingPayment)
                    (InMemory.mkWorld 1001%Z ["uuid-1"; "uuid-2"; "uuid-3"; "uuid-4"] []
                       [Spec.approved InMemory.pendingPayment "txn_pay-1" 1000%Z])
                    (InMemory.start (InMemory.worldWith InMemory.pendingPayment))
                    paymentRepo_keeps_updates ltac:(discriminate)
                    eq_refl eq_refl eq_refl eq_refl eq_refl)).
  - exact (proj2 (proj1 (proj2 (proj2 (ProcessPayment_idempotent_once_persisted
                                         InMemory.decliningUseCase)))
                    "pay-1" InMemory.pendingPayment ∅ "" (Foreign "card declined")
                    (InMemory.worldWith InMemory.pendingPayment)
                    (InMemory.worldWith InMemory.pendingPayment)
                    (InMemory.mkWorld 1001%Z ["uuid-1"; "uuid-2"; "uuid-3"; "uuid-4"] []
                       [Spec.rejected InMemory.pendingPayment ∅ "card declined" 1000%Z])
                    (InMemory.start (InMemory.worldWith InMemory.pendingPayment))
                    paymentRepo_keeps_updates ltac:(discriminate)
                    eq_refl eq_refl eq_refl eq_refl eq_refl eq_refl)).
Defined.

(** C3, counterexample to the claim as stated: with a store that refuses the
    write, the first of two calls on the same identifier does not settle the
    payment, and the second call asks the gateway a second time. *)
Lemma ProcessPayment_twice_asks_gateway_twice_when_write_refused :
  PaymentApp.ProcessPayment InMemory.readOnlyUseCase "pay-1"
      (InMemory.start (InMemory.worldWith InMemory.pendingPayment)) =
    (Returned
       (None,
        Some (fmt_Errorf "failed to update payment status after rejection"
                (Foreign "storage unavailable"))),
     (InMemory.mkWorld 1001%Z ["uuid-1"; "uuid-2"; "uuid-3"; "uuid-4"] []
        [InMemory.pendingPayment],
      [PaymentApp.RepoFindByID "pay-1";
       PaymentApp.GatewayProcessPayment InMemory.pendingPayment;
       PaymentApp.RepoUpdate
         (Spec.rejected InMemory.pendingPayment ∅ "card declined" 1000%Z)])) /\
  PaymentApp.ProcessPayment InMemory.readOnlyUseCase "pay-1"
      (InMemory.mkWorld 1001%Z ["uuid-1"; "uuid-2"; "uuid-3"; "uuid-4"] []
         [InMemory.pendingPayment],
       [PaymentApp.RepoFindByID "pay-1";
        PaymentApp.GatewayProcessPayment InMemory.pendingPayment;
        PaymentApp.RepoUpdate
          (Spec.rejected InMemory.pendingPayment ∅ "card declined" 1000%Z)]) =
    (Returned
       (None,
        Some (fmt_Errorf "failed to update payment status after rejection"
                (Foreign "storage unavailable"))),
     (InMemory.mkWorld 1002%Z ["uuid-1"; "uuid-2"; "uuid-3"; "uuid-4"] []
        [InMemory.pendingPayment],
      [PaymentApp.RepoFindByID "pay-1";
       PaymentApp.GatewayProcessPayment InMemory.pendingPayment;
       PaymentApp.RepoUpdate
         (Spec.rejected InMemory.pendingPayment ∅ "card declined" 1000%Z);
       PaymentApp.RepoFindByID "pay-1";
       PaymentApp.GatewayProcessPayment InMemory.pendingPayment;
       PaymentApp.RepoUpdate
         (Spec.rejected InMemory.pendingPayment ∅ "card declined" 1001%Z)])).
Proof. split; reflexivity. Qed.

(** * Theorems: the order use cases *)

Section OrderUseCases.
Import OrderDomain OrderApp Spec.
Context {W : Type} (uc : OrderUseCase W).

Lemma order_invoke_eq {A : Type} (c : call) (f : W -> A * W) (s : St W call) :
  invoke c f s = (Returned (fst (f (fst s))), (snd (f (fst s)), snd s ++ [c])).
Proof. unfold invoke. now destruct (f (fst s)). Qed.

(** [UpdateOrderStatus] on an order that the repository finds. *)
Lemma UpdateOrderStatus_found (id : string) (status : OrderStatus) (o : Order)
    (w1 : W) (s : St W call) :
  FindByID (repo uc) id (fst s) = ((Some o, None), w1) ->
  let o' := transitioned o status (fst (time_Now (runtime uc) w1)) in
  let upd := Update (repo uc) o' (snd (time_Now (runtime uc) w1)) in
  UpdateOrderStatus uc id status s =
    if isValidStatusTransition (order_status o) status then
      (Returned match fst upd with
                | None => (Some o', None)
                | Some err => (None, Some err)
                end,
       (snd upd, snd s ++ [CallFindByID id; CallUpdate o']))
    else
      (Returned (None, Some ErrOrderStatusTransition), (w1, snd s ++ [CallFindByID id])).
Proof.
  intros Hfind o' upd. unfold UpdateOrderStatus.
  unfold bind at 1. rewrite order_invoke_eq, Hfind. cbn [fst snd].
  unfold bind at 1, callMethod. rewrite UpdateStatus_eq. cbn [fst snd].
  destruct (isValidStatusTransition (order_status o) status); cbn [fst snd].
  - unfold bind. rewrite order_invoke_eq. cbn [fst snd]. fold o'. fold upd.
    rewrite <- !app_assoc. cbn [app].
    destruct (fst upd); reflexivity.
  - reflexivity.
Qed.

(** [CreateOrder] with no item never reaches the repository. *)
Lemma CreateOrder_no_items (customerID : string) (s : St W call) :
  CreateOrder uc customerID [] s =
    (Returned (None, Some (if String.eqb customerID ""
                           then ErrInvalidCustomerID else ErrInvalidOrderItems)), s).
Proof. unfold CreateOrder. now destruct (String.eqb customerID ""). Qed.

(** C8: [CancelOrder] is [UpdateOrderStatus] with the target status
    canceled, and so goes through the guard of [UpdateStatus]: on an order
    that is pending, paid or shipped the entity moves to canceled and the
    use case writes it and returns it (or the error of the write); on an
    order that is delivered or canceled both fail with
    [ErrOrderStatusTransition], the order is not changed and nothing is
    written. *)
Theorem CancelOrder_is_guarded_update :
  (forall id : string, CancelOrder uc id = UpdateOrderStatus uc id StatusCanceled)
  /\
  (forall (o : Order) (s : St W call),
      In (order_status o) [StatusPending; StatusPaid; StatusShipped] ->
      UpdateStatus (runtime uc) StatusCanceled o s =
        (Returned None,
         transitioned o StatusCanceled (fst (time_Now (runtime uc) (fst s))),
         (snd (time_Now (runtime uc) (fst s)), snd s)))
  /\
  (forall (o : Order) (s : St W call),
      In (order_status o) [StatusDelivered; StatusCanceled] ->
      UpdateStatus (runtime uc) StatusCanceled o s =
        (Returned (Some ErrOrderStatusTransition), o, s))
  /\
  (forall (id : string) (o : Order) (w1 : W) (s : St W call),
      FindByID (repo uc) id (fst s) = ((Some o, None), w1) ->
      In (order_status o) [StatusPending; StatusPaid; StatusShipped] ->
      let o' := transitioned o StatusCanceled (fst (time_Now (runtime uc) w1)) in
      let upd := Update (repo uc) o' (snd (time_Now (runtime uc) w1)) in
      order_status o' = StatusCanceled /\
      CancelOrder uc id s =
        (Returned match fst upd with
                  | None => (Some o', None)
                  | Some err => (None, Some err)
                  end,
         (snd upd, snd s ++ [CallFindByID id; CallUpdate o'])))
  /\
  (forall (id : string) (o : Order) (w1 : W) (s : St W call),
      FindByID (repo uc) id (fst s) = ((Some o, None), w1) ->
      In (order_status o) [StatusDelivered; StatusCanceled] ->
      CancelOrder uc id s =
        (Returned (None, Some ErrOrderStatusTransition),
         (w1, snd s ++ [CallFindByID id]))).
Proof.
  assert (Hok : forall st, In st [StatusPending; StatusPaid; StatusShipped] ->
                           isValidStatusTransition st StatusCanceled = true)
    by (intros st [<- | [<- | [<- | []]]]; reflexivity).
  assert (Hko : forall st, In st [StatusDelivered; StatusCanceled] ->
                           isValidStatusTransition st StatusCanceled = false)
    by (intros st [<- | [<- | []]]; reflexivity).
  split; [reflexivity|]. split; [|split; [|split]].
  - intros o s Hin. rewrite UpdateStatus_eq. now rewrite (Hok _ Hin).
  - intros o s Hin. rewrite UpdateStatus_eq. now rewrite (Hko _ Hin).
  - intros id o w1 s Hfind Hin o' upd. split; [reflexivity|].
    unfold CancelOrder.
    rewrite (UpdateOrderStatus_found id StatusCanceled o w1 s Hfind).
    now rewrite (Hok _ Hin).
  - intros id o w1 s Hfind Hin. unfold CancelOrder.
    rewrite (UpdateOrderStatus_found id StatusCanceled o w1 s Hfind).
    now rewrite (Hko _ Hin).
Qed.
End OrderUseCases.

Lemma CancelOrder_is_guarded_update_witness :
  In (OrderDomain.order_status (InMemory.sampleOrder OrderDomain.StatusPaid))
     [OrderDomain.StatusPending; OrderDomain.StatusPaid; OrderDomain.StatusShipped] /\
  OrderApp.CancelOrder InMemory.orderUseCase "order-1"
      (InMemory.start (InMemory.worldWithOrder (InMemory.sampleOrder OrderDomain.StatusPaid)))
  = (Returned
       (Some (Spec.transitioned (InMemory.sampleOrder OrderDomain.StatusPaid)
                OrderDomain.StatusCanceled 1000%Z), None),
     (InMemory.mkWorld 1001%Z ["uuid-1"; "uuid-2"; "uuid-3"; "uuid-4"]
        [Spec.transitioned (InMemory.sampleOrder OrderDomain.StatusPaid)
           OrderDomain.StatusCanceled 1000%Z] [],
      [OrderApp.CallFindByID "order-1";
       OrderApp.CallUpdate (Spec.transitioned (InMemory.sampleOrder OrderDomain.StatusPaid)
                              OrderDomain.StatusCanceled 1000%Z)]))
  /\
  In (OrderDomain.order_status (InMemory.sampleOrder OrderDomain.StatusDelivered))
     [OrderDomain.StatusDelivered; OrderDomain.StatusCanceled] /\
  OrderApp.CancelOrder InMemory.orderUseCase "order-1"
      (InMemory.start
         (InMemory.worldWithOrder (InMemory.sampleOrder OrderDomain.StatusDelivered)))
  = (Returned (None, Some OrderDomain.ErrOrderStatusTransition),
     (InMemory.worldWithOrder (InMemory.sampleOrder OrderDomain.StatusDelivered),
      [OrderApp.CallFindByID "order-1"])).
Proof.
  destruct (CancelOrder_is_guarded_update InMemory.orderUseCase)
    as (_ & _ & _ & Hcancel & Hrefuse).
  split; [right; left; reflexivity|]. split.
  - refine (proj2 (Hcancel "order-1" (InMemory.sampleOrder OrderDomain.StatusPaid)
                     (InMemory.worldWithOrder (InMemory.sampleOrder OrderDomain.StatusPaid))
                     (InMemory.start _) _ _));
      [reflexivity | right; left; reflexivity].
  - split; [left; reflexivity|].
    refine (Hrefuse "order-1" (InMemory.sampleOrder OrderDomain.StatusDelivered)
              (InMemory.worldWithOrder (InMemory.sampleOrder OrderDomain.StatusDelivered))
              (InMemory.start _) _ _);
      [reflexivity | left; reflexivity].
Defined.

(** * Theorems: refund and creation of payments *)

Section PaymentRefundAndCreate.
Import PaymentDomain PaymentApp Spec.
Context {W : Type} (uc : PaymentUseCase W).

(** [RefundPayment] on a payment that the repository finds.  Whatever the
    status of the payment, the gateway is asked to refund first; the status
    is looked at only when the gateway has accepted. *)
Lemma RefundPayment_found (id reason : string) (p : Payment) (w1 : W)
    (s : St W call) :
  id <> "" ->
  PaymentRepository.FindByID (repo uc) id (fst s) = ((Some p, None), w1) ->
  let gw := PaymentGateway.RefundPayment (gateway uc) (Some p) reason w1 in
  let asked := snd s ++ [RepoFindByID id; GatewayRefundPayment (Some p) reason] in
  RefundPayment uc id reason s =
    match fst gw with
    | Some err =>
        (Returned (None, Some (fmt_Errorf "refund processing failed" err)),
         (snd gw, asked))
    | None =>
        if String.eqb (payment_status p) PaymentStatusApproved then
          match payment_paymentData p with
          | None => (Panicked nil_map_panic, (snd gw, asked))
          | Some m =>
              let p' := refunded p m reason (fst (time_Now (runtime uc) (snd gw))) in
              let upd := PaymentRepository.Update (repo uc) p'
                           (snd (time_Now (runtime uc) (snd gw))) in
              (Returned
                 match fst upd with
                 | None => (Some p', None)
                 | Some err =>
                     (None,
                      Some (fmt_Errorf "failed to update payment status after refund"
                              err))
                 end,
               (snd upd, asked ++ [RepoUpdate p']))
          end
        else (Returned (None, Some refund_refused), (snd gw, asked))
    end.
Proof.
  intros Hid Hfind gw asked. unfold RefundPayment.
  apply String.eqb_neq in Hid. rewrite Hid.
  unfold bind at 1. rewrite invoke_eq, Hfind. cbn [fst snd].
  unfold bind at 1. rewrite invoke_eq. cbn [fst snd]. fold gw.
  rewrite <- !app_assoc. cbn [app]. fold asked.
  destruct (fst gw) as [err|]; [reflexivity|].
  unfold bind at 1, callMethod.
  destruct (String.eqb (payment_status p) PaymentStatusApproved) eqn:Hst.
  - apply String.eqb_eq in Hst.
    destruct (payment_paymentData p) as [m|] eqn:Hm.
    + rewrite (Refund_allocated _ _ _ m _ Hst Hm). cbn [fst snd].
      unfold bind. rewrite invoke_eq. cbn [fst snd].
      destruct (fst (PaymentRepository.Update _ _ _)); reflexivity.
    + now rewrite (Refund_nil_map _ _ _ _ Hst Hm).
  - apply String.eqb_neq in Hst. now rewrite (Refund_refused _ _ _ _ Hst).
Qed.

(** [CreatePayment] when the lookup by order reference finds a payment. *)
Lemma CreatePayment_existing (orderID : string) (amount : float) (method : PaymentMethod)
    (paymentData : option (gmap string string)) (q : Payment) (w1 : W)
    (s : St W call) :
  PaymentRepository.FindByOrderID (repo uc) orderID (fst s) = ((Some q, None), w1) ->
  CreatePayment uc orderID amount method paymentData s =
    (Returned (None, Some ErrPaymentAlreadyExists),
     (w1, snd s ++ [RepoFindByOrderID orderID])).
Proof.
  intros Hfind. unfold CreatePayment, bind. now rewrite invoke_eq, Hfind.
Qed.

(** [CreatePayment] when the lookup finds nothing and the input is refused
    by [NewPayment]: the order reference is checked first, then the amount,
    then the method. *)
Lemma CreatePayment_absent_invalid (orderID : string) (amount : float)
    (method : PaymentMethod) (paymentData : option (gmap string string))
    (s : St W call) :
  let lookup := PaymentRepository.FindByOrderID (repo uc) orderID (fst s) in
  reports_absent (fst lookup) = true ->
  (String.eqb orderID "" || (amount <=? 0)%float || String.eqb method "") = true ->
  CreatePayment uc orderID amount method paymentData s =
    (Returned
       (None,
        Some (if String.eqb orderID "" then ErrInvalidOrderID
              else if (amount <=? 0)%float then ErrInvalidPaymentAmount
              else ErrInvalidPaymentMethod)),
     (snd lookup, snd s ++ [RepoFindByOrderID orderID])).
Proof.
  intros lookup Habs Hbad. unfold CreatePayment.
  unfold bind at 1. rewrite invoke_eq. fold lookup. cbn [fst snd].
  destruct (fst lookup) as [[q|] [err|]]; cbn in Habs; try discriminate;
    cbn [fst snd]; try rewrite Habs; cbn [negb];
    unfold bind, NewPayment;
    destruct (String.eqb orderID ""); try reflexivity;
    destruct (amount <=? 0)%float; try reflexivity;
    destruct (String.eqb method ""); try reflexivity; discriminate.
Qed.

(** With an amount <= 0 the call always fails, after exactly one
    collaborator call, the lookup. *)
Lemma CreatePayment_nonpositive_amount (orderID : string) (amount : float)
    (method : PaymentMethod) (paymentData : option (gmap string string))
    (s : St W call) :
  (amount <=? 0)%float = true ->
  exists err,
    CreatePayment uc orderID amount method paymentData s =
      (Returned (None, Some err),
       (snd (PaymentRepository.FindByOrderID (repo uc) orderID (fst s)),
        snd s ++ [RepoFindByOrderID orderID])).
Proof.
  intros Hle. unfold CreatePayment.
  unfold bind at 1. rewrite invoke_eq. cbn [fst snd].
  destruct (fst (PaymentRepository.FindByOrderID (repo uc) orderID (fst s)))
    as [[q|] [err|]]; cbn [fst snd];
    try destruct (errors_Is err PaymentDomain_ErrPaymentNotFound); cbn [negb];
    try (eexists; reflexivity);
    unfold bind, NewPayment; rewrite Hle;
    destruct (String.eqb orderID ""); eexists; reflexivity.
Qed.
End PaymentRefundAndCreate.

Section PaymentClaims.
Import PaymentDomain PaymentApp Spec.
Context {W : Type} (uc : PaymentUseCase W).

(** C5, as the code has it: [CreatePayment] first looks the order reference
    up in the repository and validates afterwards.  When the lookup finds a
    payment the call fails with [ErrPaymentAlreadyExists]; when it finds
    none, the input is checked in the order reference, amount, method, each
    with its own error, so an amount <= 0 with a non-empty order reference
    fails with [ErrInvalidPaymentAmount]; and whatever the lookup answers,
    a call with an amount <= 0 fails after that single lookup.  In all
    these cases the lookup is the only collaborator call: nothing is
    written. *)
Theorem CreatePayment_validates_after_lookup :
  (forall orderID amount method paymentData (q : Payment) (w1 : W) (s : St W call),
      PaymentRepository.FindByOrderID (repo uc) orderID (fst s) = ((Some q, None), w1) ->
      CreatePayment uc orderID amount method paymentData s =
        (Returned (None, Some ErrPaymentAlreadyExists),
         (w1, snd s ++ [RepoFindByOrderID orderID])))
  /\
  (forall orderID amount method paymentData (s : St W call),
      reports_absent (fst (PaymentRepository.FindByOrderID (repo uc) orderID (fst s)))
        = true ->
      orderID <> "" ->
      (amount <=? 0)%float = true ->
      CreatePayment uc orderID amount method paymentData s =
        (Returned (None, Some ErrInvalidPaymentAmount),
         (snd (PaymentRepository.FindByOrderID (repo uc) orderID (fst s)),
          snd s ++ [RepoFindByOrderID orderID])))
  /\
  (forall orderID amount method paymentData (s : St W call),
      reports_absent (fst (PaymentRepository.FindByOrderID (repo uc) orderID (fst s)))
        = true ->
      (String.eqb orderID "" || (amount <=? 0)%float || String.eqb method "") = true ->
      CreatePayment uc orderID amount method paymentData s =
        (Returned
           (None,
            Some (if String.eqb orderID "" then ErrInvalidOrderID
                  else if (amount <=? 0)%float then ErrInvalidPaymentAmount
                  else ErrInvalidPaymentMethod)),
         (snd (PaymentRepository.FindByOrderID (repo uc) orderID (fst s)),
          snd s ++ [RepoFindByOrderID orderID])))
  /\
  (forall orderID amount method paymentData (s : St W call),
      (amount <=? 0)%float = true ->
      exists err,
        CreatePayment uc orderID amount method paymentData s =
          (Returned (None, Some err),
           (snd (PaymentRepository.FindByOrderID (repo uc) orderID (fst s)),
            snd s ++ [RepoFindByOrderID orderID]))).
Proof.
  split; [exact (CreatePayment_existing uc)|]. split; [|split].
  - intros orderID amount method paymentData s Habs Hid Hle.
    rewrite (CreatePayment_absent_invalid uc orderID amount method paymentData s Habs).
    + apply String.eqb_neq in Hid. now rewrite Hid, Hle.
    + rewrite Hle. now rewrite orb_true_r.
  - exact (CreatePayment_absent_invalid uc).
  - exact (CreatePayment_nonpositive_amount uc).
Qed.

(** C7, as the code has it: of the three mutators of the payment entity
    only [Refund] is guarded.  [Approve] sets the status to approved from
    every status, and [Reject] (the auxiliary map being allocated) sets it
    to rejected from every status; [Refund] returns an error and leaves the
    payment as it is unless the status is approved, and from approved (the
    map being allocated) moves it to refunded.  That [Approve] and [Reject]
    only act on pending payments is the doing of [ProcessPayment], which
    returns a payment that is not pending without calling either. *)
Theorem only_Refund_is_guarded_by_the_entity :
  (forall (C : Type) transactionID (p : Payment) (s : St W C),
      Approve (runtime uc) transactionID p s =
        (Returned tt, approved p transactionID (fst (time_Now (runtime uc) (fst s))),
         (snd (time_Now (runtime uc) (fst s)), snd s)))
  /\
  (forall (C : Type) reason (p : Payment) (m : gmap string string) (s : St W C),
      payment_paymentData p = Some m ->
      Reject (runtime uc) reason p s =
        (Returned tt, rejected p m reason (fst (time_Now (runtime uc) (fst s))),
         (snd (time_Now (runtime uc) (fst s)), snd s)))
  /\
  (forall (C : Type) reason (p : Payment) (s : St W C),
      payment_status p <> PaymentStatusApproved ->
      Refund (runtime uc) reason p s = (Returned (Some refund_refused), p, s))
  /\
  (forall (C : Type) reason (p : Payment) (m : gmap string string) (s : St W C),
      payment_status p = PaymentStatusApproved ->
      payment_paymentData p = Some m ->
      Refund (runtime uc) reason p s =
        (Returned None, refunded p m reason (fst (time_Now (runtime uc) (fst s))),
         (snd (time_Now (runtime uc) (fst s)), snd s)))
  /\
  (forall (paymentID : string) (p : Payment) (w1 : W) (s : St W call),
      paymentID <> "" ->
      PaymentRepository.FindByID (repo uc) paymentID (fst s) = ((Some p, None), w1) ->
      payment_status p <> PaymentStatusPending ->
      ProcessPayment uc paymentID s =
        (Returned (Some p, None), (w1, snd s ++ [RepoFindByID paymentID]))).
Proof.
  split; [intros; apply Approve_eq|].
  split; [intros; now apply Reject_allocated|].
  split; [intros; now apply Refund_refused|].
  split; [intros; now apply Refund_allocated|].
  exact (ProcessPayment_not_pending uc).
Qed.
End PaymentClaims.

(** The call of [CreatePayment] with amount -1 on the empty store. *)
Example CreatePayment_negative_amount_run :
  PaymentApp.CreatePayment InMemory.dummyUseCase "order-1" (-1)%float
      PaymentDomain.PaymentMethodCreditCard None (InMemory.start InMemory.emptyWorld) =
    (Returned (None, Some PaymentDomain.ErrInvalidPaymentAmount),
     (InMemory.emptyWorld, [PaymentApp.RepoFindByOrderID "order-1"])).
Proof. reflexivity. Qed.

(** C5, counterexample to the claim as stated: a call with amount -1 fails
    with [ErrInvalidPaymentAmount] only after the repository has been asked
    for the payment of the order. *)
Lemma CreatePayment_asks_store_before_validating :
  (-1 <=? 0)%float = true /\
  ~ Spec.rejected_before_any_persistence_call InMemory.dummyUseCase "order-1" (-1)%float
      PaymentDomain.PaymentMethodCreditCard None (InMemory.start InMemory.emptyWorld).
Proof.
  split; [reflexivity|].
  intros [w' Hrun]. rewrite CreatePayment_negative_amount_run in Hrun.
  discriminate Hrun.
Qed.

Lemma CreatePayment_validates_after_lookup_witness :
  Spec.reports_absent
    (fst (PaymentApp.PaymentRepository.FindByOrderID
            (PaymentApp.repo InMemory.dummyUseCase) "order-1" InMemory.emptyWorld)) = true /\
  "order-1" <> "" /\
  (-1 <=? 0)%float = true /\
  PaymentApp.CreatePayment InMemory.dummyUseCase "order-1" (-1)%float
      PaymentDomain.PaymentMethodCreditCard None (InMemory.start InMemory.emptyWorld) =
    (Returned (None, Some PaymentDomain.ErrInvalidPaymentAmount),
     (InMemory.emptyWorld, [PaymentApp.RepoFindByOrderID "order-1"])).
Proof.
  split; [reflexivity|]. split; [discriminate|]. split; [reflexivity|].
  refine (proj1 (proj2 (CreatePayment_validates_after_lookup InMemory.dummyUseCase))
            "order-1" (-1)%float PaymentDomain.PaymentMethodCreditCard None
            (InMemory.start InMemory.emptyWorld) _ _ _);
    [reflexivity | discriminate | reflexivity].
Defined.

(** C7, counterexample to the claim as stated: [Approve] takes effect on a
    refunded payment, and [Reject] on an approved one. *)
Lemma Approve_and_Reject_act_outside_pending :
  PaymentDomain.payment_status InMemory.refundedPayment
    = PaymentDomain.PaymentStatusRefunded /\
  PaymentDomain.Approve InMemory.realTime "txn_late" InMemory.refundedPayment
      (InMemory.start (C := PaymentApp.call) InMemory.emptyWorld) =
    (Returned tt,
     PaymentDomain.mkPayment "pay-1" "order-1" 1100000%float
       PaymentDomain.PaymentMethodCreditCard PaymentDomain.PaymentStatusApproved
       "txn_late" (Some (<["refund_reason" := "customer request"]> ∅)) 900%Z 1000%Z,
     (InMemory.mkWorld 1001%Z ["uuid-1"; "uuid-2"; "uuid-3"; "uuid-4"] [] [], [])) /\
  PaymentDomain.Reject InMemory.realTime "late decline"
      (Spec.approved InMemory.pendingPayment "txn_pay-1" 1000%Z)
      (InMemory.start (C := PaymentApp.call) InMemory.emptyWorld) =
    (Returned tt,
     PaymentDomain.mkPayment "pay-1" "order-1" 1100000%float
       PaymentDomain.PaymentMethodCreditCard PaymentDomain.PaymentStatusRejected
       "txn_pay-1" (Some (<["reject_reason" := "late decline"]> ∅)) 900%Z 1000%Z,
     (InMemory.mkWorld 1001%Z ["uuid-1"; "uuid-2"; "uuid-3"; "uuid-4"] [] [], [])).
Proof. repeat split; reflexivity. Qed.

Lemma only_Refund_is_guarded_by_the_entity_witness :
  PaymentDomain.payment_status InMemory.pendingPayment
    <> PaymentDomain.PaymentStatusApproved /\
  PaymentDomain.Refund InMemory.realTime "customer request" InMemory.pendingPayment
      (InMemory.start (C := PaymentApp.call) InMemory.emptyWorld) =
    (Returned (Some PaymentDomain.refund_refused), InMemory.pendingPayment,
     InMemory.start InMemory.emptyWorld) /\
  PaymentDomain.Refund InMemory.realTime "customer request"
      (Spec.approved InMemory.pendingPayment "txn_pay-1" 1000%Z)
      (InMemory.start (C := PaymentApp.call) InMemory.emptyWorld) =
    (Returned None, InMemory.refundedPayment,
     (InMemory.mkWorld 1001%Z ["uuid-1"; "uuid-2"; "uuid-3"; "uuid-4"] [] [], [])).
Proof.
  destruct (only_Refund_is_guarded_by_the_entity InMemory.dummyUseCase)
    as (_ & _ & Hrefused & Hrefund & _).
  split; [discriminate|]. split.
  - apply (Hrefused PaymentApp.call). discriminate.
  - exact (Hrefund PaymentApp.call "customer request"
             (Spec.approved InMemory.pendingPayment "txn_pay-1" 1000%Z) ∅
             (InMemory.start InMemory.emptyWorld) eq_refl eq_refl).
Defined.

(** * The defects, at their failing inputs *)

(** C2, at the failing input: refunding a pending payment.  The gateway is
    asked to refund before the status is looked at: with a gateway that
    accepts, the refusal of [Refund] comes after the gateway call; with a
    gateway that declines, the error is the gateway's, not the refusal. *)
Theorem RefundPayment_asks_gateway_for_pending_payment :
  PaymentDomain.payment_status InMemory.pendingPayment
    = PaymentDomain.PaymentStatusPending /\
  PaymentApp.RefundPayment InMemory.dummyUseCase "pay-1" "customer request"
      (InMemory.start (InMemory.worldWith InMemory.pendingPayment)) =
    (Returned (None, Some PaymentDomain.refund_refused),
     (InMemory.worldWith InMemory.pendingPayment,
      [PaymentApp.RepoFindByID "pay-1";
       PaymentApp.GatewayRefundPayment (Some InMemory.pendingPayment) "customer request"]))
  /\
  PaymentApp.RefundPayment InMemory.decliningUseCase "pay-1" "customer request"
      (InMemory.start (InMemory.worldWith InMemory.pendingPayment)) =
    (Returned (None, Some (fmt_Errorf "refund processing failed" (Foreign "refund declined"))),
     (InMemory.worldWith InMemory.pendingPayment,
      [PaymentApp.RepoFindByID "pay-1";
       PaymentApp.GatewayRefundPayment (Some InMemory.pendingPayment) "customer request"])).
Proof. repeat split; reflexivity. Qed.

(** C4, at the failing input: a pending payment whose auxiliary map is nil,
    and a gateway that declines.  [Reject] panics on the write of the reason:
    no rejected payment is returned and nothing is written. *)
Theorem ProcessPayment_decline_panics_on_nil_map :
  PaymentDomain.payment_status InMemory.pendingPaymentNoData
    = PaymentDomain.PaymentStatusPending /\
  PaymentApp.ProcessPayment InMemory.decliningUseCase "pay-1"
      (InMemory.start (InMemory.worldWith InMemory.pendingPaymentNoData)) =
    (Panicked nil_map_panic,
     (InMemory.worldWith InMemory.pendingPaymentNoData,
      [PaymentApp.RepoFindByID "pay-1";
       PaymentApp.GatewayProcessPayment InMemory.pendingPaymentNoData])).
Proof. split; reflexivity. Qed.

(** C9, at the failing input: a payment created without auxiliary data keeps
    a nil map; processing it with a gateway that declines panics in
    [Reject], and refunding it once approved panics in [Refund], after the
    gateway has refunded. *)
Theorem nil_payment_data_panics :
  PaymentApp.CreatePayment InMemory.decliningUseCase "order-1" 1100000%float
      PaymentDomain.PaymentMethodCreditCard None (InMemory.start InMemory.emptyWorld) =
    (Returned (Some InMemory.createdNoData, None),
     (InMemory.mkWorld 1001%Z ["uuid-2"; "uuid-3"; "uuid-4"] [] [InMemory.createdNoData],
      [PaymentApp.RepoFindByOrderID "order-1";
       PaymentApp.RepoSave (Some InMemory.createdNoData)]))
  /\
  PaymentApp.ProcessPayment InMemory.decliningUseCase "uuid-1"
      (InMemory.start
         (InMemory.mkWorld 1001%Z ["uuid-2"; "uuid-3"; "uuid-4"] []
            [InMemory.createdNoData])) =
    (Panicked nil_map_panic,
     (InMemory.mkWorld 1001%Z ["uuid-2"; "uuid-3"; "uuid-4"] [] [InMemory.createdNoData],
      [PaymentApp.RepoFindByID "uuid-1";
       PaymentApp.GatewayProcessPayment InMemory.createdNoData]))
  /\
  PaymentDomain.Reject InMemory.realTime "card declined" InMemory.createdNoData
      (InMemory.start (C := PaymentApp.call) InMemory.emptyWorld) =
    (Panicked nil_map_panic,
     PaymentDomain.set_status PaymentDomain.PaymentStatusRejected InMemory.createdNoData,
     InMemory.start InMemory.emptyWorld)
  /\
  PaymentApp.RefundPayment InMemory.dummyUseCase "pay-1" "customer request"
      (InMemory.start (InMemory.worldWith InMemory.approvedPaymentNoData)) =
    (Panicked nil_map_panic,
     (InMemory.worldWith InMemory.approvedPaymentNoData,
      [PaymentApp.RepoFindByID "pay-1";
       PaymentApp.GatewayRefundPayment (Some InMemory.approvedPaymentNoData)
         "customer request"])).
Proof. repeat split; reflexivity. Qed.

(** * Runs of the specification's scenarios *)

(** A pending payment with an allocated auxiliary map, a gateway that
    declines and a store that accepts: the payment comes back rejected, the
    reason under the key [reject_reason], together with the wrapped gateway
    error. *)
Example ProcessPayment_declined_run :
  PaymentApp.ProcessPayment InMemory.decliningUseCase "pay-1"
      (InMemory.start (InMemory.worldWith InMemory.pendingPayment)) =
    (Returned
       (Some (Spec.rejected InMemory.pendingPayment ∅ "card declined" 1000%Z),
        Some (fmt_Errorf "payment processing failed" (Foreign "card declined"))),
     (InMemory.mkWorld 1001%Z ["uuid-1"; "uuid-2"; "uuid-3"; "uuid-4"] []
        [Spec.rejected InMemory.pendingPayment ∅ "card declined" 1000%Z],
      [PaymentApp.RepoFindByID "pay-1";
       PaymentApp.GatewayProcessPayment InMemory.pendingPayment;
       PaymentApp.RepoUpdate
         (Spec.rejected InMemory.pendingPayment ∅ "card declined" 1000%Z)])).
Proof. reflexivity. Qed.

(** The same with a store that refuses the write: the error is the one of
    the update, and no payment is returned. *)
Example ProcessPayment_declined_unsaved_run :
  PaymentApp.ProcessPayment InMemory.readOnlyUseCase "pay-1"
      (InMemory.start (InMemory.worldWith InMemory.pendingPayment)) =
    (Returned
       (None,
        Some (fmt_Errorf "failed to update payment status after rejection"
                (Foreign "storage unavailable"))),
     (InMemory.mkWorld 1001%Z ["uuid-1"; "uuid-2"; "uuid-3"; "uuid-4"] []
        [InMemory.pendingPayment],
      [PaymentApp.RepoFindByID "pay-1";
       PaymentApp.GatewayProcessPayment InMemory.pendingPayment;
       PaymentApp.RepoUpdate
         (Spec.rejected InMemory.pendingPayment ∅ "card declined" 1000%Z)])).
Proof. reflexivity. Qed.

(** Refunding an approved payment with an allocated map and a gateway that
    accepts. *)
Example RefundPayment_approved_run :
  PaymentApp.RefundPayment InMemory.dummyUseCase "pay-1" "customer request"
      (InMemory.start
         (InMemory.worldWith (Spec.approved InMemory.pendingPayment "txn_pay-1" 1000%Z))) =
    (Returned (Some InMemory.refundedPayment, None),
     (InMemory.mkWorld 1001%Z ["uuid-1"; "uuid-2"; "uuid-3"; "uuid-4"] []
        [InMemory.refundedPayment],
      [PaymentApp.RepoFindByID "pay-1";
       PaymentApp.GatewayRefundPayment
         (Some (Spec.approved InMemory.pendingPayment "txn_pay-1" 1000%Z))
         "customer request";
       PaymentApp.RepoUpdate InMemory.refundedPayment])).
Proof. reflexivity. Qed.

(** * Further properties: the life of an order *)

Section OrderLifecycle.
Import OrderDomain Spec Runs.
Context {W C : Type} (rt : Runtime W).

Lemma valid_transition_uses_a_step (from to : OrderStatus) :
  isValidStatusTransition from to = true -> stepsLeft to < stepsLeft from.
Proof.
  intros Hv. apply isValidStatusTransition_table in Hv. cbn in Hv.
  repeat match type of Hv with
         | _ \/ _ => destruct Hv as [Hv | Hv]
         end; try contradiction; inversion Hv; vm_compute; lia.
Qed.

Lemma valid_transition_target (from to : OrderStatus) :
  isValidStatusTransition from to = true ->
  In to [StatusPaid; StatusShipped; StatusDelivered; StatusCanceled].
Proof.
  intros Hv. apply isValidStatusTransition_table in Hv. cbn in Hv.
  repeat match type of Hv with
         | _ \/ _ => destruct Hv as [Hv | Hv]
         end; try contradiction; inversion Hv; cbn; tauto.
Qed.

Lemma closed_status_has_no_transition (from to : OrderStatus) :
  ~ In from [StatusPending; StatusPaid; StatusShipped] ->
  isValidStatusTransition from to = false.
Proof.
  intros Hout. unfold isValidStatusTransition.
  destruct (String.eqb_spec from StatusPending) as [-> | _];
    [exfalso; apply Hout; cbn; tauto|].
  destruct (String.eqb_spec from StatusPaid) as [-> | _];
    [exfalso; apply Hout; cbn; tauto|].
  destruct (String.eqb_spec from StatusShipped) as [-> | _];
    [exfalso; apply Hout; cbn; tauto|].
  now destruct (String.eqb from StatusDelivered || String.eqb from StatusCanceled).
Qed.

Lemma UpdateStatusAll_cons (status : OrderStatus) (rest : list OrderStatus) (o : Order)
    (s : St W C) :
  UpdateStatusAll rt (status :: rest) o s =
    if isValidStatusTransition (order_status o) status then
      let r := UpdateStatusAll rt rest
                 (transitioned o status (fst (time_Now rt (fst s))))
                 (snd (time_Now rt (fst s)), snd s) in
      (None :: fst (fst r), snd (fst r), snd r)
    else
      let r := UpdateStatusAll rt rest o s in
      (Some ErrOrderStatusTransition :: fst (fst r), snd (fst r), snd r).
Proof.
  cbn [UpdateStatusAll]. rewrite UpdateStatus_eq.
  destruct (isValidStatusTransition (order_status o) status); cbn zeta.
  - now destruct (UpdateStatusAll rt rest _ _) as [[errs o''] s''].
  - now destruct (UpdateStatusAll rt rest o s) as [[errs o''] s''].
Qed.

(** X1: Whatever statuses are requested, in whatever order and however often,
    every request is answered, and at most three of them are accepted: as
    many as the current status has steps left to delivered. *)
Theorem UpdateStatus_accepts_at_most_three (requests : list OrderStatus) (o : Order)
    (s : St W C) :
  length (fst (fst (UpdateStatusAll rt requests o s))) = length requests /\
  accepted (fst (fst (UpdateStatusAll rt requests o s))) <= stepsLeft (order_status o) /\
  stepsLeft (order_status o) <= 3.
Proof.
  split; [|split].
  - revert o s. induction requests as [|status rest IH]; intros o s; [reflexivity|].
    rewrite UpdateStatusAll_cons.
    destruct (isValidStatusTransition (order_status o) status); cbn; now rewrite IH.
  - revert o s. induction requests as [|status rest IH]; intros o s; [cbn; lia|].
    rewrite UpdateStatusAll_cons.
    destruct (isValidStatusTransition (order_status o) status) eqn:Hv; cbn.
    + apply valid_transition_uses_a_step in Hv.
      specialize (IH (transitioned o status (fst (time_Now rt (fst s))))
                    (snd (time_Now rt (fst s)), snd s)).
      cbn in IH. unfold accepted in *. lia.
    + apply IH.
  - unfold stepsLeft. repeat destruct (String.eqb _ _); lia.
Qed.

(** X2: No sequence of status updates touches the identifier, the customer, the
    items, the total or the creation time of an order; and the status it
    ends in is the one it started in or one of paid, shipped, delivered and
    canceled, whatever strings were requested. *)
Theorem UpdateStatus_keeps_the_order_content (requests : list OrderStatus) (o : Order)
    (s : St W C) :
  let o' := snd (fst (UpdateStatusAll rt requests o s)) in
  order_id o' = order_id o /\
  order_customerID o' = order_customerID o /\
  order_items o' = order_items o /\
  order_totalAmount o' = order_totalAmount o /\
  order_createdAt o' = order_createdAt o /\
  (order_status o' = order_status o \/
   In (order_status o') [StatusPaid; StatusShipped; StatusDelivered; StatusCanceled]).
Proof.
  cbn zeta. revert o s.
  induction requests as [|status rest IH]; intros o s; [cbn; tauto|].
  rewrite UpdateStatusAll_cons.
  destruct (isValidStatusTransition (order_status o) status) eqn:Hv; cbn [fst snd].
  - destruct (IH (transitioned o status (fst (time_Now rt (fst s))))
                (snd (time_Now rt (fst s)), snd s))
      as (H1 & H2 & H3 & H4 & H5 & H6).
    cbn [transitioned order_id order_customerID order_items order_totalAmount
           order_createdAt order_status] in *.
    repeat (split; [assumption|]).
    destruct H6 as [H6 | H6]; [|now right].
    right. rewrite H6. exact (valid_transition_target _ _ Hv).
  - apply IH.
Qed.

(** X3: An order whose status is not pending, paid or shipped (delivered,
    canceled, or a string that is no status at all) is stuck: every request
    is refused, the order stays as it is, the updated-timestamp included,
    and the clock is not even read. *)
Theorem UpdateStatus_closed_order_is_stuck (requests : list OrderStatus) (o : Order)
    (s : St W C) :
  ~ In (order_status o) [StatusPending; StatusPaid; StatusShipped] ->
  UpdateStatusAll rt requests o s =
    (map (fun _ => Some ErrOrderStatusTransition) requests, o, s).
Proof.
  intros Hout. induction requests as [|status rest IH]; [reflexivity|].
  rewrite UpdateStatusAll_cons, (closed_status_has_no_transition _ status Hout).
  cbn zeta. now rewrite IH.
Qed.
End OrderLifecycle.

Lemma UpdateStatus_closed_order_is_stuck_witness :
  ~ In (OrderDomain.order_status (InMemory.sampleOrder OrderDomain.StatusDelivered))
      [OrderDomain.StatusPending; OrderDomain.StatusPaid; OrderDomain.StatusShipped] /\
  Runs.UpdateStatusAll InMemory.realTime
      [OrderDomain.StatusCanceled; OrderDomain.StatusPending; "returned"]
      (InMemory.sampleOrder OrderDomain.StatusDelivered)
      (InMemory.start (C := OrderApp.call) InMemory.emptyWorld) =
    ([Some OrderDomain.ErrOrderStatusTransition; Some OrderDomain.ErrOrderStatusTransition;
      Some OrderDomain.ErrOrderStatusTransition],
     InMemory.sampleOrder OrderDomain.StatusDelivered,
     InMemory.start InMemory.emptyWorld).
Proof.
  assert (Hout : ~ In (OrderDomain.order_status
                         (InMemory.sampleOrder OrderDomain.StatusDelivered))
                      [OrderDomain.StatusPending; OrderDomain.StatusPaid;
                       OrderDomain.StatusShipped])
    by (cbn; intros [H | [H | [H | []]]]; discriminate H).
  split; [exact Hout|].
  exact (UpdateStatus_closed_order_is_stuck InMemory.realTime
           [OrderDomain.StatusCanceled; OrderDomain.StatusPending; "returned"]
           (InMemory.sampleOrder OrderDomain.StatusDelivered)
           (InMemory.start InMemory.emptyWorld) Hout).
Defined.

(** * Further properties: the order use cases *)

Section OrderCreation.
Import OrderDomain OrderApp Spec Runs.
Context {W : Type} (uc : OrderUseCase W).

(** The conversion loop appends one item per request, in the order of the
    requests, each with the content of its request; it calls no
    collaborator. *)
Lemma convertItems_content (itemRequests : list OrderItemRequest) :
  forall (acc : list OrderItem) (s : St W call),
  exists items w',
    convertItems uc itemRequests acc s = (Returned (acc ++ items), (w', snd s)) /\
    map itemContent items = map requestContent itemRequests.
Proof.
  induction itemRequests as [|req rest IH]; intros acc s.
  - exists [], (fst s). cbn. rewrite app_nil_r. now destruct s.
  - cbn [convertItems]. unfold bind at 1. rewrite NewOrderItem_eq.
    destruct (IH (acc ++ [mkOrderItem (fst (uuid_New (runtime uc) (fst s)))
                            (ProductID req) (Name req) (Price req) (Quantity req)])
                (snd (uuid_New (runtime uc) (fst s)), snd s))
      as (items & w' & Hrun & Hmap).
    eexists (_ :: items), w'. split.
    + rewrite Hrun. cbn [snd]. now rewrite <- app_assoc.
    + cbn [map]. now rewrite Hmap.
Qed.

Lemma sumSubtotals_of_content (items : list OrderItem) :
  forall (itemRequests : list OrderItemRequest) (a : float),
    map itemContent items = map requestContent itemRequests ->
    fold_left (fun totalAmount item => (totalAmount + Subtotal item)%float) items a =
    fold_left
      (fun totalAmount req =>
         (totalAmount + Price req * float64_of_int (Quantity req))%float)
      itemRequests a.
Proof.
  induction items as [|i items IH]; intros [|req rest] a Hmap; try discriminate;
    [reflexivity|].
  cbn [map] in Hmap. injection Hmap as _ _ Hp Hq Htl. cbn [fold_left].
  unfold Subtotal at 2. rewrite Hp, Hq. now apply IH.
Qed.

(** X4: A request with a customer, at least one item and a total that is not
    <= 0 reaches the repository once, with an order that has the customer,
    one item per requested item in the same order and with the same product,
    name, price and quantity, the accumulated total, the status pending and
    equal creation and update times.  The answer of [Save] decides the
    result: the order, or the error of [Save] as it is. *)
Theorem CreateOrder_saves_the_requested_order (customerID : string)
    (itemRequests : list OrderItemRequest) (s : St W call) :
  customerID <> "" ->
  itemRequests <> [] ->
  (requestTotal itemRequests <=? 0)%float = false ->
  exists (o : Order) (w1 : W),
    order_customerID o = customerID /\
    map itemContent (order_items o) = map requestContent itemRequests /\
    order_totalAmount o = requestTotal itemRequests /\
    order_status o = StatusPending /\
    order_updatedAt o = order_createdAt o /\
    CreateOrder uc customerID itemRequests s =
      (Returned match fst (Save (repo uc) (Some o) w1) with
                | None => (Some o, None)
                | Some err => (None, Some err)
                end,
       (snd (Save (repo uc) (Some o) w1), snd s ++ [CallSave (Some o)])).
Proof.
  intros Hc Hne Hpos. unfold CreateOrder.
  apply String.eqb_neq in Hc. rewrite Hc.
  destruct itemRequests as [|req rest]; [congruence|]. cbn [length Nat.eqb].
  destruct (convertItems_content (req :: rest) [] s) as (items & w' & Hrun & Hmap).
  unfold bind at 1. rewrite Hrun. cbn [app].
  assert (Hsum : sumSubtotals items = requestTotal (req :: rest))
    by (apply sumSubtotals_of_content, Hmap).
  unfold bind at 1. rewrite NewOrder_cases.
  destruct items as [|i items]; [discriminate Hmap|].
  rewrite Hsum, Hpos. cbn [fst snd].
  unfold bind. rewrite order_invoke_eq. cbn [fst snd].
  exists (freshOrder (runtime uc) customerID (i :: items) (w', snd s)).
  exists (fst (afterNewOrder (runtime uc) (w', snd s))).
  repeat split; try reflexivity; try assumption.
  cbn [afterNewOrder fst snd].
  destruct (fst (Save _ _ _)); reflexivity.
Qed.

(** X5: A request without a customer, without items or with a total <= 0 is
    refused with the error of the first of these checks that fails, and the
    repository is not called. *)
Theorem CreateOrder_refuses_without_saving (customerID : string)
    (itemRequests : list OrderItemRequest) (s : St W call) :
  (String.eqb customerID "" || Nat.eqb (length itemRequests) 0
   || (requestTotal itemRequests <=? 0)%float) = true ->
  exists w' : W,
    CreateOrder uc customerID itemRequests s =
      (Returned
         (None,
          Some (if String.eqb customerID "" then ErrInvalidCustomerID
                else if Nat.eqb (length itemRequests) 0 then ErrInvalidOrderItems
                else ErrInvalidOrderAmount)),
       (w', snd s)).
Proof.
  intros Hbad. unfold CreateOrder.
  destruct (String.eqb customerID ""); [exists (fst s); now destruct s|].
  destruct itemRequests as [|req rest]; [exists (fst s); now destruct s|].
  cbn [length Nat.eqb orb] in *.
  destruct (convertItems_content (req :: rest) [] s) as (items & w' & Hrun & Hmap).
  unfold bind at 1. rewrite Hrun. cbn [app].
  assert (Hsum : sumSubtotals items = requestTotal (req :: rest))
    by (apply sumSubtotals_of_content, Hmap).
  unfold bind at 1. rewrite NewOrder_cases.
  destruct items as [|i items]; [discriminate Hmap|].
  rewrite Hsum, Hbad. cbn [fst snd]. now exists w'.
Qed.

(** X6: [UpdateOrderStatus] writes only a transition of the table.  A failed
    lookup is answered with the lookup's error as it is; a found order and a
    pair outside the table with [ErrOrderStatusTransition]; in both cases
    after the lookup alone.  On a pair of the table the order handed to
    [Update] has the requested status, and the answer of [Update] decides the
    result. *)
Theorem UpdateOrderStatus_writes_only_table_transitions :
  (forall (id : string) (status : OrderStatus) (found : option Order) (err : error)
          (w1 : W) (s : St W call),
      FindByID (repo uc) id (fst s) = ((found, Some err), w1) ->
      UpdateOrderStatus uc id status s =
        (Returned (None, Some err), (w1, snd s ++ [CallFindByID id])))
  /\
  (forall (id : string) (status : OrderStatus) (o : Order) (w1 : W) (s : St W call),
      FindByID (repo uc) id (fst s) = ((Some o, None), w1) ->
      ~ In (order_status o, status) transition_table ->
      UpdateOrderStatus uc id status s =
        (Returned (None, Some ErrOrderStatusTransition),
         (w1, snd s ++ [CallFindByID id])))
  /\
  (forall (id : string) (status : OrderStatus) (o : Order) (w1 : W) (s : St W call),
      FindByID (repo uc) id (fst s) = ((Some o, None), w1) ->
      In (order_status o, status) transition_table ->
      let o' := transitioned o status (fst (time_Now (runtime uc) w1)) in
      let upd := Update (repo uc) o' (snd (time_Now (runtime uc) w1)) in
      UpdateOrderStatus uc id status s =
        (Returned match fst upd with
                  | None => (Some o', None)
                  | Some err => (None, Some err)
                  end,
         (snd upd, snd s ++ [CallFindByID id; CallUpdate o']))).
Proof.
  split; [|split].
  - intros id status found err w1 s Hfind. unfold UpdateOrderStatus, bind.
    now rewrite order_invoke_eq, Hfind.
  - intros id status o w1 s Hfind Hout.
    rewrite (UpdateOrderStatus_found uc id status o w1 s Hfind).
    destruct (isValidStatusTransition (order_status o) status) eqn:Hv; [|reflexivity].
    apply isValidStatusTransition_table in Hv. contradiction.
  - intros id status o w1 s Hfind Hin o' upd.
    rewrite (UpdateOrderStatus_found uc id status o w1 s Hfind).
    apply isValidStatusTransition_table in Hin. now rewrite Hin.
Qed.
End OrderCreation.

Lemma CreateOrder_saves_the_requested_order_witness :
  "customer-1" <> "" /\
  Scenario.scenarioRequests <> [] /\
  (Runs.requestTotal Scenario.scenarioRequests <=? 0)%float = false /\
  exists (o : OrderDomain.Order) (w1 : InMemory.World),
    OrderDomain.order_customerID o = "customer-1" /\
    map Runs.itemContent (OrderDomain.order_items o)
      = map Runs.requestContent Scenario.scenarioRequests /\
    OrderDomain.order_totalAmount o = Runs.requestTotal Scenario.scenarioRequests /\
    OrderDomain.order_status o = OrderDomain.StatusPending /\
    OrderDomain.order_updatedAt o = OrderDomain.order_createdAt o /\
    OrderApp.CreateOrder InMemory.orderUseCase "customer-1" Scenario.scenarioRequests
        (InMemory.start InMemory.emptyWorld) =
      (Returned match fst (OrderApp.Save (OrderApp.repo InMemory.orderUseCase) (Some o) w1)
                with
                | None => (Some o, None)
                | Some err => (None, Some err)
                end,
       (snd (OrderApp.Save (OrderApp.repo InMemory.orderUseCase) (Some o) w1),
        snd (InMemory.start (C := OrderApp.call) InMemory.emptyWorld)
          ++ [OrderApp.CallSave (Some o)])).
Proof.
  split; [discriminate|]. split; [discriminate|]. split; [reflexivity|].
  apply (CreateOrder_saves_the_requested_order InMemory.orderUseCase "customer-1"
           Scenario.scenarioRequests (InMemory.start InMemory.emptyWorld));
    [discriminate | discriminate | reflexivity].
Defined.

(** The scenario of the specification: the total is 1100000. *)
Example CreateOrder_scenario_run :
  OrderApp.CreateOrder InMemory.orderUseCase "customer-1" Scenario.scenarioRequests
      (InMemory.start InMemory.emptyWorld) =
    (Returned
       (Some (OrderDomain.mkOrder "uuid-3" "customer-1"
                [OrderDomain.mkOrderItem "uuid-1" "product-1" "keyboard" 1000000%float 1%Z;
                 OrderDomain.mkOrderItem "uuid-2" "product-2" "mouse" 50000%float 2%Z]
                1100000%float OrderDomain.StatusPending 1000%Z 1000%Z), None),
     (InMemory.mkWorld 1001%Z ["uuid-4"]
        [OrderDomain.mkOrder "uuid-3" "customer-1"
           [OrderDomain.mkOrderItem "uuid-1" "product-1" "keyboard" 1000000%float 1%Z;
            OrderDomain.mkOrderItem "uuid-2" "product-2" "mouse" 50000%float 2%Z]
           1100000%float OrderDomain.StatusPending 1000%Z 1000%Z] [],
      [OrderApp.CallSave
         (Some (OrderDomain.mkOrder "uuid-3" "customer-1"
                  [OrderDomain.mkOrderItem "uuid-1" "product-1" "keyboard" 1000000%float 1%Z;
                   OrderDomain.mkOrderItem "uuid-2" "product-2" "mouse" 50000%float 2%Z]
                  1100000%float OrderDomain.StatusPending 1000%Z 1000%Z))])).
Proof. reflexivity. Qed.

Lemma CreateOrder_refuses_without_saving_witness :
  (String.eqb "customer-1" "" || Nat.eqb (length Scenario.refundOnlyRequests) 0
   || (Runs.requestTotal Scenario.refundOnlyRequests <=? 0)%float) = true /\
  exists w' : InMemory.World,
    OrderApp.CreateOrder InMemory.orderUseCase "customer-1" Scenario.refundOnlyRequests
        (InMemory.start InMemory.emptyWorld) =
      (Returned (None, Some OrderDomain.ErrInvalidOrderAmount), (w', [])).
Proof.
  split; [reflexivity|].
  exact (CreateOrder_refuses_without_saving InMemory.orderUseCase "customer-1"
           Scenario.refundOnlyRequests (InMemory.start InMemory.emptyWorld) eq_refl).
Defined.

Lemma UpdateOrderStatus_writes_only_table_transitions_witness :
  ~ In (OrderDomain.order_status (InMemory.sampleOrder OrderDomain.StatusShipped),
        OrderDomain.StatusPaid) Spec.transition_table /\
  OrderApp.UpdateOrderStatus InMemory.orderUseCase "order-1" OrderDomain.StatusPaid
      (InMemory.start
         (InMemory.worldWithOrder (InMemory.sampleOrder OrderDomain.StatusShipped))) =
    (Returned (None, Some OrderDomain.ErrOrderStatusTransition),
     (InMemory.worldWithOrder (InMemory.sampleOrder OrderDomain.StatusShipped),
      [OrderApp.CallFindByID "order-1"])) /\
  OrderApp.UpdateOrderStatus InMemory.orderUseCase "order-2" OrderDomain.StatusPaid
      (InMemory.start
         (InMemory.worldWithOrder (InMemory.sampleOrder OrderDomain.StatusShipped))) =
    (Returned (None, Some OrderDomain.ErrOrderNotFound),
     (InMemory.worldWithOrder (InMemory.sampleOrder OrderDomain.StatusShipped),
      [OrderApp.CallFindByID "order-2"])).
Proof.
  assert (Hout : ~ In (OrderDomain.order_status
                         (InMemory.sampleOrder OrderDomain.StatusShipped),
                       OrderDomain.StatusPaid) Spec.transition_table)
    by (cbn; intros H;
        repeat match type of H with
               | _ \/ _ => destruct H as [H | H]
               end; solve [discriminate H | contradiction]).
  destruct (UpdateOrderStatus_writes_only_table_transitions InMemory.orderUseCase)
    as (Hfail & Hrefuse & _).
  split; [exact Hout|]. split.
  - exact (Hrefuse "order-1" OrderDomain.StatusPaid
             (InMemory.sampleOrder OrderDomain.StatusShipped)
             (InMemory.worldWithOrder (InMemory.sampleOrder OrderDomain.StatusShipped))
             (InMemory.start
                (InMemory.worldWithOrder (InMemory.sampleOrder OrderDomain.StatusShipped)))
             eq_refl Hout).
  - exact (Hfail "order-2" OrderDomain.StatusPaid None OrderDomain.ErrOrderNotFound
             (InMemory.worldWithOrder (InMemory.sampleOrder OrderDomain.StatusShipped))
             (InMemory.start
                (InMemory.worldWithOrder (InMemory.sampleOrder OrderDomain.StatusShipped)))
             eq_refl).
Defined.

(** * Further properties: creating payments *)

Section PaymentCreation.
Import PaymentDomain PaymentApp Spec Runs.
Context {W : Type} (uc : PaymentUseCase W).

(** The payment [NewPayment] builds once its three guards have passed. *)
Lemma NewPayment_valid {C : Type} (orderID : string) (amount : float)
    (method : PaymentMethod) (paymentData : option (gmap string string)) (s : St W C) :
  orderID <> "" ->
  (amount <=? 0)%float = false ->
  method <> "" ->
  NewPayment (runtime uc) orderID amount method paymentData s =
    (Returned
       (Some (mkPayment (fst (uuid_New (runtime uc) (snd (time_Now (runtime uc) (fst s)))))
                orderID amount method PaymentStatusPending "" paymentData
                (fst (time_Now (runtime uc) (fst s)))
                (fst (time_Now (runtime uc) (fst s)))),
        None),
     (snd (uuid_New (runtime uc) (snd (time_Now (runtime uc) (fst s)))), snd s)).
Proof.
  intros Ho Ha Hm. unfold NewPayment.
  apply String.eqb_neq in Ho, Hm. rewrite Ho, Ha, Hm.
  unfold bind, effect, ret.
  destruct (time_Now (runtime uc) (fst s)) as [now w1]. cbn [fst snd].
  destruct (uuid_New (runtime uc) w1) as [id w2]. reflexivity.
Qed.

(** X7: When no payment exists for the order and the input is valid, the
    repository is asked to save a pending payment with the given order
    reference, amount, method and auxiliary data, no transaction reference,
    and equal creation and update times.  The answer of [Save] decides the
    result: the payment, or the error of [Save] wrapped so that its cause
    stays recognisable. *)
Theorem CreatePayment_saves_a_pending_payment (orderID : string) (amount : float)
    (method : PaymentMethod) (paymentData : option (gmap string string))
    (s : St W call) :
  reports_absent (fst (PaymentRepository.FindByOrderID (repo uc) orderID (fst s))) = true ->
  orderID <> "" ->
  (amount <=? 0)%float = false ->
  method <> "" ->
  exists (id : string) (now : Time) (w1 : W),
    let p := mkPayment id orderID amount method PaymentStatusPending "" paymentData
               now now in
    let sv := PaymentRepository.Save (repo uc) (Some p) w1 in
    CreatePayment uc orderID amount method paymentData s =
      (Returned match fst sv with
                | None => (Some p, None)
                | Some err => (None, Some (fmt_Errorf "failed to save payment" err))
                end,
       (snd sv, snd s ++ [RepoFindByOrderID orderID; RepoSave (Some p)])) /\
    forall (err : error) (target : sentinel),
      fst sv = Some err ->
      errors_Is (fmt_Errorf "failed to save payment" err) target = errors_Is err target.
Proof.
  intros Habs Ho Ha Hm. unfold CreatePayment.
  unfold bind at 1. rewrite invoke_eq.
  set (lookup := PaymentRepository.FindByOrderID (repo uc) orderID (fst s)) in *.
  cbn [fst snd].
  assert (Hgo : match snd (fst lookup) with
                | Some err =>
                    if negb (errors_Is err PaymentDomain_ErrPaymentNotFound)
                    then Some err else None
                | None => None
                end = None /\ fst (fst lookup) = None).
  { destruct (fst lookup) as [[q|] [err|]]; cbn in Habs; try discriminate; cbn;
      try rewrite Habs; split; reflexivity. }
  destruct Hgo as [Hnoerr Hnone]. rewrite Hnoerr, Hnone.
  unfold bind at 1. rewrite (NewPayment_valid _ _ _ _ _ Ho Ha Hm). cbn [fst snd].
  unfold bind. rewrite invoke_eq. cbn [fst snd].
  exists (fst (uuid_New (runtime uc) (snd (time_Now (runtime uc) (snd lookup))))),
    (fst (time_Now (runtime uc) (snd lookup))),
    (snd (uuid_New (runtime uc) (snd (time_Now (runtime uc) (snd lookup))))).
  cbn zeta. split.
  - rewrite <- app_assoc. cbn [app].
    destruct (fst (PaymentRepository.Save _ _ _)); reflexivity.
  - reflexivity.
Qed.

(** X8: When the lookup by order reference fails with anything but the not-found
    error, the call stops there: the lookup's error comes back wrapped, its
    cause still recognisable, whatever the lookup returned beside it and
    however invalid the input is; nothing is created and nothing written. *)
Theorem CreatePayment_stops_on_lookup_failure (orderID : string) (amount : float)
    (method : PaymentMethod) (paymentData : option (gmap string string))
    (found : option Payment) (err : error) (w1 : W) (s : St W call) :
  PaymentRepository.FindByOrderID (repo uc) orderID (fst s) = ((found, Some err), w1) ->
  errors_Is err PaymentDomain_ErrPaymentNotFound = false ->
  CreatePayment uc orderID amount method paymentData s =
    (Returned (None, Some (fmt_Errorf "failed to check existing payment" err)),
     (w1, snd s ++ [RepoFindByOrderID orderID])) /\
  forall target : sentinel,
    errors_Is (fmt_Errorf "failed to check existing payment" err) target
      = errors_Is err target.
Proof.
  intros Hfind Hnf. split; [|reflexivity].
  unfold CreatePayment, bind. rewrite invoke_eq, Hfind. cbn [fst snd].
  now rewrite Hnf.
Qed.

(** X9: One payment per order: when a call has returned a payment to a
    repository that keeps what it saved, the call that follows it for the
    same order reference fails with [ErrPaymentAlreadyExists] after the
    lookup alone, whatever its amount, method and data. *)
Theorem CreatePayment_once_per_order (orderID : string) (amount amount' : float)
    (method method' : PaymentMethod) (paymentData paymentData' : option (gmap string string))
    (p : Payment) (s s1 : St W call) :
  keeps_saves (repo uc) ->
  CreatePayment uc orderID amount method paymentData s = (Returned (Some p, None), s1) ->
  exists w' : W,
    CreatePayment uc orderID amount' method' paymentData' s1 =
      (Returned (None, Some ErrPaymentAlreadyExists),
       (w', snd s1 ++ [RepoFindByOrderID orderID])).
Proof.
  intros Hkeep Hrun.
  assert (Hsaved : exists w w',
             PaymentRepository.Save (repo uc) (Some p) w = (None, w') /\
             fst s1 = w' /\ payment_orderID p = orderID).
  { unfold CreatePayment in Hrun. unfold bind at 1 in Hrun. rewrite invoke_eq in Hrun.
    cbn [fst snd] in Hrun.
    destruct (fst (PaymentRepository.FindByOrderID (repo uc) orderID (fst s)))
      as [found lookupErr].
    cbn [fst snd] in Hrun.
    destruct (match lookupErr with
              | Some err =>
                  if negb (errors_Is err PaymentDomain_ErrPaymentNotFound)
                  then Some err else None
              | None => None
              end); [discriminate|].
    destruct found; [discriminate|].
    unfold bind at 1, NewPayment in Hrun.
    destruct (String.eqb orderID ""); [discriminate|].
    destruct (amount <=? 0)%float; [discriminate|].
    destruct (String.eqb method ""); [discriminate|].
    unfold bind, effect, ret in Hrun. cbn [fst snd] in Hrun.
    destruct (time_Now (runtime uc) _) as [now wa]. cbn [fst snd] in Hrun.
    destruct (uuid_New (runtime uc) wa) as [id wb]. cbn [fst snd] in Hrun.
    rewrite invoke_eq in Hrun. cbn [fst snd] in Hrun.
    destruct (PaymentRepository.Save (repo uc) _ wb) as [saveErr wc] eqn:Hsave.
    cbn [fst snd] in Hrun. destruct saveErr; [discriminate|].
    injection Hrun as <- <-. exists wb, wc. now rewrite Hsave. }
  destruct Hsaved as (w & w' & Hsave & Hw & Hoid).
  destruct (Hkeep p w w' Hsave) as (q & w'' & Hfind).
  exists w''. apply (CreatePayment_existing uc orderID amount' method' paymentData' q).
  now rewrite Hw, <- Hoid.
Qed.
End PaymentCreation.

Section InMemorySaves.
Import PaymentDomain PaymentApp InMemory.

Lemma find_after_append (f : Payment -> bool) (p : Payment) (l : list Payment) :
  f p = true -> exists q, find f (l ++ [p]) = Some q.
Proof.
  intros Hp. induction l as [|a l IH]; cbn [app find].
  - rewrite Hp. now exists p.
  - destruct (f a); [now exists a | exact IH].
Qed.

Lemma paymentRepo_keeps_saves : Runs.keeps_saves paymentRepo.
Proof.
  intros p w w' Hsave. cbn in Hsave. injection Hsave as <-. cbn.
  destruct (find_after_append
              (fun q => String.eqb (payment_orderID q) (payment_orderID p)) p (payments w)
              (String.eqb_refl _)) as [q Hq].
  rewrite Hq. now exists q, (set_payments (payments w ++ [p]) w).
Qed.
End InMemorySaves.

Lemma CreatePayment_saves_a_pending_payment_witness :
  Spec.reports_absent
    (fst (PaymentApp.PaymentRepository.FindByOrderID
            (PaymentApp.repo InMemory.dummyUseCase) "order-1" InMemory.emptyWorld)) = true /\
  "order-1" <> "" /\ (1100000 <=? 0)%float = false /\ "bitcoin" <> "" /\
  exists (id : string) (now : Time) (w1 : InMemory.World),
    PaymentApp.CreatePayment InMemory.dummyUseCase "order-1" 1100000%float "bitcoin" None
        (InMemory.start InMemory.emptyWorld) =
      (Returned
         match fst (PaymentApp.PaymentRepository.Save
                      (PaymentApp.repo InMemory.dummyUseCase)
                      (Some (PaymentDomain.mkPayment id "order-1" 1100000%float "bitcoin"
                               PaymentDomain.PaymentStatusPending "" None now now)) w1)
         with
         | None =>
             (Some (PaymentDomain.mkPayment id "order-1" 1100000%float "bitcoin"
                      PaymentDomain.PaymentStatusPending "" None now now), None)
         | Some err => (None, Some (fmt_Errorf "failed to save payment" err))
         end,
       (snd (PaymentApp.PaymentRepository.Save
               (PaymentApp.repo InMemory.dummyUseCase)
               (Some (PaymentDomain.mkPayment id "order-1" 1100000%float "bitcoin"
                        PaymentDomain.PaymentStatusPending "" None now now)) w1),
        [PaymentApp.RepoFindByOrderID "order-1";
         PaymentApp.RepoSave
           (Some (PaymentDomain.mkPayment id "order-1" 1100000%float "bitcoin"
                    PaymentDomain.PaymentStatusPending "" None now now))])).
Proof.
  split; [reflexivity|]. split; [discriminate|]. split; [reflexivity|].
  split; [discriminate|].
  destruct (CreatePayment_saves_a_pending_payment InMemory.dummyUseCase "order-1"
              1100000%float "bitcoin" None (InMemory.start InMemory.emptyWorld))
    as (id & now & w1 & Hrun & _);
    [reflexivity | discriminate | reflexivity | discriminate |].
  exists id, now, w1. exact Hrun.
Defined.

(** The run behind it: a method outside the three named ones is accepted. *)
Example CreatePayment_unlisted_method_run :
  PaymentApp.CreatePayment InMemory.dummyUseCase "order-1" 1100000%float "bitcoin" None
      (InMemory.start InMemory.emptyWorld) =
    (Returned
       (Some (PaymentDomain.mkPayment "uuid-1" "order-1" 1100000%float "bitcoin"
                PaymentDomain.PaymentStatusPending "" None 1000%Z 1000%Z), None),
     (InMemory.mkWorld 1001%Z ["uuid-2"; "uuid-3"; "uuid-4"] []
        [PaymentDomain.mkPayment "uuid-1" "order-1" 1100000%float "bitcoin"
           PaymentDomain.PaymentStatusPending "" None 1000%Z 1000%Z],
      [PaymentApp.RepoFindByOrderID "order-1";
       PaymentApp.RepoSave
         (Some (PaymentDomain.mkPayment "uuid-1" "order-1" 1100000%float "bitcoin"
                  PaymentDomain.PaymentStatusPending "" None 1000%Z 1000%Z))])).
Proof. reflexivity. Qed.

Lemma CreatePayment_stops_on_lookup_failure_witness :
  errors_Is (Foreign "connection refused") PaymentDomain_ErrPaymentNotFound = false /\
  PaymentApp.CreatePayment Scenario.unreachableUseCase "" (-1)%float "" None
      (InMemory.start InMemory.emptyWorld) =
    (Returned
       (None, Some (fmt_Errorf "failed to check existing payment"
                      (Foreign "connection refused"))),
     (InMemory.emptyWorld, [PaymentApp.RepoFindByOrderID ""])).
Proof.
  split; [reflexivity|].
  exact (proj1 (CreatePayment_stops_on_lookup_failure Scenario.unreachableUseCase ""
                  (-1)%float "" None None (Foreign "connection refused")
                  InMemory.emptyWorld (InMemory.start InMemory.emptyWorld)
                  eq_refl eq_refl)).
Defined.

Lemma CreatePayment_once_per_order_witness :
  PaymentApp.CreatePayment InMemory.dummyUseCase "order-1" 1100000%float
      PaymentDomain.PaymentMethodCreditCard None (InMemory.start InMemory.emptyWorld) =
    (Returned (Some InMemory.createdNoData, None),
     (InMemory.mkWorld 1001%Z ["uuid-2"; "uuid-3"; "uuid-4"] [] [InMemory.createdNoData],
      [PaymentApp.RepoFindByOrderID "order-1";
       PaymentApp.RepoSave (Some InMemory.createdNoData)])) /\
  exists w' : InMemory.World,
    PaymentApp.CreatePayment InMemory.dummyUseCase "order-1" 5%float
        PaymentDomain.PaymentMethodBankTransfer (Some ∅)
        (InMemory.mkWorld 1001%Z ["uuid-2"; "uuid-3"; "uuid-4"] []
           [InMemory.createdNoData],
         [PaymentApp.RepoFindByOrderID "order-1";
          PaymentApp.RepoSave (Some InMemory.createdNoData)]) =
      (Returned (None, Some PaymentApp.ErrPaymentAlreadyExists),
       (w',
        [PaymentApp.RepoFindByOrderID "order-1";
         PaymentApp.RepoSave (Some InMemory.createdNoData);
         PaymentApp.RepoFindByOrderID "order-1"])).
Proof.
  split; [reflexivity|].
  exact (CreatePayment_once_per_order InMemory.dummyUseCase "order-1" 1100000%float
           5%float PaymentDomain.PaymentMethodCreditCard
           PaymentDomain.PaymentMethodBankTransfer None (Some ∅) InMemory.createdNoData
           (InMemory.start InMemory.emptyWorld)
           (InMemory.mkWorld 1001%Z ["uuid-2"; "uuid-3"; "uuid-4"] []
              [InMemory.createdNoData],
            [PaymentApp.RepoFindByOrderID "order-1";
             PaymentApp.RepoSave (Some InMemory.createdNoData)])
           paymentRepo_keeps_saves eq_refl).
Defined.

(** * Further properties: what the payment use cases call and write *)

Section PaymentCalls.
Import PaymentDomain PaymentApp Spec Runs.
Context {W : Type} (uc : PaymentUseCase W).

Lemma ProcessPayment_lookup_error (paymentID : string) (found : option Payment)
    (err : error) (w1 : W) (s : St W call) :
  paymentID <> "" ->
  PaymentRepository.FindByID (repo uc) paymentID (fst s) = ((found, Some err), w1) ->
  ProcessPayment uc paymentID s =
    (Returned (None, Some err), (w1, snd s ++ [RepoFindByID paymentID])).
Proof.
  intros Hid Hfind. unfold ProcessPayment.
  apply String.eqb_neq in Hid. rewrite Hid.
  unfold bind. now rewrite invoke_eq, Hfind.
Qed.

Lemma ProcessPayment_nil_payment (paymentID : string) (w1 : W) (s : St W call) :
  paymentID <> "" ->
  PaymentRepository.FindByID (repo uc) paymentID (fst s) = ((None, None), w1) ->
  ProcessPayment uc paymentID s =
    (Panicked nil_deref_panic, (w1, snd s ++ [RepoFindByID paymentID])).
Proof.
  intros Hid Hfind. unfold ProcessPayment.
  apply String.eqb_neq in Hid. rewrite Hid.
  unfold bind. now rewrite invoke_eq, Hfind.
Qed.

Lemma RefundPayment_lookup_error (id reason : string) (found : option Payment)
    (err : error) (w1 : W) (s : St W call) :
  id <> "" ->
  PaymentRepository.FindByID (repo uc) id (fst s) = ((found, Some err), w1) ->
  RefundPayment uc id reason s =
    (Returned (None, Some err), (w1, snd s ++ [RepoFindByID id])).
Proof.
  intros Hid Hfind. unfold RefundPayment.
  apply String.eqb_neq in Hid. rewrite Hid.
  unfold bind. now rewrite invoke_eq, Hfind.
Qed.

Lemma RefundPayment_nil_payment (id reason : string) (w1 : W) (s : St W call) :
  id <> "" ->
  PaymentRepository.FindByID (repo uc) id (fst s) = ((None, None), w1) ->
  let gw := PaymentGateway.RefundPayment (gateway uc) None reason w1 in
  RefundPayment uc id reason s =
    (match fst gw with
     | Some err => Returned (None, Some (fmt_Errorf "refund processing failed" err))
     | None => Panicked nil_deref_panic
     end,
     (snd gw, snd s ++ [RepoFindByID id; GatewayRefundPayment None reason])).
Proof.
  intros Hid Hfind gw. unfold RefundPayment.
  apply String.eqb_neq in Hid. rewrite Hid.
  unfold bind. rewrite invoke_eq, Hfind. cbn [fst snd]. rewrite invoke_eq.
  cbn [fst snd]. fold gw. rewrite <- app_assoc. cbn [app].
  destruct (fst gw); reflexivity.
Qed.

(** X10: Whatever the identifier, the store and the gateway, the calls one
    [ProcessPayment] makes are, in this order: the lookup by identifier,
    then at most one call of the gateway, then at most one [Update].  So an
    [Update] is only made after the gateway call; [Save] is never called; and
    the payment handed to [Update] is approved or rejected. *)
Theorem ProcessPayment_calls_and_writes (paymentID : string) (s : St W call) :
  exists added : list call,
    snd (snd (ProcessPayment uc paymentID s)) = snd s ++ added /\
    (added = [] \/
     added = [RepoFindByID paymentID] \/
     (exists p : Payment,
         added = [RepoFindByID paymentID; GatewayProcessPayment p]) \/
     (exists p q : Payment,
         added = [RepoFindByID paymentID; GatewayProcessPayment p; RepoUpdate q] /\
         (payment_status q = PaymentStatusApproved \/
          payment_status q = PaymentStatusRejected))).
Proof.
  destruct (String.eqb_spec paymentID "") as [-> | Hid].
  { exists []. cbn. rewrite app_nil_r. split; [reflexivity | now left]. }
  destruct (PaymentRepository.FindByID (repo uc) paymentID (fst s))
    as [[found lookupErr] w1] eqn:Hfind.
  destruct lookupErr as [err|].
  { rewrite (ProcessPayment_lookup_error _ _ _ _ _ Hid Hfind).
    eexists. split; [reflexivity|]. right. now left. }
  destruct found as [p|].
  2:{ rewrite (ProcessPayment_nil_payment _ _ _ Hid Hfind).
      eexists. split; [reflexivity|]. right. now left. }
  destruct (String.eqb_spec (payment_status p) PaymentStatusPending) as [Hst | Hst].
  2:{ rewrite (ProcessPayment_not_pending uc _ _ _ _ Hid Hfind Hst).
      eexists. split; [reflexivity|]. right. now left. }
  destruct (PaymentGateway.ProcessPayment (gateway uc) p w1) as [[txn gwErr] w2] eqn:Hgw.
  destruct gwErr as [err|].
  - destruct (payment_paymentData p) as [m|] eqn:Hm.
    + rewrite (ProcessPayment_gateway_declines uc _ _ m _ _ _ _ _ Hid Hfind Hst Hm Hgw).
      eexists. split; [reflexivity|]. right. right. right.
      eexists _, _. split; [reflexivity | now right].
    + rewrite (ProcessPayment_gateway_declines_nil_map uc _ _ _ _ _ _ _
                 Hid Hfind Hst Hm Hgw).
      eexists. split; [reflexivity|]. right. right. left. now eexists.
  - rewrite (ProcessPayment_gateway_accepts uc _ _ _ _ _ _ Hid Hfind Hst Hgw).
    eexists. split; [reflexivity|]. right. right. right.
    eexists _, _. split; [reflexivity | now left].
Qed.

(** X11: Whatever the identifier, the store and the gateway, the calls one
    [RefundPayment] makes are, in this order: the lookup by identifier, then
    at most one call of the gateway, then at most one [Update].  So an
    [Update] is only made after the gateway call; [Save] is never called; and
    the payment handed to [Update] is refunded. *)
Theorem RefundPayment_calls_and_writes (id reason : string) (s : St W call) :
  exists added : list call,
    snd (snd (RefundPayment uc id reason s)) = snd s ++ added /\
    (added = [] \/
     added = [RepoFindByID id] \/
     (exists x : option Payment,
         added = [RepoFindByID id; GatewayRefundPayment x reason]) \/
     (exists p q : Payment,
         added = [RepoFindByID id; GatewayRefundPayment (Some p) reason; RepoUpdate q] /\
         payment_status q = PaymentStatusRefunded)).
Proof.
  destruct (String.eqb_spec id "") as [-> | Hid].
  { exists []. cbn. rewrite app_nil_r. split; [reflexivity | now left]. }
  destruct (PaymentRepository.FindByID (repo uc) id (fst s))
    as [[found lookupErr] w1] eqn:Hfind.
  destruct lookupErr as [err|].
  { rewrite (RefundPayment_lookup_error _ _ _ _ _ _ Hid Hfind).
    eexists. split; [reflexivity|]. right. now left. }
  destruct found as [p|].
  2:{ rewrite (RefundPayment_nil_payment _ _ _ _ Hid Hfind).
      eexists. split; [reflexivity|]. right. right. left. now eexists. }
  rewrite (RefundPayment_found uc _ reason _ _ _ Hid Hfind).
  destruct (fst (PaymentGateway.RefundPayment (gateway uc) (Some p) reason w1)).
  { eexists. split; [reflexivity|]. right. right. left. now eexists. }
  destruct (String.eqb (payment_status p) PaymentStatusApproved).
  2:{ eexists. split; [reflexivity|]. right. right. left. now eexists. }
  destruct (payment_paymentData p) as [m|].
  2:{ eexists. split; [reflexivity|]. right. right. left. now eexists. }
  cbn zeta. cbn [snd]. rewrite <- app_assoc. cbn [app].
  eexists. split; [reflexivity|]. right. right. right.
  eexists _, _. split; reflexivity.
Qed.

(** X12: Whatever the input and the store, one call of [CreatePayment] never asks
    the gateway and never updates; it saves at most once, and what it saves
    is a pending payment for the given order reference, which is not empty,
    with an amount that is not <= 0, a method that is not empty and no
    transaction reference. *)
Theorem CreatePayment_calls_and_writes (orderID : string) (amount : float)
    (method : PaymentMethod) (paymentData : option (gmap string string))
    (s : St W call) :
  exists added : list call,
    snd (snd (CreatePayment uc orderID amount method paymentData s)) = snd s ++ added /\
    gatewayCalls added = [] /\
    updated added = [] /\
    length (saved added) <= 1 /\
    forall x : option Payment,
      In x (saved added) ->
      exists q : Payment,
        x = Some q /\
        payment_status q = PaymentStatusPending /\
        payment_orderID q = orderID /\ orderID <> "" /\
        payment_amount q = amount /\ (amount <=? 0)%float = false /\
        payment_method q = method /\ method <> "" /\
        payment_transactionID q = "" /\
        payment_paymentData q = paymentData.
Proof.
  unfold CreatePayment. unfold bind at 1. rewrite invoke_eq. cbn [fst snd].
  destruct (fst (PaymentRepository.FindByOrderID (repo uc) orderID (fst s)))
    as [found lookupErr]. cbn [fst snd].
  destruct (match lookupErr with
            | Some err =>
                if negb (errors_Is err PaymentDomain_ErrPaymentNotFound)
                then Some err else None
            | None => None
            end).
  { eexists. split; [reflexivity|]. cbn. repeat split; try lia; intros x []. }
  destruct found.
  { eexists. split; [reflexivity|]. cbn. repeat split; try lia; intros x []. }
  unfold bind at 1, NewPayment.
  destruct (String.eqb_spec orderID "") as [-> | Ho].
  { eexists. split; [reflexivity|]. cbn. repeat split; try lia; intros x []. }
  destruct (amount <=? 0)%float eqn:Ha.
  { eexists. split; [reflexivity|]. cbn. repeat split; try lia; intros x []. }
  destruct (String.eqb_spec method "") as [-> | Hm].
  { eexists. split; [reflexivity|]. cbn. repeat split; try lia; intros x []. }
  unfold bind, effect, ret. cbn [fst snd].
  destruct (time_Now (runtime uc) _) as [now wa]. cbn [fst snd].
  destruct (uuid_New (runtime uc) wa) as [id wb]. cbn [fst snd].
  rewrite invoke_eq. cbn [fst snd]. rewrite <- app_assoc. cbn [app].
  destruct (fst (PaymentRepository.Save (repo uc) _ wb));
    (eexists; split; [reflexivity|]; cbn; repeat split; try lia;
     intros x [<- | []]; eexists; repeat split; assumption).
Qed.
End PaymentCalls.

(** * Further properties: the payment entity *)

Section PaymentMutators.
Import PaymentDomain Spec Runs.
Context {W C : Type} (rt : Runtime W).

(** X13: [Reject] and [Refund] write exactly one key of the auxiliary data:
    after [Reject] the key [reject_reason] holds the reason, after [Refund]
    of an approved payment the key [refund_reason] does, a value the caller
    had put under that key is replaced, and every other key keeps its
    value. *)
Theorem Reject_and_Refund_write_one_key (reason : string) (p : Payment)
    (m : gmap string string) (s : St W C) :
  payment_paymentData p = Some m ->
  (exists m' : gmap string string,
      payment_paymentData (snd (fst (Reject rt reason p s))) = Some m' /\
      m' !! "reject_reason" = Some reason /\
      forall k : string, k <> "reject_reason" -> m' !! k = m !! k)
  /\
  (payment_status p = PaymentStatusApproved ->
   exists m' : gmap string string,
     payment_paymentData (snd (fst (Refund rt reason p s))) = Some m' /\
     m' !! "refund_reason" = Some reason /\
     forall k : string, k <> "refund_reason" -> m' !! k = m !! k).
Proof.
  intros Hm. split.
  - rewrite (Reject_allocated rt reason p m s Hm). cbn.
    eexists. split; [reflexivity|]. split; [apply lookup_insert_eq|].
    intros k Hk. apply lookup_insert_ne. congruence.
  - intros Hst. rewrite (Refund_allocated rt reason p m s Hst Hm). cbn.
    eexists. split; [reflexivity|]. split; [apply lookup_insert_eq|].
    intros k Hk. apply lookup_insert_ne. congruence.
Qed.

(** X14: None of the four mutators ever changes the identifier, the order
    reference, the amount, the method or the creation time of a payment:
    not when it succeeds, not when [Refund] refuses, and not in what it
    leaves behind when it panics. *)
Theorem mutators_keep_the_payment_identity (arg : string) (p : Payment) (s : St W C) :
  paymentIdentity (snd (fst (SetTransactionID rt arg p s))) = paymentIdentity p /\
  paymentIdentity (snd (fst (Approve rt arg p s))) = paymentIdentity p /\
  paymentIdentity (snd (fst (Reject rt arg p s))) = paymentIdentity p /\
  paymentIdentity (snd (fst (Refund rt arg p s))) = paymentIdentity p.
Proof.
  unfold SetTransactionID, Approve, Reject, Refund, touch. cbn.
  destruct (time_Now rt (fst s)) as [now w'].
  destruct (payment_paymentData p);
    destruct (String.eqb (payment_status p) PaymentStatusApproved);
    repeat split; reflexivity.
Qed.
End PaymentMutators.

Lemma Reject_and_Refund_write_one_key_witness :
  PaymentDomain.payment_paymentData Scenario.annotatedPayment =
    Some (<["reject_reason" := "set by the caller"]>
            (<["refund_reason" := "set by the caller"]>
               (<["bank" := "first national"]> ∅))) /\
  PaymentDomain.payment_status Scenario.annotatedPayment
    = PaymentDomain.PaymentStatusApproved /\
  exists m' : gmap string string,
    PaymentDomain.payment_paymentData
      (snd (fst (PaymentDomain.Refund InMemory.realTime "customer request"
                   Scenario.annotatedPayment
                   (InMemory.start (C := PaymentApp.call) InMemory.emptyWorld))))
      = Some m' /\
    m' !! "refund_reason" = Some "customer request" /\
    forall k : string,
      k <> "refund_reason" ->
      m' !! k = (<["reject_reason" := "set by the caller"]>
                   (<["refund_reason" := "set by the caller"]>
                      (<["bank" := "first national"]> (∅ : gmap string string)))) !! k.
Proof.
  split; [reflexivity|]. split; [reflexivity|].
  exact (proj2 (Reject_and_Refund_write_one_key InMemory.realTime "customer request"
                  Scenario.annotatedPayment _ (InMemory.start InMemory.emptyWorld)
                  eq_refl) eq_refl).
Defined.

(** * Further properties: failures and sequences of payment calls *)

Section PaymentSequences.
Import PaymentDomain PaymentApp Spec Runs.
Context {W : Type} (uc : PaymentUseCase W).

(** X15: The empty identifier is refused before any collaborator is called, by
    each use case that takes one, with the error of its kind. *)
Theorem empty_identifier_is_refused_before_any_call (ouc : OrderApp.OrderUseCase W)
    (reason : string) (s : St W call) (os : St W OrderApp.call) :
  ProcessPayment uc "" s = (Returned (None, Some ErrInvalidPaymentID), s) /\
  GetPayment uc "" s = (Returned (None, Some ErrInvalidPaymentID), s) /\
  GetPaymentByOrderID uc "" s = (Returned (None, Some ErrInvalidOrderID), s) /\
  RefundPayment uc "" reason s = (Returned (None, Some ErrInvalidPaymentID), s) /\
  OrderApp.GetCustomerOrders ouc "" os =
    (Returned ([], Some OrderApp.ErrInvalidCustomerID), os).
Proof. repeat split; reflexivity. Qed.

(** X16: When the lookup by identifier answers with an error, [ProcessPayment]
    and [RefundPayment] hand that very error back, not wrapped, and call
    nothing else: the gateway is not asked and nothing is written. *)
Theorem lookup_errors_come_back_as_they_are (id reason : string) (found : option Payment)
    (err : error) (w1 : W) (s : St W call) :
  id <> "" ->
  PaymentRepository.FindByID (repo uc) id (fst s) = ((found, Some err), w1) ->
  ProcessPayment uc id s = (Returned (None, Some err), (w1, snd s ++ [RepoFindByID id])) /\
  RefundPayment uc id reason s =
    (Returned (None, Some err), (w1, snd s ++ [RepoFindByID id])).
Proof.
  intros Hid Hfind. split.
  - exact (ProcessPayment_lookup_error uc id found err w1 s Hid Hfind).
  - exact (RefundPayment_lookup_error uc id reason found err w1 s Hid Hfind).
Qed.

(** X17: A refund the gateway declines changes nothing: the gateway's error comes
    back wrapped, its cause still recognisable, and nothing is written.  A
    refund the gateway accepts but the store refuses comes back with the
    store's error, wrapped as the failure of the update; the gateway has
    refunded by then. *)
Theorem RefundPayment_reports_collaborator_failures :
  (forall (id reason : string) (p : Payment) (err : error) (w1 w2 : W) (s : St W call),
      id <> "" ->
      PaymentRepository.FindByID (repo uc) id (fst s) = ((Some p, None), w1) ->
      PaymentGateway.RefundPayment (gateway uc) (Some p) reason w1 = (Some err, w2) ->
      RefundPayment uc id reason s =
        (Returned (None, Some (fmt_Errorf "refund processing failed" err)),
         (w2, snd s ++ [RepoFindByID id; GatewayRefundPayment (Some p) reason])) /\
      forall target : sentinel,
        errors_Is (fmt_Errorf "refund processing failed" err) target
          = errors_Is err target)
  /\
  (forall (id reason : string) (p : Payment) (m : gmap string string) (err : error)
          (w1 w2 w4 : W) (s : St W call),
      id <> "" ->
      PaymentRepository.FindByID (repo uc) id (fst s) = ((Some p, None), w1) ->
      payment_status p = PaymentStatusApproved ->
      payment_paymentData p = Some m ->
      PaymentGateway.RefundPayment (gateway uc) (Some p) reason w1 = (None, w2) ->
      PaymentRepository.Update (repo uc)
          (refunded p m reason (fst (time_Now (runtime uc) w2)))
          (snd (time_Now (runtime uc) w2)) = (Some err, w4) ->
      RefundPayment uc id reason s =
        (Returned
           (None, Some (fmt_Errorf "failed to update payment status after refund" err)),
         (w4,
          snd s ++ [RepoFindByID id; GatewayRefundPayment (Some p) reason;
                    RepoUpdate (refunded p m reason (fst (time_Now (runtime uc) w2)))]))).
Proof.
  split.
  - intros id reason p err w1 w2 s Hid Hfind Hgw. split; [|reflexivity].
    rewrite (RefundPayment_found uc id reason p w1 s Hid Hfind). now rewrite Hgw.
  - intros id reason p m err w1 w2 w4 s Hid Hfind Hst Hm Hgw Hupd.
    rewrite (RefundPayment_found uc id reason p w1 s Hid Hfind).
    rewrite Hgw. cbn [fst snd]. rewrite Hst, String.eqb_refl, Hm. cbn zeta.
    rewrite Hupd. cbn [fst snd]. now rewrite <- app_assoc.
Qed.

(** X18: After [ProcessPayment] has returned an approved payment, its auxiliary
    map being allocated, to a repository that keeps what it accepts, a
    refund is neither refused nor does it panic: only the gateway and the
    store decide, and the refunded payment keeps the transaction reference
    of the approval. *)
Theorem refund_after_approval (id reason : string) (p p1 : Payment)
    (m : gmap string string) (w1 : W) (s s1 : St W call) :
  keeps_updates (repo uc) ->
  id <> "" ->
  PaymentRepository.FindByID (repo uc) id (fst s) = ((Some p, None), w1) ->
  payment_id p = id ->
  payment_status p = PaymentStatusPending ->
  payment_paymentData p = Some m ->
  ProcessPayment uc id s = (Returned (Some p1, None), s1) ->
  exists w2 : W,
    let gw := PaymentGateway.RefundPayment (gateway uc) (Some p1) reason w2 in
    let p2 := refunded p1 m reason (fst (time_Now (runtime uc) (snd gw))) in
    let upd := PaymentRepository.Update (repo uc) p2
                 (snd (time_Now (runtime uc) (snd gw))) in
    payment_status p1 = PaymentStatusApproved /\
    payment_transactionID p2 = payment_transactionID p1 /\
    RefundPayment uc id reason s1 =
      match fst gw with
      | Some err =>
          (Returned (None, Some (fmt_Errorf "refund processing failed" err)),
           (snd gw, snd s1 ++ [RepoFindByID id; GatewayRefundPayment (Some p1) reason]))
      | None =>
          (Returned
             match fst upd with
             | None => (Some p2, None)
             | Some err =>
                 (None,
                  Some (fmt_Errorf "failed to update payment status after refund" err))
             end,
           (snd upd,
            snd s1 ++ [RepoFindByID id; GatewayRefundPayment (Some p1) reason;
                       RepoUpdate p2]))
      end.
Proof.
  intros Hkeep Hid Hfind Hpid Hst Hm Hrun.
  destruct (PaymentGateway.ProcessPayment (gateway uc) p w1) as [[txn gwErr] w2] eqn:Hgw.
  destruct gwErr as [err|].
  { rewrite (ProcessPayment_gateway_declines uc id p m txn err w1 w2 s
               Hid Hfind Hst Hm Hgw) in Hrun.
    destruct (fst (PaymentRepository.Update _ _ _)); discriminate. }
  rewrite (ProcessPayment_gateway_accepts uc id p txn w1 w2 s Hid Hfind Hst Hgw) in Hrun.
  set (p' := approved p txn (fst (time_Now (runtime uc) w2))) in *.
  destruct (PaymentRepository.Update (repo uc) p' (snd (time_Now (runtime uc) w2)))
    as [updErr w4] eqn:Hupd.
  cbn [fst snd] in Hrun. destruct updErr; [discriminate|].
  injection Hrun as <- <-.
  destruct (Hkeep p' _ _ Hupd) as [w'' Hfind'].
  exists w''. cbn zeta. split; [reflexivity|]. split; [reflexivity|].
  assert (Hfind2 : PaymentRepository.FindByID (repo uc) id
                     (fst (w4, snd s ++ [RepoFindByID id; GatewayProcessPayment p;
                                         RepoUpdate p'])) = ((Some p', None), w''))
    by (cbn [fst]; now rewrite <- Hpid).
  rewrite (RefundPayment_found uc id reason p' w'' _ Hid Hfind2).
  cbn zeta.
  destruct (fst (PaymentGateway.RefundPayment (gateway uc) (Some p') reason w''));
    [reflexivity|].
  cbn [payment_status payment_paymentData p' approved]. rewrite Hm.
  cbn [String.eqb Ascii.eqb Bool.eqb PaymentStatusApproved]. cbn [snd].
  rewrite <- app_assoc. reflexivity.
Qed.

(** X19: Once [RefundPayment] has returned the refunded payment to a repository
    that keeps what it accepts, a further refund of the same payment never
    returns a payment and never writes; the gateway, however, is asked
    again before the refusal. *)
Theorem second_refund_is_refused (id reason reason' : string) (p p2 : Payment)
    (e2 : option error) (w1 : W) (s s2 : St W call) :
  keeps_updates (repo uc) ->
  id <> "" ->
  PaymentRepository.FindByID (repo uc) id (fst s) = ((Some p, None), w1) ->
  payment_id p = id ->
  RefundPayment uc id reason s = (Returned (Some p2, e2), s2) ->
  payment_status p2 = PaymentStatusRefunded /\
  exists w3 : W,
    let gw := PaymentGateway.RefundPayment (gateway uc) (Some p2) reason' w3 in
    RefundPayment uc id reason' s2 =
      (Returned
         (None,
          Some match fst gw with
               | Some err => fmt_Errorf "refund processing failed" err
               | None => refund_refused
               end),
       (snd gw, snd s2 ++ [RepoFindByID id; GatewayRefundPayment (Some p2) reason'])).
Proof.
  intros Hkeep Hid Hfind Hpid Hrun.
  rewrite (RefundPayment_found uc id reason p w1 s Hid Hfind) in Hrun.
  destruct (fst (PaymentGateway.RefundPayment (gateway uc) (Some p) reason w1));
    [discriminate|].
  destruct (String.eqb (payment_status p) PaymentStatusApproved); [|discriminate].
  destruct (payment_paymentData p) as [m|]; [|discriminate].
  cbn zeta in Hrun.
  set (now := fst (time_Now (runtime uc) _)) in *.
  set (wn := snd (time_Now (runtime uc) _)) in *.
  destruct (PaymentRepository.Update (repo uc) (refunded p m reason now) wn)
    as [updErr w4] eqn:Hupd.
  cbn [fst snd] in Hrun. destruct updErr; [discriminate|].
  injection Hrun as <- <- <-.
  split; [reflexivity|].
  destruct (Hkeep _ _ _ Hupd) as [w'' Hfind'].
  exists w''. cbn zeta.
  assert (Hfind2 : PaymentRepository.FindByID (repo uc) id
                     (fst (w4, (snd s ++ [RepoFindByID id;
                                          GatewayRefundPayment (Some p) reason])
                               ++ [RepoUpdate (refunded p m reason now)]))
                   = ((Some (refunded p m reason now), None), w''))
    by (cbn [fst]; now rewrite <- Hpid).
  rewrite (RefundPayment_found uc id reason' _ w'' _ Hid Hfind2).
  destruct (fst (PaymentGateway.RefundPayment (gateway uc)
                   (Some (refunded p m reason now)) reason' w'')); reflexivity.
Qed.
End PaymentSequences.

Section WiredGateway.
Import PaymentDomain PaymentApp Spec InMemory.

(** X20: With the [DummyPaymentGateway] that [main] wires in, processing never
    rejects and never panics: a pending payment that is found is approved
    with the transaction reference [txn_] followed by its identifier,
    whatever its auxiliary map, and the store decides the result. *)
Theorem DummyPaymentGateway_always_approves (r : PaymentRepository.t World)
    (paymentID : string) (p : Payment) (w1 : World) (s : St World call) :
  paymentID <> "" ->
  PaymentRepository.FindByID r paymentID (fst s) = ((Some p, None), w1) ->
  payment_status p = PaymentStatusPending ->
  let p' := approved p (String.append "txn_" (payment_id p)) (clock w1) in
  let upd := PaymentRepository.Update r p' (snd (time_Now realTime w1)) in
  ProcessPayment (paymentUseCase r DummyPaymentGateway) paymentID s =
    (Returned
       match fst upd with
       | None => (Some p', None)
       | Some err =>
           (None, Some (fmt_Errorf "failed to update payment status after approval" err))
       end,
     (snd upd, snd s ++ [RepoFindByID paymentID; GatewayProcessPayment p; RepoUpdate p'])).
Proof.
  intros Hid Hfind Hst.
  exact (ProcessPayment_gateway_accepts (paymentUseCase r DummyPaymentGateway)
           paymentID p (String.append "txn_" (payment_id p)) w1 w1 s
           Hid Hfind Hst eq_refl).
Qed.
End WiredGateway.

Lemma DummyPaymentGateway_always_approves_witness :
  "pay-1" <> "" /\
  PaymentDomain.payment_status InMemory.pendingPaymentNoData
    = PaymentDomain.PaymentStatusPending /\
  PaymentApp.ProcessPayment InMemory.dummyUseCase "pay-1"
      (InMemory.start (InMemory.worldWith InMemory.pendingPaymentNoData)) =
    (Returned
       (Some (Spec.approved InMemory.pendingPaymentNoData "txn_pay-1" 1000%Z), None),
     (InMemory.mkWorld 1001%Z ["uuid-1"; "uuid-2"; "uuid-3"; "uuid-4"] []
        [Spec.approved InMemory.pendingPaymentNoData "txn_pay-1" 1000%Z],
      [PaymentApp.RepoFindByID "pay-1";
       PaymentApp.GatewayProcessPayment InMemory.pendingPaymentNoData;
       PaymentApp.RepoUpdate
         (Spec.approved InMemory.pendingPaymentNoData "txn_pay-1" 1000%Z)])).
Proof.
  split; [discriminate|]. split; [reflexivity|].
  exact (DummyPaymentGateway_always_approves InMemory.paymentRepo "pay-1"
           InMemory.pendingPaymentNoData (InMemory.worldWith InMemory.pendingPaymentNoData)
           (InMemory.start (InMemory.worldWith InMemory.pendingPaymentNoData))
           ltac:(discriminate) eq_refl eq_refl).
Defined.

Lemma lookup_errors_come_back_as_they_are_witness :
  "pay-404" <> "" /\
  PaymentApp.ProcessPayment InMemory.dummyUseCase "pay-404"
      (InMemory.start (InMemory.worldWith InMemory.pendingPayment)) =
    (Returned (None, Some PaymentDomain.ErrPaymentNotFound),
     (InMemory.worldWith InMemory.pendingPayment, [PaymentApp.RepoFindByID "pay-404"])) /\
  PaymentApp.RefundPayment InMemory.dummyUseCase "pay-404" "customer request"
      (InMemory.start (InMemory.worldWith InMemory.pendingPayment)) =
    (Returned (None, Some PaymentDomain.ErrPaymentNotFound),
     (InMemory.worldWith InMemory.pendingPayment, [PaymentApp.RepoFindByID "pay-404"])).
Proof.
  split; [discriminate|].
  exact (lookup_errors_come_back_as_they_are InMemory.dummyUseCase "pay-404"
           "customer request" None PaymentDomain.ErrPaymentNotFound
           (InMemory.worldWith InMemory.pendingPayment)
           (InMemory.start (InMemory.worldWith InMemory.pendingPayment))
           ltac:(discriminate) eq_refl).
Defined.

Lemma RefundPayment_reports_collaborator_failures_witness :
  PaymentApp.RefundPayment InMemory.decliningUseCase "pay-7" "customer request"
      (InMemory.start (InMemory.worldWith Scenario.annotatedPayment)) =
    (Returned
       (None, Some (fmt_Errorf "refund processing failed" (Foreign "refund declined"))),
     (InMemory.worldWith Scenario.annotatedPayment,
      [PaymentApp.RepoFindByID "pay-7";
       PaymentApp.GatewayRefundPayment (Some Scenario.annotatedPayment)
         "customer request"])) /\
  PaymentApp.RefundPayment
      (InMemory.paymentUseCase InMemory.readOnlyPaymentRepo InMemory.DummyPaymentGateway)
      "pay-1" "customer request"
      (InMemory.start
         (InMemory.worldWith (Spec.approved InMemory.pendingPayment "txn_pay-1" 950%Z))) =
    (Returned
       (None,
        Some (fmt_Errorf "failed to update payment status after refund"
                (Foreign "storage unavailable"))),
     (InMemory.mkWorld 1001%Z ["uuid-1"; "uuid-2"; "uuid-3"; "uuid-4"] []
        [Spec.approved InMemory.pendingPayment "txn_pay-1" 950%Z],
      [PaymentApp.RepoFindByID "pay-1";
       PaymentApp.GatewayRefundPayment
         (Some (Spec.approved InMemory.pendingPayment "txn_pay-1" 950%Z))
         "customer request";
       PaymentApp.RepoUpdate
         (Spec.refunded (Spec.approved InMemory.pendingPayment "txn_pay-1" 950%Z) ∅
            "customer request" 1000%Z)])).
Proof.
  split.
  - exact (proj1 (proj1 (RefundPayment_reports_collaborator_failures
                           InMemory.decliningUseCase)
                    "pay-7" "customer request" Scenario.annotatedPayment
                    (Foreign "refund declined")
                    (InMemory.worldWith Scenario.annotatedPayment)
                    (InMemory.worldWith Scenario.annotatedPayment)
                    (InMemory.start (InMemory.worldWith Scenario.annotatedPayment))
                    ltac:(discriminate) eq_refl eq_refl)).
  - exact (proj2 (RefundPayment_reports_collaborator_failures
                    (InMemory.paymentUseCase InMemory.readOnlyPaymentRepo
                       InMemory.DummyPaymentGateway))
             "pay-1" "customer request"
             (Spec.approved InMemory.pendingPayment "txn_pay-1" 950%Z) ∅
             (Foreign "storage unavailable")
             (InMemory.worldWith (Spec.approved InMemory.pendingPayment "txn_pay-1" 950%Z))
             (InMemory.worldWith (Spec.approved InMemory.pendingPayment "txn_pay-1" 950%Z))
             (InMemory.mkWorld 1001%Z ["uuid-1"; "uuid-2"; "uuid-3"; "uuid-4"] []
                [Spec.approved InMemory.pendingPayment "txn_pay-1" 950%Z])
             (InMemory.start
                (InMemory.worldWith
                   (Spec.approved InMemory.pendingPayment "txn_pay-1" 950%Z)))
             ltac:(discriminate) eq_refl eq_refl eq_refl eq_refl eq_refl).
Defined.

Lemma refund_after_approval_witness :
  PaymentApp.ProcessPayment InMemory.dummyUseCase "pay-1"
      (InMemory.start (InMemory.worldWith InMemory.pendingPayment)) =
    (Returned (Some Scenario.approvedPayment, None), Scenario.afterApproval) /\
  PaymentApp.RefundPayment InMemory.dummyUseCase "pay-1" "customer request"
      Scenario.afterApproval =
    (Returned (Some Scenario.refundedPayment, None), Scenario.afterRefund) /\
  exists w2 : InMemory.World,
    PaymentDomain.payment_status Scenario.approvedPayment
      = PaymentDomain.PaymentStatusApproved /\
    PaymentDomain.payment_transactionID
      (Spec.refunded Scenario.approvedPayment ∅ "customer request"
         (fst (time_Now (PaymentApp.runtime InMemory.dummyUseCase)
                 (snd (PaymentApp.PaymentGateway.RefundPayment
                         (PaymentApp.gateway InMemory.dummyUseCase)
                         (Some Scenario.approvedPayment) "customer request" w2)))))
      = PaymentDomain.payment_transactionID Scenario.approvedPayment.
Proof.
  split; [reflexivity|]. split; [reflexivity|].
  destruct (refund_after_approval InMemory.dummyUseCase "pay-1" "customer request"
              InMemory.pendingPayment Scenario.approvedPayment ∅
              (InMemory.worldWith InMemory.pendingPayment)
              (InMemory.start (InMemory.worldWith InMemory.pendingPayment))
              Scenario.afterApproval
              paymentRepo_keeps_updates ltac:(discriminate)
              eq_refl eq_refl eq_refl eq_refl eq_refl)
    as (w2 & Hst & Htxn & _).
  exists w2. split; [exact Hst | exact Htxn].
Defined.

Lemma second_refund_is_refused_witness :
  PaymentApp.RefundPayment InMemory.dummyUseCase "pay-1" "customer request"
      Scenario.afterApproval =
    (Returned (Some Scenario.refundedPayment, None), Scenario.afterRefund) /\
  PaymentDomain.payment_status Scenario.refundedPayment
    = PaymentDomain.PaymentStatusRefunded /\
  exists w3 : InMemory.World,
    PaymentApp.RefundPayment InMemory.dummyUseCase "pay-1" "once more"
        Scenario.afterRefund =
      (Returned
         (None,
          Some match fst (PaymentApp.PaymentGateway.RefundPayment
                            (PaymentApp.gateway InMemory.dummyUseCase)
                            (Some Scenario.refundedPayment) "once more" w3)
               with
               | Some err => fmt_Errorf "refund processing failed" err
               | None => PaymentDomain.refund_refused
               end),
       (snd (PaymentApp.PaymentGateway.RefundPayment
               (PaymentApp.gateway InMemory.dummyUseCase)
               (Some Scenario.refundedPayment) "once more" w3),
        snd Scenario.afterRefund
          ++ [PaymentApp.RepoFindByID "pay-1";
              PaymentApp.GatewayRefundPayment (Some Scenario.refundedPayment)
                "once more"])).
Proof.
  split; [reflexivity|].
  exact (second_refund_is_refused InMemory.dummyUseCase "pay-1" "customer request"
           "once more" Scenario.approvedPayment Scenario.refundedPayment None
           (fst Scenario.afterApproval) Scenario.afterApproval Scenario.afterRefund
           paymentRepo_keeps_updates ltac:(discriminate) eq_refl eq_refl eq_refl).
Defined.

(** The second refund, run: the gateway is asked again, then the refusal. *)
Example second_refund_run :
  PaymentApp.RefundPayment InMemory.dummyUseCase "pay-1" "once more"
      Scenario.afterRefund =
    (Returned (None, Some PaymentDomain.refund_refused),
     (fst Scenario.afterRefund,
      snd Scenario.afterRefund
        ++ [PaymentApp.RepoFindByID "pay-1";
            PaymentApp.GatewayRefundPayment (Some Scenario.refundedPayment)
              "once more"])).
Proof. reflexivity. Qed.

(** * Further properties: members *)

Section Members.
Import MemberDomain MemberApp.
Context {W : Type} (uc : MemberUseCase W).

Lemma member_invoke_eq {A : Type} (c : call) (f : W -> A * W) (s : St W call) :
  invoke c f s = (Returned (fst (f (fst s))), (snd (f (fst s)), snd s ++ [c])).
Proof. unfold invoke. now destruct (f (fst s)). Qed.

Lemma CreateMember_after_lookup (email name password : string) (s : St W call) :
  reports_nobody (fst (FindByEmail (repo uc) email (fst s))) = true ->
  CreateMember uc email name password s =
    bind (NewMember (runtime uc) email name password)
      (fun n =>
         match snd n with
         | Some err => ret (None, Some err)
         | None =>
             bind (invoke (CallSave (fst n)) (Save (repo uc) (fst n)))
               (fun saveErr =>
                  match saveErr with
                  | Some err => ret (None, Some err)
                  | None => ret (fst n, None)
                  end)
         end)
      (snd (FindByEmail (repo uc) email (fst s)), snd s ++ [CallFindByEmail email]).
Proof.
  intros Habs. unfold CreateMember. unfold bind at 1. rewrite member_invoke_eq.
  cbn [fst snd].
  destruct (fst (FindByEmail (repo uc) email (fst s))) as [[q|] [err|]];
    cbn in Habs; try discriminate; cbn [fst snd]; try rewrite Habs; reflexivity.
Qed.

Lemma CreateMember_existing (email name password : string) (q : Member) (w1 : W)
    (s : St W call) :
  FindByEmail (repo uc) email (fst s) = ((Some q, None), w1) ->
  CreateMember uc email name password s =
    (Returned (None, Some ErrMemberAlreadyExists), (w1, snd s ++ [CallFindByEmail email])).
Proof.
  intros Hfind. unfold CreateMember, bind. now rewrite member_invoke_eq, Hfind.
Qed.

(** X21: When nobody has the e-mail address, an empty address, an empty name or a
    password of fewer than eight bytes is refused with the error of the
    first of these checks that fails, after the lookup alone: nothing is
    saved.  (The lookup is made even for the empty address.) *)
Theorem CreateMember_refuses_invalid_input (email name password : string)
    (s : St W call) :
  reports_nobody (fst (FindByEmail (repo uc) email (fst s))) = true ->
  (String.eqb email "" || String.eqb name "" || Nat.ltb (String.length password) 8)
    = true ->
  CreateMember uc email name password s =
    (Returned
       (None,
        Some (if String.eqb email "" then ErrInvalidEmail
              else if String.eqb name "" then ErrInvalidName
              else ErrInvalidPassword)),
     (snd (FindByEmail (repo uc) email (fst s)), snd s ++ [CallFindByEmail email])).
Proof.
  intros Habs Hbad. rewrite (CreateMember_after_lookup _ _ _ _ Habs).
  unfold bind, NewMember.
  destruct (String.eqb email ""); [reflexivity|].
  destruct (String.eqb name ""); [reflexivity|].
  destruct (Nat.ltb (String.length password) 8); [reflexivity | discriminate].
Qed.

(** X22: When nobody has the e-mail address and the input is valid, the
    repository is asked once to save a member with the given address, name
    and password and equal creation and update times; the answer of [Save]
    decides the result, its error coming back as it is.  The saved member
    verifies the given password and no other. *)
Theorem CreateMember_saves_the_member (email name password : string) (s : St W call) :
  reports_nobody (fst (FindByEmail (repo uc) email (fst s))) = true ->
  email <> "" ->
  name <> "" ->
  8 <= String.length password ->
  exists (id : string) (now : Time) (w1 : W),
    let m := mkMember id email name password now now in
    CreateMember uc email name password s =
      (Returned match fst (Save (repo uc) (Some m) w1) with
                | None => (Some m, None)
                | Some err => (None, Some err)
                end,
       (snd (Save (repo uc) (Some m) w1),
        snd s ++ [CallFindByEmail email; CallSave (Some m)])) /\
    forall attempt : string, VerifyPassword m attempt = true <-> attempt = password.
Proof.
  intros Habs He Hn Hp. rewrite (CreateMember_after_lookup _ _ _ _ Habs).
  unfold bind at 1, NewMember.
  apply String.eqb_neq in He, Hn. rewrite He, Hn.
  assert (Hlen : Nat.ltb (String.length password) 8 = false)
    by (apply Nat.ltb_ge; exact Hp).
  rewrite Hlen. unfold bind at 1 2, effect, ret. cbn [fst snd].
  set (w0 := snd (FindByEmail (repo uc) email (fst s))).
  exists (fst (uuid_New (runtime uc) (snd (time_Now (runtime uc) w0)))),
    (fst (time_Now (runtime uc) w0)),
    (snd (uuid_New (runtime uc) (snd (time_Now (runtime uc) w0)))).
  cbn zeta. split.
  - destruct (time_Now (runtime uc) w0) as [now wa]. cbn [fst snd].
    destruct (uuid_New (runtime uc) wa) as [id wb]. cbn [fst snd].
    unfold bind. rewrite member_invoke_eq. cbn [fst snd].
    rewrite <- app_assoc. cbn [app].
    destruct (fst (Save (repo uc) _ wb)); reflexivity.
  - intros attempt. unfold VerifyPassword. cbn [member_password].
    rewrite String.eqb_eq. split; congruence.
Qed.

(** X23: One member per e-mail address: when a call has returned a member to
    a repository that keeps what it saved, the call that follows it with the
    same address fails with [ErrMemberAlreadyExists] after the lookup alone,
    whatever its name and password. *)
Theorem CreateMember_once_per_email (email name name' password password' : string)
    (m : Member) (s s1 : St W call) :
  keeps_members (repo uc) ->
  CreateMember uc email name password s = (Returned (Some m, None), s1) ->
  exists w' : W,
    CreateMember uc email name' password' s1 =
      (Returned (None, Some ErrMemberAlreadyExists),
       (w', snd s1 ++ [CallFindByEmail email])).
Proof.
  intros Hkeep Hrun.
  assert (Hsaved : exists w w',
             Save (repo uc) (Some m) w = (None, w') /\ fst s1 = w' /\
             member_email m = email).
  { unfold CreateMember in Hrun. unfold bind at 1 in Hrun.
    rewrite member_invoke_eq in Hrun. cbn [fst snd] in Hrun.
    destruct (fst (FindByEmail (repo uc) email (fst s))) as [found lookupErr].
    cbn [fst snd] in Hrun.
    destruct (match lookupErr with
              | Some err =>
                  if negb (errors_Is err Domain_ErrMemberNotFound) then Some err else None
              | None => None
              end); [discriminate|].
    destruct found; [discriminate|].
    unfold bind at 1, NewMember in Hrun.
    destruct (String.eqb email ""); [discriminate|].
    destruct (String.eqb name ""); [discriminate|].
    destruct (Nat.ltb (String.length password) 8); [discriminate|].
    unfold bind, effect, ret in Hrun. cbn [fst snd] in Hrun.
    destruct (time_Now (runtime uc) _) as [now wa]. cbn [fst snd] in Hrun.
    destruct (uuid_New (runtime uc) wa) as [id wb]. cbn [fst snd] in Hrun.
    rewrite member_invoke_eq in Hrun. cbn [fst snd] in Hrun.
    destruct (Save (repo uc) _ wb) as [saveErr wc] eqn:Hsave.
    cbn [fst snd] in Hrun. destruct saveErr; [discriminate|].
    injection Hrun as <- <-. exists wb, wc. now rewrite Hsave. }
  destruct Hsaved as (w & w' & Hsave & Hw & Hemail).
  destruct (Hkeep m w w' Hsave) as (q & w'' & Hfind).
  exists w''. apply (CreateMember_existing email name' password' q).
  now rewrite Hw, <- Hemail.
Qed.

(** X24: [UpdateMember] only renames.  With an empty name it fails with
    [ErrInvalidName] after the lookup alone; otherwise the member handed to
    [Update] has the new name and the current time as its update time, and
    the identifier, address, password and creation time it had; the answer
    of [Update] decides the result. *)
Theorem UpdateMember_only_renames (id name : string) (m : Member) (w1 : W)
    (s : St W call) :
  FindByID (repo uc) id (fst s) = ((Some m, None), w1) ->
  let m' := mkMember (member_id m) (member_email m) name (member_password m)
              (member_createdAt m) (fst (time_Now (runtime uc) w1)) in
  let upd := Update (repo uc) m' (snd (time_Now (runtime uc) w1)) in
  UpdateMember uc id name s =
    if String.eqb name "" then
      (Returned (None, Some ErrInvalidName), (w1, snd s ++ [CallFindByID id]))
    else
      (Returned match fst upd with
                | None => (Some m', None)
                | Some err => (None, Some err)
                end,
       (snd upd, snd s ++ [CallFindByID id; CallUpdate m'])).
Proof.
  intros Hfind m' upd. unfold UpdateMember.
  unfold bind at 1. rewrite member_invoke_eq, Hfind. cbn [fst snd].
  unfold bind at 1, callMethod, UpdateName.
  destruct (String.eqb name ""); [reflexivity|].
  cbn [fst snd]. destruct (time_Now (runtime uc) w1) as [now w2] eqn:Hnow.
  cbn [fst snd] in *. unfold bind. rewrite member_invoke_eq.
  cbn [fst snd member_id member_email member_name member_password member_createdAt].
  fold m'. fold upd. rewrite <- app_assoc. cbn [app].
  destruct (fst upd); reflexivity.
Qed.
End Members.

Section MemberNames.
Import MemberDomain MemberApp.
Context {W C : Type} (rt : Runtime W).

Lemma last_cons {A : Type} (l : list A) (a d : A) :
  List.last (a :: l) d = List.last l a.
Proof.
  revert a d. induction l as [|b l IH]; intros a d; [reflexivity|].
  change (List.last (a :: b :: l) d) with (List.last (b :: l) d).
  now rewrite !IH.
Qed.

(** X25: However often a member is renamed, with whatever names, the name it ends
    with is the last non-empty one that was requested (its own if there was
    none), and its identifier, address, password and creation time are
    untouched: it verifies exactly the passwords it verified before. *)
Theorem UpdateName_keeps_the_last_valid_name (names : list string) (m : Member)
    (s : St W C) :
  let m' := fst (UpdateNameAll rt names m s) in
  member_name m' =
    List.last (List.filter (fun n => negb (String.eqb n "")) names) (member_name m) /\
  member_id m' = member_id m /\
  member_email m' = member_email m /\
  member_createdAt m' = member_createdAt m /\
  forall attempt : string, VerifyPassword m' attempt = VerifyPassword m attempt.
Proof.
  cbn zeta. revert m s. induction names as [|name rest IH]; intros m s.
  - cbn. repeat split; reflexivity.
  - cbn [UpdateNameAll List.filter]. unfold UpdateName.
    destruct (String.eqb name "") eqn:Hn; cbn [negb].
    + apply IH.
    + destruct (time_Now rt (fst s)) as [now w'].
      match goal with
      | |- context [UpdateNameAll rt rest ?m1 ?s1] =>
          destruct (IH m1 s1) as (H1 & H2 & H3 & H4 & H5)
      end.
      cbn [member_name member_id member_email member_createdAt] in *.
      rewrite last_cons. repeat split; try assumption;
        intros attempt; now rewrite H5.
Qed.
End MemberNames.

Section MemberStore.
Import MemberDomain MemberApp.

Lemma member_found_after_append (f : Member -> bool) (m : Member) (l : list Member) :
  f m = true -> exists q, find f (l ++ [m]) = Some q.
Proof.
  intros Hm. induction l as [|a l IH]; cbn [app find].
  - rewrite Hm. now exists m.
  - destruct (f a); [now exists a | exact IH].
Qed.

Lemma storeRepo_keeps_members : keeps_members storeRepo.
Proof.
  intros m w w' Hsave. cbn in Hsave. injection Hsave as <-. cbn.
  destruct (member_found_after_append
              (fun q => String.eqb (member_email q) (member_email m)) m (members w)
              (String.eqb_refl _)) as [q Hq].
  rewrite Hq. now exists q, (mkStore (clock w) (uuids w) (members w ++ [m])).
Qed.
End MemberStore.

Lemma CreateMember_refuses_invalid_input_witness :
  MemberApp.reports_nobody
    (fst (MemberApp.FindByEmail (MemberApp.repo MemberApp.storeUseCase)
            "test@example.com" MemberApp.emptyStore)) = true /\
  (String.eqb "test@example.com" "" || String.eqb "tester" ""
   || Nat.ltb (String.length "1234567") 8) = true /\
  MemberApp.CreateMember MemberApp.storeUseCase "test@example.com" "tester" "1234567"
      (MemberApp.emptyStore, []) =
    (Returned (None, Some MemberDomain.ErrInvalidPassword),
     (MemberApp.emptyStore, [MemberApp.CallFindByEmail "test@example.com"])).
Proof.
  split; [reflexivity|]. split; [reflexivity|].
  exact (CreateMember_refuses_invalid_input MemberApp.storeUseCase "test@example.com"
           "tester" "1234567" (MemberApp.emptyStore, []) eq_refl eq_refl).
Defined.

Lemma CreateMember_saves_the_member_witness :
  "test@example.com" <> "" /\ "tester" <> "" /\ 8 <= String.length "password" /\
  exists (id : string) (now : Time) (w1 : MemberApp.Store),
    MemberApp.CreateMember MemberApp.storeUseCase "test@example.com" "tester" "password"
        (MemberApp.emptyStore, []) =
      (Returned
         match fst (MemberApp.Save (MemberApp.repo MemberApp.storeUseCase)
                      (Some (MemberDomain.mkMember id "test@example.com" "tester"
                               "password" now now)) w1)
         with
         | None =>
             (Some (MemberDomain.mkMember id "test@example.com" "tester" "password"
                      now now), None)
         | Some err => (None, Some err)
         end,
       (snd (MemberApp.Save (MemberApp.repo MemberApp.storeUseCase)
               (Some (MemberDomain.mkMember id "test@example.com" "tester" "password"
                        now now)) w1),
        [MemberApp.CallFindByEmail "test@example.com";
         MemberApp.CallSave
           (Some (MemberDomain.mkMember id "test@example.com" "tester" "password"
                    now now))])) /\
    forall attempt : string,
      MemberDomain.VerifyPassword
        (MemberDomain.mkMember id "test@example.com" "tester" "password" now now) attempt
        = true <-> attempt = "password".
Proof.
  split; [discriminate|]. split; [discriminate|]. split; [cbn; lia|].
  exact (CreateMember_saves_the_member MemberApp.storeUseCase "test@example.com" "tester"
           "password" (MemberApp.emptyStore, []) eq_refl
           ltac:(discriminate) ltac:(discriminate) ltac:(cbn; lia)).
Defined.

(** The run behind it: a password of exactly eight bytes is accepted. *)
Example CreateMember_run :
  MemberApp.CreateMember MemberApp.storeUseCase "test@example.com" "tester" "password"
      (MemberApp.emptyStore, []) =
    (Returned
       (Some (MemberDomain.mkMember "uuid-1" "test@example.com" "tester" "password"
                1000%Z 1000%Z), None),
     (MemberApp.mkStore 1001%Z ["uuid-2"; "uuid-3"]
        [MemberDomain.mkMember "uuid-1" "test@example.com" "tester" "password"
           1000%Z 1000%Z],
      [MemberApp.CallFindByEmail "test@example.com";
       MemberApp.CallSave
         (Some (MemberDomain.mkMember "uuid-1" "test@example.com" "tester" "password"
                  1000%Z 1000%Z))])).
Proof. reflexivity. Qed.

Lemma CreateMember_once_per_email_witness :
  MemberApp.CreateMember MemberApp.storeUseCase "test@example.com" "tester"
      "password123" (MemberApp.emptyStore, []) =
    (Returned (Some MemberApp.sampleMember, None),
     (MemberApp.storeWith MemberApp.sampleMember,
      [MemberApp.CallFindByEmail "test@example.com";
       MemberApp.CallSave (Some MemberApp.sampleMember)])) /\
  exists w' : MemberApp.Store,
    MemberApp.CreateMember MemberApp.storeUseCase "test@example.com" "somebody else"
        "password456"
        (MemberApp.storeWith MemberApp.sampleMember,
         [MemberApp.CallFindByEmail "test@example.com";
          MemberApp.CallSave (Some MemberApp.sampleMember)]) =
      (Returned (None, Some MemberApp.ErrMemberAlreadyExists),
       (w',
        [MemberApp.CallFindByEmail "test@example.com";
         MemberApp.CallSave (Some MemberApp.sampleMember);
         MemberApp.CallFindByEmail "test@example.com"])).
Proof.
  split; [reflexivity|].
  exact (CreateMember_once_per_email MemberApp.storeUseCase "test@example.com" "tester"
           "somebody else" "password123" "password456" MemberApp.sampleMember
           (MemberApp.emptyStore, [])
           (MemberApp.storeWith MemberApp.sampleMember,
            [MemberApp.CallFindByEmail "test@example.com";
             MemberApp.CallSave (Some MemberApp.sampleMember)])
           storeRepo_keeps_members eq_refl).
Defined.

Lemma UpdateMember_only_renames_witness :
  MemberApp.UpdateMember MemberApp.storeUseCase "uuid-1" "renamed"
      (MemberApp.storeWith MemberApp.sampleMember, []) =
    (Returned
       (Some (MemberDomain.mkMember "uuid-1" "test@example.com" "renamed" "password123"
                1000%Z 1001%Z), None),
     (MemberApp.mkStore 1002%Z ["uuid-2"; "uuid-3"]
        [MemberDomain.mkMember "uuid-1" "test@example.com" "renamed" "password123"
           1000%Z 1001%Z],
      [MemberApp.CallFindByID "uuid-1";
       MemberApp.CallUpdate
         (MemberDomain.mkMember "uuid-1" "test@example.com" "renamed" "password123"
            1000%Z 1001%Z)])) /\
  MemberApp.UpdateMember MemberApp.storeUseCase "uuid-1" ""
      (MemberApp.storeWith MemberApp.sampleMember, []) =
    (Returned (None, Some MemberDomain.ErrInvalidName),
     (MemberApp.storeWith MemberApp.sampleMember, [MemberApp.CallFindByID "uuid-1"])).
Proof.
  split.
  - exact (UpdateMember_only_renames MemberApp.storeUseCase "uuid-1" "renamed"
             MemberApp.sampleMember (MemberApp.storeWith MemberApp.sampleMember)
             (MemberApp.storeWith MemberApp.sampleMember, []) eq_refl).
  - exact (UpdateMember_only_renames MemberApp.storeUseCase "uuid-1" ""
             MemberApp.sampleMember (MemberApp.storeWith MemberApp.sampleMember)
             (MemberApp.storeWith MemberApp.sampleMember, []) eq_refl).
Defined.

(** * Further properties: the database configuration *)

Section DatabaseConfiguration.
Import SharedDB.

(** X26: [getEnv] reads back what the environment holds: the value of a variable
    that is set, the empty string included, and the default only for a
    variable that is not set; setting or unsetting one variable does not
    change what is read for another. *)
Theorem getEnv_reads_the_environment (env : Env) (key other value defaultValue : string) :
  getEnv (<[key := value]> env) key defaultValue = value /\
  getEnv (<[key := ""]> env) key defaultValue = "" /\
  getEnv (delete key env) key defaultValue = defaultValue /\
  (other <> key ->
   getEnv (<[key := value]> env) other defaultValue = getEnv env other defaultValue /\
   getEnv (delete key env) other defaultValue = getEnv env other defaultValue).
Proof.
  unfold getEnv. split; [|split; [|split]].
  - now rewrite (lookup_insert_eq env key value).
  - now rewrite (lookup_insert_eq env key "").
  - now rewrite (lookup_delete_eq env key).
  - intros Hother. split.
    + rewrite (lookup_insert_ne env key other value); [reflexivity | congruence].
    + rewrite (lookup_delete_ne env key other); [reflexivity | congruence].
Qed.

(** X27: In an environment that sets none of the six database variables, the
    connection string is the one of the local default database. *)
Theorem default_connection_string (env : Env) :
  (forall key : string, In key variables -> env !! key = None) ->
  connString (configFromEnv env) =
    "host=localhost port=5432 user=postgres password=postgres dbname=myapp sslmode=disable".
Proof.
  intros Hunset. unfold configFromEnv, getEnv.
  rewrite !Hunset by (cbn; tauto). reflexivity.
Qed.
End DatabaseConfiguration.

Lemma getEnv_reads_the_environment_witness :
  "DB_PORT" <> "DB_HOST" /\
  SharedDB.getEnv (<["DB_HOST" := "db.internal"]> ∅) "DB_PORT" "5432"
    = SharedDB.getEnv ∅ "DB_PORT" "5432" /\
  SharedDB.getEnv (delete "DB_HOST" ∅) "DB_PORT" "5432"
    = SharedDB.getEnv ∅ "DB_PORT" "5432".
Proof.
  split; [discriminate|].
  exact (proj2 (proj2 (proj2
           (getEnv_reads_the_environment ∅ "DB_HOST" "DB_PORT" "db.internal" "5432")))
           ltac:(discriminate)).
Defined.

Lemma default_connection_string_witness :
  (forall key : string,
      In key SharedDB.variables -> (∅ : SharedDB.Env) !! key = None) /\
  SharedDB.connString (SharedDB.configFromEnv ∅) =
    "host=localhost port=5432 user=postgres password=postgres dbname=myapp sslmode=disable".
Proof.
  assert (Hunset : forall key : string,
             In key SharedDB.variables -> (∅ : SharedDB.Env) !! key = None)
    by (intros key _; apply lookup_empty).
  split; [exact Hunset|].
  exact (default_connection_string ∅ Hunset).
Defined.
